(** * Smart-SOS dashboard: the reading store, the ingest tick and the date filter

    A shallow embedding of [main.py].  The script is a Streamlit page: every
    refresh runs it from top to bottom against the session state and the
    backing file [iot_data.csv].  The functions of the script
    ([load_data], [save_data], [generate_iot_reading]) and the script body
    itself are translated below; the library calls they make ([round],
    [random.uniform], [pd.concat], [DataFrame.to_csv], [pd.read_csv], the
    [.dt] accessor, the boolean-mask selection) are given executable models
    in the modules [PyFloat], [PyText], [PyDatetime], [Pandas] and
    [PandasIO].  What a run takes from outside (the widgets, the clock, the
    random source, the disk) is an explicit input, [Env].

    A frame carries the dtype of each of its columns, because the script's
    behaviour depends on it: [pd.DataFrame(columns=...)] builds columns of
    dtype [object], [pd.concat] keeps a column [object] when one of its
    parts is (pandas 3 lets the dtype of an empty part count), [pd.read_csv]
    with [parse_dates] gives a [datetime64] column, and [.dt] and the CSV
    writer treat the two differently.

    Python floats are idealised as finite decimals with exact arithmetic: a
    [float] is a mantissa and a number of decimal places.  Binary rounding
    error is outside the model.  Where the model of a library call does
    not cover an input, the call's outcome is [Unmodelled] and nothing is
    stated about it. *)

From Stdlib Require Import ZArith List String Ascii Bool Lia Permutation Sorted.
Import ListNotations.
Local Open Scope Z_scope.

(** ** Exceptions and results *)

(** The exceptions the script can die with, all of them the libraries' own:
    [main.py] defines no exception class and catches nothing, a raised
    exception ends the current run of the script. *)
Inductive exn : Type :=
| EmptyDataError      (* pd.read_csv: no columns to parse from file *)
| ParserError         (* pd.read_csv: a row has more fields than expected *)
| ValueError          (* pd.read_csv: missing column provided to parse_dates;
                         a float format applied to text *)
| KeyError            (* df["timestamp"] on a frame without that column *)
| AttributeError      (* .dt on a column that is not datetime64;
                         .date() on a value that is no date-time *)
| OSError.            (* DataFrame.to_csv: the file cannot be written *)

(** What a call comes to: a value, an exception, or an outcome the model of
    the libraries does not cover. *)
Inductive result (A : Type) : Type :=
| Ok (a : A)
| Raise (e : exn)
| Unmodelled.
Arguments Ok {A} a.
Arguments Raise {A} e.
Arguments Unmodelled {A}.

Definition bind {A B} (r : result A) (k : A -> result B) : result B :=
  match r with
  | Ok a => k a
  | Raise e => Raise e
  | Unmodelled => Unmodelled
  end.

Notation "x <- r ;; k" := (bind r (fun x => k))
  (at level 61, r at next level, right associativity).

Definition obind {A B} (o : option A) (k : A -> option B) : option B :=
  match o with
  | Some a => k a
  | None => None
  end.

Notation "x <~ o ;; k" := (obind o (fun x => k))
  (at level 61, o at next level, right associativity).

Definition is_some {A} (o : option A) : bool :=
  match o with Some _ => true | None => false end.

(** ** Floats as finite decimals *)

Module PyFloat.

(** The value of [{| dmant := m; dexp := e |}] is [m / 10^e]. *)
Record float : Type := mkFloat { dmant : Z; dexp : nat }.

Definition pow10 (e : nat) : Z := 10 ^ Z.of_nat e.

(** Canonical representative: no trailing zero among the decimal places. *)
Fixpoint strip0 (m : Z) (e : nat) : float :=
  match e with
  | O => mkFloat m O
  | S e' => if m mod 10 =? 0 then strip0 (m / 10) e' else mkFloat m e
  end.

Definition canon (x : float) : float := strip0 (dmant x) (dexp x).

Definition canonical (x : float) : Prop := canon x = x.

Definition of_Z (n : Z) : float := mkFloat n O.

Definition add (x y : float) : float :=
  let e := Nat.max (dexp x) (dexp y) in
  canon (mkFloat (dmant x * pow10 (e - dexp x) + dmant y * pow10 (e - dexp y)) e).

Definition opp (x : float) : float := mkFloat (- dmant x) (dexp x).

Definition sub (x y : float) : float := add x (opp y).

Definition mul (x y : float) : float :=
  canon (mkFloat (dmant x * dmant y) (dexp x + dexp y)).

Definition le (x y : float) : Prop :=
  dmant x * pow10 (dexp y) <= dmant y * pow10 (dexp x).

Definition lt (x y : float) : Prop :=
  dmant x * pow10 (dexp y) < dmant y * pow10 (dexp x).

Definition eqv (x y : float) : Prop :=
  dmant x * pow10 (dexp y) = dmant y * pow10 (dexp x).

(** [round(x, ndigits)]: round half to even at [ndigits] decimal places. *)
Definition round (x : float) (ndigits : nat) : float :=
  if (dexp x <=? ndigits)%nat then canon x
  else
    let p := pow10 (dexp x - ndigits) in
    let q := dmant x / p in
    let r := dmant x mod p in
    let k := if 2 * r <? p then q
             else if p <? 2 * r then q + 1
             else if Z.even q then q else q + 1 in
    canon (mkFloat k ndigits).

(** [random.uniform(a, b)] is [a + (b - a) * self.random()]; [u] is the
    value [random()] returned, a float in the half-open interval [0, 1). *)
Definition uniform (a b u : float) : float := add a (mul (sub b a) u).

Definition unit_interval (u : float) : Prop :=
  le (of_Z 0) u /\ lt u (of_Z 1).

(** [x] is zero, or [1e-4 <= abs(x) < 1e16]: the values [repr] writes in
    positional notation. *)
Definition positional (x : float) : bool :=
  let c := canon x in
  (dmant c =? 0)
  || ((pow10 (dexp c) <=? Z.abs (dmant c) * pow10 4)
      && (Z.abs (dmant c) <? pow10 (16 + dexp c))).

End PyFloat.

Import PyFloat.

(** ** Text: digits, separators, the text form of a float *)

Module PyText.

Local Open Scope string_scope.

Definition newline : ascii := "010"%char.
Definition comma : ascii := ","%char.
Definition dot : ascii := "."%char.
Definition minus : ascii := "-"%char.

Definition digit_char (d : Z) : ascii := ascii_of_nat (48 + Z.to_nat d).

Definition digit_val (c : ascii) : option Z :=
  let n := nat_of_ascii c in
  if ((48 <=? n) && (n <=? 57))%nat then Some (Z.of_nat (n - 48)) else None.

(** The last [w] decimal digits of [n], most significant first
    ([f"{n:0{w}d}"] when [0 <= n < 10^w]). *)
Fixpoint zfill (w : nat) (n : Z) : string :=
  match w with
  | O => ""
  | S w' => String (digit_char ((n / pow10 w') mod 10)) (zfill w' n)
  end.

Fixpoint lstrip0 (s : string) : string :=
  match s with
  | String c s' =>
      if (c =? "0")%char
      then match s' with "" => s | _ => lstrip0 s' end
      else s
  | "" => s
  end.

(** [s.rstrip("0")] *)
Fixpoint rstrip0 (s : string) : string :=
  match s with
  | "" => ""
  | String c s' =>
      match rstrip0 s' with
      | "" => if (c =? "0")%char then "" else String c ""
      | r => String c r
      end
  end.

(** [str(n)] for [0 <= n]. *)
Definition str_nat (n : Z) : string :=
  lstrip0 (zfill (S (Z.to_nat (Z.log2 n))) n).

Fixpoint digits_value (acc : Z) (s : string) : option Z :=
  match s with
  | "" => Some acc
  | String c s' => d <~ digit_val c ;; digits_value (acc * 10 + d) s'
  end.

(** A non-empty run of digits, read as a number. *)
Definition parse_nat (s : string) : option Z :=
  match s with
  | "" => None
  | _ => digits_value 0 s
  end.

(** Exactly [w] digits read off the front of [s]. *)
Fixpoint take_digits (w : nat) (acc : Z) (s : string) : option (Z * string) :=
  match w with
  | O => Some (acc, s)
  | S w' =>
      match s with
      | String c s' => d <~ digit_val c ;; take_digits w' (acc * 10 + d) s'
      | "" => None
      end
  end.

Definition expect (c : ascii) (s : string) : option string :=
  match s with
  | String c' s' => if (c' =? c)%char then Some s' else None
  | "" => None
  end.

(** [s.split(sep)] *)
Fixpoint split_on (sep : ascii) (s : string) : list string :=
  match s with
  | "" => [""]
  | String c s' =>
      if (c =? sep)%char then "" :: split_on sep s'
      else match split_on sep s' with
           | f :: fs => String c f :: fs
           | [] => [String c ""]
           end
  end.

Fixpoint string_forall (p : ascii -> bool) (s : string) : bool :=
  match s with
  | "" => true
  | String c s' => p c && string_forall p s'
  end.

Definition string_exists (p : ascii -> bool) (s : string) : bool :=
  negb (string_forall (fun c => negb (p c)) s).

(** [repr(x)] in positional notation: sign, integer part, point, the
    decimal places, with ".0" for a whole number. *)
Definition float_positional (x : float) : string :=
  let c := canon x in
  let a := Z.abs (dmant c) in
  let e := dexp c in
  (if (dmant c <? 0)%Z then "-" else "")
    ++ str_nat (a / pow10 e)
    ++ String dot (match e with O => "0" | _ => zfill e a end).

(** The position of the decimal point relative to the first significant
    digit: [abs(x)] is [0.d1d2... * 10^decpt]. *)
Definition decpt (x : float) : Z :=
  let c := canon x in
  (Z.of_nat (length (str_nat (Z.abs (dmant c)))) - Z.of_nat (dexp c))%Z.

(** [repr(x)] in exponent notation: the significant digits with a point
    after the first, [e], the sign of the exponent and at least two
    digits of it ([1e+16], [1.5e-05]). *)
Definition float_scientific (x : float) : string :=
  let c := canon x in
  let e := (decpt x - 1)%Z in
  (if (dmant c <? 0)%Z then "-" else "")
    ++ match rstrip0 (str_nat (Z.abs (dmant c))) with
       | String d "" => String d ""
       | String d ds => String d (String dot ds)
       | "" => ""
       end
    ++ "e" ++ (if (e <? 0)%Z then "-" else "+")
    ++ (if (Z.abs e <? 10)%Z then "0" else "") ++ str_nat (Z.abs e).

(** [repr(x)], which is also what the CSV writer prints for a float:
    positional notation for zero and from [1e-4] up to [1e16], exponent
    notation outside. *)
Definition float_repr (x : float) : string :=
  if positional x then float_positional x else float_scientific x.

Definition parse_unsigned (s : string) : option float :=
  match split_on dot s with
  | [ip] => n <~ parse_nat ip ;; Some (mkFloat n 0)
  | [ip; fp] =>
      n <~ parse_nat ip ;;
      f <~ parse_nat fp ;;
      Some (canon (mkFloat (n * pow10 (length fp) + f) (length fp)))
  | _ => None
  end.

(** The value of a plain decimal numeral: an optional minus sign, digits,
    and optionally a point and more digits. *)
Definition parse_float (s : string) : option float :=
  match s with
  | String c r =>
      if (c =? minus)%char then x <~ parse_unsigned r ;; Some (opp x)
      else parse_unsigned s
  | "" => None
  end.

(** [f"{x:.2f}"]: the sign is that of [x], also when the rounded value is
    zero. *)
Definition format_2f (x : float) : string :=
  let r := PyFloat.round x 2 in
  let k := dmant r * pow10 (2 - dexp r) in
  let a := Z.abs k in
  (if (dmant x <? 0)%Z then "-" else "") ++ str_nat (a / 100) ++ String dot (zfill 2 a).

End PyText.

Import PyText.


(** ** Dates and date-times *)

Module PyDatetime.

Local Open Scope string_scope.

(** [datetime.date] *)
Record date : Type := mkDate { dyear : Z; dmonth : Z; dday : Z }.

(** A naive [datetime.datetime], as [datetime.now()] returns it. *)
Record datetime : Type := mkDatetime {
  year : Z; month : Z; day : Z;
  hour : Z; minute : Z; second : Z; microsecond : Z
}.

(** [t.date()]: the calendar day, the time of day dropped. *)
Definition date_of (t : datetime) : date :=
  mkDate (year t) (month t) (day t).

Fixpoint lex_leb (a b : list Z) : bool :=
  match a, b with
  | x :: a', y :: b' => (x <? y)%Z || ((x =? y)%Z && lex_leb a' b')
  | [], _ => true
  | _ :: _, [] => false
  end.

(** [a <= b] on dates. *)
Definition date_leb (a b : date) : bool :=
  lex_leb [dyear a; dmonth a; dday a] [dyear b; dmonth b; dday b].

Definition datetime_key (t : datetime) : list Z :=
  [year t; month t; day t; hour t; minute t; second t; microsecond t].

Definition datetime_leb (a b : datetime) : bool :=
  lex_leb (datetime_key a) (datetime_key b).

Definition is_leap (y : Z) : bool :=
  ((y mod 4 =? 0)%Z && negb (y mod 100 =? 0)%Z) || (y mod 400 =? 0)%Z.

Definition days_in_month (y m : Z) : Z :=
  if (m =? 2)%Z then (if is_leap y then 29 else 28)
  else if ((m =? 4) || (m =? 6) || (m =? 9) || (m =? 11))%Z then 30
  else 31.

Definition in_range (lo x hi : Z) : bool := ((lo <=? x) && (x <=? hi))%Z.

(** The values a [datetime] object can hold. *)
Definition valid_datetime (t : datetime) : bool :=
  in_range 1 (year t) 9999 && in_range 1 (month t) 12
  && in_range 1 (day t) (days_in_month (year t) (month t))
  && in_range 0 (hour t) 23 && in_range 0 (minute t) 59
  && in_range 0 (second t) 59 && in_range 0 (microsecond t) 999999.

(** How much of a date-time a text form shows. *)
Inductive resolution : Type := ResDay | ResSecond | ResMilli | ResMicro.

Definition resolution_rank (r : resolution) : nat :=
  match r with ResDay => 0 | ResSecond => 1 | ResMilli => 2 | ResMicro => 3 end.

Definition resolution_eqb (a b : resolution) : bool :=
  (resolution_rank a =? resolution_rank b)%nat.

Definition resolution_max (a b : resolution) : resolution :=
  if (resolution_rank a <=? resolution_rank b)%nat then b else a.

Definition resolution_of (t : datetime) : resolution :=
  if negb (microsecond t mod 1000 =? 0)%Z then ResMicro
  else if negb (microsecond t =? 0)%Z then ResMilli
  else if ((hour t =? 0) && (minute t =? 0) && (second t =? 0))%Z then ResDay
  else ResSecond.

(** The resolution a [datetime64] column is written at: the finest any of
    its values needs. *)
Definition column_resolution (ts : list datetime) : resolution :=
  fold_right (fun t r => resolution_max (resolution_of t) r) ResDay ts.

(** [a], [b] and [c] in digits, [a] of width [w], the others of width 2,
    with [sep] between them. *)
Definition format_triple (w : nat) (sep : ascii) (a b c : Z) : string :=
  zfill w a ++ String sep (zfill 2 b ++ String sep (zfill 2 c)).

(** The day, the year in four digits.  (How the libraries print a year
    before 1000 is not modelled.) *)
Definition format_date (t : datetime) : string :=
  format_triple 4 "-" (year t) (month t) (day t).

Definition format_clock (t : datetime) : string :=
  format_triple 2 ":" (hour t) (minute t) (second t).

Definition format_datetime (r : resolution) (t : datetime) : string :=
  match r with
  | ResDay => format_date t
  | ResSecond => format_date t ++ String " " (format_clock t)
  | ResMilli =>
      format_date t
        ++ String " " (format_clock t ++ String "." (zfill 3 (microsecond t / 1000)))
  | ResMicro =>
      format_date t
        ++ String " " (format_clock t ++ String "." (zfill 6 (microsecond t)))
  end.

(** The form [str(t)] takes: the fraction is shown only when there is
    one, and then in six digits. *)
Definition str_resolution (t : datetime) : resolution :=
  if (microsecond t =? 0)%Z then ResSecond else ResMicro.

(** [str(t)] *)
Definition datetime_str (t : datetime) : string :=
  format_datetime (str_resolution t) t.

(** Whether the text at resolution [r] shows all of [t]. *)
Definition fits (r : resolution) (t : datetime) : bool :=
  match r with
  | ResDay =>
      ((hour t =? 0) && (minute t =? 0) && (second t =? 0)
       && (microsecond t =? 0))%Z
  | ResSecond => (microsecond t =? 0)%Z
  | ResMilli => (microsecond t mod 1000 =? 0)%Z
  | ResMicro => true
  end.

Definition take_triple (w : nat) (sep : ascii) (s : string)
  : option (Z * Z * Z * string) :=
  r1 <~ take_digits w 0 s ;;
  s1 <~ expect sep (snd r1) ;;
  r2 <~ take_digits 2 0 s1 ;;
  s2 <~ expect sep (snd r2) ;;
  r3 <~ take_digits 2 0 s2 ;;
  Some (fst r1, fst r2, fst r3, snd r3).

Definition parse_fraction (s : string) : option Z :=
  match length s with
  | 3%nat => ms <~ parse_nat s ;; Some (ms * 1000)%Z
  | 6%nat => parse_nat s
  | _ => None
  end.

Definition checked (t : datetime) : option datetime :=
  if valid_datetime t then Some t else None.

(** The value of a date-time written in one of the forms the CSV writer
    produces: [YYYY-MM-DD], optionally followed by [ HH:MM:SS] and a
    fraction of three or six digits. *)
Definition parse_datetime (s : string) : option datetime :=
  d <~ take_triple 4 "-" s ;;
  let '(y, mo, dd, rest) := d in
  match rest with
  | "" => checked (mkDatetime y mo dd 0 0 0 0)
  | _ =>
      s1 <~ expect " " rest ;;
      c <~ take_triple 2 ":" s1 ;;
      let '(h, mi, sec, rest') := c in
      match rest' with
      | "" => checked (mkDatetime y mo dd h mi sec 0)
      | _ =>
          s2 <~ expect "." rest' ;;
          us <~ parse_fraction s2 ;;
          checked (mkDatetime y mo dd h mi sec us)
      end
  end.

(** Which of the four forms a text is written in, if any. *)
Definition text_resolution (s : string) : option resolution :=
  match parse_datetime s with
  | None => None
  | Some _ =>
      match length s with
      | 10%nat => Some ResDay
      | 19%nat => Some ResSecond
      | 23%nat => Some ResMilli
      | 26%nat => Some ResMicro
      | _ => None
      end
  end.

End PyDatetime.

Import PyDatetime.

(** ** Character classes *)

Definition is_digit (c : ascii) : bool := is_some (digit_val c).

Definition is_lower (c : ascii) : bool :=
  let n := nat_of_ascii c in ((97 <=? n) && (n <=? 122))%nat.

Definition is_upper (c : ascii) : bool :=
  let n := nat_of_ascii c in ((65 <=? n) && (n <=? 90))%nat.

Definition differs (sep : ascii) (c : ascii) : bool := negb (c =? sep)%char.

(** The characters the text of a date-time or of a float in positional
    notation is made of. *)
Definition plain_char (c : ascii) : bool :=
  is_digit c || (c =? "-")%char || (c =? ":")%char || (c =? " ")%char || (c =? ".")%char.

(** ** Data frames *)

Module Pandas.

Local Open Scope string_scope.

Inductive cell : Type :=
| NaN                   (* a missing value (NaN, NaT) *)
| Num (x : float)
| Str (s : string)
| Time (t : datetime).

(** The dtype of a column: [object] (any Python values), [float64],
    [int64], [datetime64] and [str] (text). *)
Inductive dtype : Type := object | float64 | int64 | datetime64 | str.

(** A frame with the default integer index: the column labels, the dtype
    of each column, and the rows in index order, each row holding one cell
    per column. *)
Record DataFrame : Type := mkFrame {
  columns : list string;
  dtypes : list dtype;
  rows : list (list cell)
}.

(** A column taken out of a frame. *)
Record Series : Type := mkSeries {
  dtype_of : dtype;
  values : list cell
}.

(** [df.empty]: some axis has length 0. *)
Definition empty (df : DataFrame) : bool :=
  match columns df, rows df with
  | [], _ => true
  | _, [] => true
  | _, _ => false
  end.

Fixpoint index_of (name : string) (cols : list string) : option nat :=
  match cols with
  | [] => None
  | c :: cs => if String.eqb c name then Some O else option_map S (index_of name cs)
  end.

Definition has_column (cols : list string) (name : string) : bool :=
  existsb (String.eqb name) cols.

(** The labels of [a], then the labels of [b] that [a] lacks. *)
Definition union_columns (a b : list string) : list string :=
  (a ++ filter (fun c => negb (has_column a c)) b)%list.

Definition cell_at (cols : list string) (row : list cell) (name : string) : cell :=
  match index_of name cols with
  | Some i => nth i row NaN
  | None => NaN
  end.

Definition dtype_at (df : DataFrame) (name : string) : dtype :=
  match index_of name (columns df) with
  | Some i => nth i (dtypes df) object
  | None => object
  end.

(** The rows of [df] laid out on the labels [cols], NaN where [df] has no
    such column. *)
Definition reindex (cols : list string) (df : DataFrame) : list (list cell) :=
  map (fun row => map (cell_at (columns df) row) cols) (rows df).

Definition is_time (c : cell) : bool :=
  match c with Time _ => true | _ => false end.

Definition is_text (c : cell) : bool :=
  match c with Str _ => true | _ => false end.

Definition time_or_nan (c : cell) : bool :=
  match c with Time _ | NaN => true | _ => false end.

Definition num_or_nan (c : cell) : bool :=
  match c with Num _ | NaN => true | _ => false end.

Definition text_or_nan (c : cell) : bool :=
  match c with Str _ | NaN => true | _ => false end.

Fixpoint times (cells : list cell) : list datetime :=
  match cells with
  | [] => []
  | Time t :: cs => t :: times cs
  | _ :: cs => times cs
  end.

(** The dtype the constructor infers for a column of Python values. *)
Definition infer_dtype (cells : list cell) : dtype :=
  if forallb num_or_nan cells then float64
  else if forallb time_or_nan cells then datetime64
  else if forallb text_or_nan cells then str
  else object.

(** [pd.DataFrame(columns=cols)]: no rows, every column of dtype
    [object]. *)
Definition DataFrame_columns (cols : list string) : DataFrame :=
  mkFrame cols (map (fun _ => object) cols) [].

(** [pd.DataFrame([d1, d2, ...])], each [d] a dict in insertion order. *)
Definition DataFrame_records (records : list (list (string * cell))) : DataFrame :=
  let cols := fold_left (fun acc d => union_columns acc (map fst d)) records [] in
  let rws := map (fun d => map (cell_at (map fst d) (map snd d)) cols) records in
  mkFrame cols
    (map (fun j => infer_dtype (map (fun row => nth j row NaN) rws))
         (seq 0 (List.length cols)))
    rws.

(** The dtype that holds the values of two columns laid end to end. *)
Definition common_dtype (a b : dtype) : dtype :=
  match a, b with
  | float64, float64 | float64, int64 | int64, float64 => float64
  | int64, int64 => int64
  | datetime64, datetime64 => datetime64
  | str, str => str
  | _, _ => object
  end.

(** The dtype of a column once it has to hold a missing value. *)
Definition hold_na (d : dtype) : dtype :=
  match d with int64 => float64 | _ => d end.

(** [pd.concat([a, b], ignore_index=True)]: the rows of [a], then the rows
    of [b], renumbered, over the union of the columns.  A column both
    frames have gets the common dtype of the two, whether or not the
    frames have rows: laid after the empty [object] column of
    [pd.DataFrame(columns=...)], date-times and floats are held as
    [object]. *)
Definition concat (a b : DataFrame) : DataFrame :=
  let cols := union_columns (columns a) (columns b) in
  mkFrame cols
    (map (fun c =>
            if has_column (columns a) c
            then if has_column (columns b) c
                 then common_dtype (dtype_at a c) (dtype_at b c)
                 else hold_na (dtype_at a c)
            else hold_na (dtype_at b c))
         cols)
    (reindex cols a ++ reindex cols b)%list.

(** [df[name]] *)
Definition column (name : string) (df : DataFrame) : result Series :=
  match index_of name (columns df) with
  | Some i => Ok (mkSeries (nth i (dtypes df) object)
                           (map (fun row => nth i row NaN) (rows df)))
  | None => Raise KeyError
  end.

(** [df[names]] *)
Definition select (names : list string) (df : DataFrame) : result DataFrame :=
  if forallb (has_column (columns df)) names
  then Ok (mkFrame names (map (dtype_at df) names) (reindex names df))
  else Raise KeyError.

(** [series.dt.date]: only a [datetime64] column has the [.dt] accessor
    ("Can only use .dt accessor with datetimelike values"); it gives the
    calendar day of every value, and no day for a missing value. *)
Definition dt_date (s : Series) : result (list (option date)) :=
  match dtype_of s with
  | datetime64 =>
      Ok (map (fun c => match c with
                        | Time t => Some (date_of t)
                        | _ => None
                        end) (values s))
  | _ => Raise AttributeError
  end.

(** [days >= d] and [days <= d], value by value; a missing day compares
    false. *)
Definition days_ge (days : list (option date)) (d : date) : list bool :=
  map (fun o => match o with Some x => date_leb d x | None => false end) days.

Definition days_le (days : list (option date)) (d : date) : list bool :=
  map (fun o => match o with Some x => date_leb x d | None => false end) days.

(** [df.loc[mask]] with a boolean mask: the rows whose flag is set, in
    index order. *)
Fixpoint loc {A} (xs : list A) (mask : list bool) : list A :=
  match xs, mask with
  | x :: xs', b :: mask' => if b then x :: loc xs' mask' else loc xs' mask'
  | _, _ => []
  end.

(** [a & b] on boolean series. *)
Fixpoint series_and (a b : list bool) : list bool :=
  match a, b with
  | x :: a', y :: b' => (x && y) :: series_and a' b'
  | _, _ => []
  end.

(** [df.iloc[-1]] *)
Definition iloc_last (df : DataFrame) : result (list (string * cell)) :=
  match rev (rows df) with
  | r :: _ => Ok (combine (columns df) r)
  | [] => Raise KeyError
  end.

Fixpoint lookup (name : string) (d : list (string * cell)) : result cell :=
  match d with
  | [] => Raise KeyError
  | (k, v) :: d' => if String.eqb k name then Ok v else lookup name d'
  end.

Definition timestamp_key (name : string) (cols : list string) (row : list cell)
  : option datetime :=
  match cell_at cols row name with
  | Time t => Some t
  | _ => None
  end.

(** Whether [a] goes strictly before [b] in descending order, missing keys
    last. *)
Definition before_desc (a b : option datetime) : bool :=
  match a, b with
  | Some x, Some y => negb (datetime_leb x y)
  | Some _, None => true
  | None, _ => false
  end.

(** [r] put in front of a list sorted in descending order: it goes past
    the rows that come strictly before it and stays in front of its
    equals. *)
Fixpoint insert_desc (key : list cell -> option datetime) (r : list cell)
  (sorted : list (list cell)) : list (list cell) :=
  match sorted with
  | [] => [r]
  | s :: rest =>
      if before_desc (key s) (key r) then s :: insert_desc key r rest
      else r :: sorted
  end.

(** [df.sort_values(name, ascending=False).reset_index(drop=True)] on a
    column of date-times, missing values last.  Rows with equal keys stay
    in frame order, as the library's sort leaves them on short columns;
    the library makes no promise for them.  Sorting a column of other
    values is not modelled. *)
Definition sort_values_desc (name : string) (df : DataFrame) : result DataFrame :=
  match column name df with
  | Ok s =>
      if match dtype_of s with
         | datetime64 => forallb time_or_nan (values s)
         | object => forallb is_time (values s)
         | _ => false
         end
      then Ok (mkFrame (columns df) (dtypes df)
                 (fold_right (insert_desc (timestamp_key name (columns df))) [] (rows df)))
      else Unmodelled
  | Raise e => Raise e
  | Unmodelled => Unmodelled
  end.

End Pandas.

Import Pandas.

(** ** The CSV writer and reader *)

Module PandasIO.

Local Open Scope string_scope.

(** Every line followed by the line terminator. *)
Fixpoint unlines (ls : list string) : string :=
  match ls with
  | [] => ""
  | l :: ls' => l ++ String newline (unlines ls')
  end.

Definition join_fields (fs : list string) : string := String.concat "," fs.

Definition nth_cell (j : nat) (row : list cell) : cell := nth j row NaN.

Definition quote : ascii := "034"%char.
Definition carriage_return : ascii := "013"%char.

Fixpoint double_quotes (s : string) : string :=
  match s with
  | "" => ""
  | String c s' =>
      if (c =? quote)%char then String quote (String quote (double_quotes s'))
      else String c (double_quotes s')
  end.

(** Text is written as it is, unless it holds a separator, a quote or a
    line end: then it is put in quotes, its own quotes doubled. *)
Definition csv_text (s : string) : string :=
  if string_exists (fun c => (c =? comma) || (c =? quote) || (c =? newline)
                             || (c =? carriage_return))%char s
  then String quote (double_quotes s ++ String quote "")
  else s.

(** [str(n)] for a whole number held in an [int64] column. *)
Definition int_text (x : float) : string :=
  let c := canon x in
  (if (dmant c <? 0)%Z then "-" else "")
    ++ str_nat (Z.abs (dmant c) / pow10 (dexp c)).

(** The resolution each column is written at; it matters for [datetime64]
    columns only. *)
Definition column_resolutions (df : DataFrame) : list resolution :=
  map (fun j => column_resolution (times (map (nth_cell j) (rows df))))
      (seq 0 (List.length (columns df))).

(** The text of one field.  The writer goes by the dtype of the column: a
    [datetime64] column is written at one resolution, the finest any of
    its values needs; a date-time held in a column of another dtype is
    written as its own [str].  A float is written as its [repr], the
    number of an [int64] column without a point.  Missing values are
    written as the empty field. *)
Definition cell_text (d : dtype) (res : resolution) (c : cell) : string :=
  match c with
  | NaN => ""
  | Num x => match d with int64 => int_text x | _ => float_repr x end
  | Str s => csv_text s
  | Time t =>
      match d with
      | datetime64 => format_datetime res t
      | _ => datetime_str t
      end
  end.

Fixpoint row_text (ds : list dtype) (rs : list resolution) (row : list cell)
  : list string :=
  match ds, rs, row with
  | d :: ds', r :: rs', c :: row' => cell_text d r c :: row_text ds' rs' row'
  | _, _, _ => []
  end.

(** [df.to_csv(index=False)]: the header line, then one line per row. *)
Definition to_csv (df : DataFrame) : string :=
  unlines (join_fields (map csv_text (columns df))
           :: map (fun row => join_fields (row_text (dtypes df) (column_resolutions df) row))
                  (rows df)).

(** The reader's default markers of a missing value. *)
Definition na_values : list string :=
  [""; "#N/A"; "#N/A N/A"; "#NA"; "-1.#IND"; "-1.#QNAN"; "-NaN"; "-nan";
   "1.#IND"; "1.#QNAN"; "<NA>"; "N/A"; "NA"; "NULL"; "NaN"; "None"; "n/a";
   "nan"; "null"].

Definition is_na (f : string) : bool := existsb (String.eqb f) na_values.

(** Words the reader does not take for plain text. *)
Definition reserved_words : list string :=
  ["inf"; "infinity"; "nan"; "nat"; "null"; "none"; "na"; "true"; "false"].

(** A word of lower-case letters that stands for nothing but itself. *)
Definition is_word (f : string) : bool :=
  negb (f =? "") && string_forall is_lower f
  && negb (existsb (String.eqb f) reserved_words).

(** A whole number in digits, short enough for [int64]. *)
Definition is_int_text (f : string) : bool :=
  let digits := match f with
                | String c r => if (c =? minus)%char then r else f
                | "" => f
                end in
  negb (digits =? "") && string_forall is_digit digits
  && (length digits <=? 18)%nat.

(** What the reader takes a field for.  The model covers missing values,
    whole numbers, plain decimal numerals, date-times in the forms the
    writer produces and lower-case words; every other field ([KOther]:
    numerals with an exponent, a sign or spaces around them, other forms of
    date-times, ...) is outside the model. *)
Inductive field_kind : Type :=
| KNa | KInt | KDec | KTime (r : resolution) | KWord | KOther.

Definition classify (f : string) : field_kind :=
  if is_na f then KNa
  else if is_int_text f then KInt
  else match parse_float f with
       | Some _ => if string_exists (fun c => (c =? dot)%char) f then KDec else KOther
       | None =>
           match text_resolution f with
           | Some r => KTime r
           | None => if is_word f then KWord else KOther
           end
       end.

Definition is_known (k : field_kind) : bool :=
  match k with KOther => false | _ => true end.

Definition is_numeric (k : field_kind) : bool :=
  match k with KInt | KDec | KNa => true | _ => false end.

(** The forms of the date-times of a column, when it holds nothing but
    date-times and missing values. *)
Fixpoint time_forms (ks : list field_kind) : option (list resolution) :=
  match ks with
  | [] => Some []
  | KTime r :: ks' => option_map (cons r) (time_forms ks')
  | KNa :: ks' => time_forms ks'
  | _ :: _ => None
  end.

(** The dtype the reader gives a column, [None] where the model does not
    say.

    A column listed in [parse_dates] whose date-times are all written in
    one form becomes [datetime64]; when whole seconds and six-digit
    fractions are mixed, the reader does not convert the column and leaves
    it as text.

    Any other column is [int64] when every field is a whole number,
    [float64] when every field is a number or missing, and text as soon
    as one field is a word or a date-time. *)
Definition column_dtype (date_col : bool) (fields : list string) : option dtype :=
  let ks := map classify fields in
  if negb (forallb is_known ks) then None
  else if date_col then
    match time_forms ks with
    | Some (r :: rs) =>
        if forallb (resolution_eqb r) rs then Some datetime64
        else if forallb (fun k => match k with
                                  | KTime ResSecond | KTime ResMicro => true
                                  | _ => false
                                  end) ks
        then Some str
        else None
    | _ => None
    end
  else if forallb (fun k => match k with KNa => true | _ => false end) ks
  then Some float64
  else if forallb (fun k => match k with KInt => true | _ => false end) ks
  then Some int64
  else if forallb is_numeric ks then Some float64
  else Some str.

Definition convert (d : dtype) (f : string) : cell :=
  match d with
  | datetime64 => match parse_datetime f with Some t => Time t | None => NaN end
  | float64 | int64 => match parse_float f with Some x => Num x | None => NaN end
  | _ => if is_na f then NaN else Str f
  end.

(** A short row is filled up with missing values. *)
Definition pad (n : nat) (fields : list string) : list string :=
  (fields ++ repeat "" (n - List.length fields))%list.

(** A line that is not skipped as blank. *)
Definition nonblank (l : string) : bool := negb (l =? "").

(** The texts the model of the reader covers: lines of printable ASCII
    characters without the quote character. *)
Definition modelled_char (c : ascii) : bool :=
  let n := nat_of_ascii c in
  (c =? newline)%char || ((32 <=? n)%nat && (n <=? 126)%nat && negb (c =? quote)%char).

Definition modelled_text (text : string) : bool := string_forall modelled_char text.

(** A column label the reader takes as it is: letters, digits and
    underscores, not starting with a digit. *)
Definition is_label (s : string) : bool :=
  match s with
  | "" => false
  | String c _ =>
      negb (is_digit c)
      && string_forall (fun c => is_lower c || is_upper c || is_digit c || (c =? "_")%char) s
  end.

Fixpoint distinct (l : list string) : bool :=
  match l with
  | [] => true
  | x :: l' => negb (existsb (String.eqb x) l') && distinct l'
  end.

Fixpoint all_some {A} (l : list (option A)) : option (list A) :=
  match l with
  | [] => Some []
  | Some a :: l' => option_map (cons a) (all_some l')
  | None :: _ => None
  end.

(** [pd.read_csv(text, parse_dates=parse_dates)] with the default
    options: comma separator, first line as header, empty lines skipped,
    short rows filled up with missing values.

    The reader raises [EmptyDataError] for a text without lines,
    [ValueError] when the header lacks a column of [parse_dates], and
    [ParserError] when a row after the first has more fields than the
    header.

    Outside the model, and answered with [Unmodelled]: text with quotes or
    characters that are not printable ASCII; header labels that are empty,
    repeated or not plain names; a file without data rows; a first row
    longer than the header (the reader takes the surplus for an index);
    fields and date columns [column_dtype] does not cover. *)
Definition read_csv (text : string) (parse_dates : list string) : result DataFrame :=
  if negb (modelled_text text) then Unmodelled
  else
    match filter nonblank (split_on newline text) with
    | [] => Raise EmptyDataError
    | h :: ls =>
        let header := split_on comma h in
        if negb (forallb is_label header && distinct header) then Unmodelled
        else if negb (forallb (has_column header) parse_dates) then Raise ValueError
        else
          match map (split_on comma) ls with
          | [] => Unmodelled
          | first :: others =>
              if (List.length header <? List.length first)%nat then Unmodelled
              else if existsb (fun r => (List.length header <? List.length r)%nat) others
              then Raise ParserError
              else
                let table := map (pad (List.length header)) (first :: others) in
                match all_some
                        (map (fun j => column_dtype (has_column parse_dates (nth j header ""))
                                         (map (fun r => nth j r "") table))
                             (seq 0 (List.length header))) with
                | None => Unmodelled
                | Some ds =>
                    Ok (mkFrame header ds
                          (map (fun r => map (fun df => convert (fst df) (snd df))
                                             (combine ds r))
                               table))
                end
          end
    end.

End PandasIO.

Import PandasIO.

(** ** The script *)

Local Open Scope string_scope.
Local Open Scope list_scope.
Local Open Scope Z_scope.

Definition DATA_FILE : string := "iot_data.csv".

(** The files of the app folder: the text of each file that exists. *)
Definition filesystem : Type := string -> option string.

Definition fs_set (path : string) (content : option string) (fs : filesystem)
  : filesystem :=
  fun p => if String.eqb p path then content else fs p.

(** What an attempt to write a file comes to: the write goes through, or it
    fails with [OSError] and leaves the path in some state of its own. *)
Inductive disk : Type :=
| Writable
| WriteFails (left_behind : option string).

(** What one run of the script takes from outside: the sidebar widgets, the
    clock, the random source, the disk. *)
Record Env : Type := mkEnv {
  run_simulation : bool;                     (* the checkbox *)
  date_input : date -> date -> list date;    (* the tuple the date widget returns *)
  now : datetime;                            (* datetime.now() *)
  random1 : float;                           (* the three values of random() *)
  random2 : float;
  random3 : float;
  disk_state : disk
}.

Definition reading_columns : list string :=
  ["timestamp"; "temperature"; "humidity"; "airflow"].

(** "Load existing data from CSV if available." *)
Definition load_data (fs : filesystem) : result DataFrame :=
  match fs DATA_FILE with
  | Some text => read_csv text ["timestamp"]
  | None => Ok (DataFrame_columns ["timestamp"; "temperature"; "humidity"; "airflow"])
  end.

(** "Save data to CSV." *)
Definition save_data (df : DataFrame) (d : disk) (fs : filesystem)
  : filesystem * result unit :=
  match d with
  | Writable => (fs_set DATA_FILE (Some (to_csv df)) fs, Ok tt)
  | WriteFails left_behind => (fs_set DATA_FILE left_behind fs, Raise OSError)
  end.

(** "Generate a single simulated sensor reading": a dict, its keys in
    insertion order. *)
Definition generate_iot_reading (env : Env) : list (string * cell) :=
  let now := now env in
  let temperature := PyFloat.round (uniform (mkFloat 28 0) (mkFloat 32 0) (random1 env)) 2 in
  let humidity := PyFloat.round (uniform (mkFloat 70 0) (mkFloat 95 0) (random2 env)) 2 in
  let airflow := PyFloat.round (uniform (mkFloat 6 1) (mkFloat 24 1) (random3 env)) 2 in
  [("timestamp", Time now);
   ("temperature", Num temperature);
   ("humidity", Num humidity);
   ("airflow", Num airflow)].

Definition earlier (a b : datetime) : datetime := if datetime_leb a b then a else b.
Definition later (a b : datetime) : datetime := if datetime_leb a b then b else a.

(** [series.min().date()] and [series.max().date()].  On a column of
    date-times, [datetime64] or [object], this is the day of the earliest
    or latest one, missing values of a [datetime64] column skipped.  The
    extreme of a column of text is a [str] and that of a column of numbers
    a float, which have no [.date()].  Columns of mixed values and columns
    without any date-time are not modelled. *)
Definition extreme_date (pick : datetime -> datetime -> datetime) (s : Series)
  : result date :=
  let of_times := match times (values s) with
                  | t :: ts => Ok (date_of (fold_left pick ts t))
                  | [] => Unmodelled
                  end in
  match dtype_of s with
  | datetime64 => if forallb time_or_nan (values s) then of_times else Unmodelled
  | object =>
      if forallb is_time (values s) then of_times
      else match values s with
           | _ :: _ => if forallb is_text (values s) then Raise AttributeError
                       else Unmodelled
           | [] => Unmodelled
           end
  | str =>
      match values s with
      | _ :: _ => if forallb is_text (values s) then Raise AttributeError else Unmodelled
      | [] => Unmodelled
      end
  | float64 | int64 =>
      if forallb num_or_nan (values s) then Raise AttributeError else Unmodelled
  end.

(** Sidebar, date filter: the widget is shown only for a log with rows. *)
Definition sidebar_date_range (env : Env) (data : DataFrame)
  : result (option (list date)) :=
  if negb (empty data) then
    ts <- column "timestamp" data ;;
    min_date <- extreme_date earlier ts ;;
    max_date <- extreme_date later ts ;;
    Ok (Some (date_input env min_date max_date))
  else Ok None.

(** "On each run: maybe add a new row": the new frame is stored in the
    session first, then written out. *)
Definition ingest (env : Env) (data : DataFrame) (fs : filesystem)
  : DataFrame * filesystem * result unit :=
  let new_row := generate_iot_reading env in
  let data' := concat data (DataFrame_records [new_row]) in
  let saved := save_data data' (disk_state env) fs in
  (data', fst saved, snd saved).

(** "Apply date filter (for historic query)". *)
Definition apply_date_filter (data : DataFrame) (date_range : option (list date))
  : result DataFrame :=
  if negb (empty data) then
    match date_range with
    | Some [start_date; end_date] =>
        ts <- column "timestamp" data ;;
        days <- dt_date ts ;;
        let mask := series_and (days_ge days start_date) (days_le days end_date) in
        Ok (mkFrame (columns data) (dtypes data) (loc (rows data) mask))
    | _ => Ok data
    end
  else Ok data.

(** What the page shows below the title. *)
Record Dashboard : Type := mkDashboard {
  metric_temperature : string;
  metric_humidity : string;
  metric_airflow : string;
  chart_temperature : DataFrame;
  chart_humidity : DataFrame;
  chart_airflow : DataFrame;
  table : DataFrame;
  download : string
}.

Inductive Display : Type :=
| Info (message : string)
| Shown (d : Dashboard).

Definition no_data_message : string :=
  "No data yet. Enable **Run simulation** in the sidebar to start generating readings.".

(** [f"{latest[name]:.2f}"]: a number is formatted, a missing value gives
    [nan], text has no float format.  The format of a date-time is not
    modelled. *)
Definition metric (latest : list (string * cell)) (name : string) : result string :=
  c <- lookup name latest ;;
  match c with
  | Num x => Ok (format_2f x)
  | NaN => Ok "nan"
  | Str _ => Raise ValueError
  | Time _ => Unmodelled
  end.

(** "Display section". *)
Definition render (data : DataFrame) : result Display :=
  if negb (empty data) then
    latest <- iloc_last data ;;
    m1 <- metric latest "temperature" ;;
    m2 <- metric latest "humidity" ;;
    m3 <- metric latest "airflow" ;;
    c1 <- select ["timestamp"; "temperature"] data ;;
    c2 <- select ["timestamp"; "humidity"] data ;;
    c3 <- select ["timestamp"; "airflow"] data ;;
    tbl <- sort_values_desc "timestamp" data ;;
    Ok (Shown (mkDashboard m1 m2 m3 c1 c2 c3 tbl (to_csv data)))
  else Ok (Info no_data_message).

(** The state a run leaves behind and what it put on the page. *)
Record Run : Type := mkRun {
  session : option DataFrame;     (* st.session_state.data, if set *)
  files : filesystem;
  page : result Display
}.

(** One run of [main.py], top to bottom: the log is taken from the session
    or loaded into it ("Load / init data"), the sidebar is drawn, a tick is
    made when the checkbox is set, the date filter is applied and the page
    is drawn.  An exception ends the run where it is raised; what was
    assigned to the session or written to disk before stays.  The request
    for an automatic refresh changes nothing a run can see and is left
    out.  Where a step is [Unmodelled] the model follows the run no
    further. *)
Definition script (env : Env) (session_data : option DataFrame) (fs : filesystem) : Run :=
  match (match session_data with
         | Some df => Ok df
         | None => load_data fs
         end) with
  | Raise e => mkRun session_data fs (Raise e)
  | Unmodelled => mkRun session_data fs Unmodelled
  | Ok data0 =>
      match sidebar_date_range env data0 with
      | Raise e => mkRun (Some data0) fs (Raise e)
      | Unmodelled => mkRun (Some data0) fs Unmodelled
      | Ok date_range =>
          if run_simulation env then
            match ingest env data0 fs with
            | (data1, fs', Raise e) => mkRun (Some data1) fs' (Raise e)
            | (data1, fs', Unmodelled) => mkRun (Some data1) fs' Unmodelled
            | (data1, fs', Ok _) =>
                mkRun (Some data1) fs'
                      (data <- apply_date_filter data1 date_range ;; render data)
            end
          else
            mkRun (Some data0) fs
                  (data <- apply_date_filter data0 date_range ;; render data)
      end
  end.

(** Successive refreshes of the page, each with its own inputs. *)
Fixpoint refreshes (envs : list Env) (session_data : option DataFrame) (fs : filesystem)
  : option DataFrame * filesystem :=
  match envs with
  | [] => (session_data, fs)
  | env :: envs' =>
      let r := script env session_data fs in
      refreshes envs' (session r) (files r)
  end.

(** What each refresh of a sequence put on the page. *)
Fixpoint pages (envs : list Env) (session_data : option DataFrame) (fs : filesystem)
  : list (result Display) :=
  match envs with
  | [] => []
  | env :: envs' =>
      let r := script env session_data fs in
      page r :: pages envs' (session r) (files r)
  end.

(** ** Readings and reading logs *)

(** One observation. *)
Record Reading : Type := mkReading {
  timestamp : datetime;
  temperature : float;
  humidity : float;
  airflow : float
}.

Definition row_of (r : Reading) : list cell :=
  [Time (timestamp r); Num (temperature r); Num (humidity r); Num (airflow r)].

(** The two ways the script comes to hold a log.  A session that starts
    without a backing file starts from [pd.DataFrame(columns=...)] and
    holds its readings in columns of dtype [object]; a session that starts
    from a backing file holds what [pd.read_csv] gave it, a [datetime64]
    and three [float64] columns.  [pd.concat] keeps either layout when a
    reading is appended. *)
Inductive layout : Type := ObjectColumns | TypedColumns.

Definition timestamp_dtype (ty : layout) : dtype :=
  match ty with ObjectColumns => object | TypedColumns => datetime64 end.

Definition value_dtype (ty : layout) : dtype :=
  match ty with ObjectColumns => object | TypedColumns => float64 end.

(** A log as the frame that holds it: the four columns in the order both
    [load_data] and [generate_iot_reading] use, in one of the two
    layouts. *)
Definition frame_of (ty : layout) (log : list Reading) : DataFrame :=
  mkFrame reading_columns
          [timestamp_dtype ty; value_dtype ty; value_dtype ty; value_dtype ty]
          (map row_of log).

(** The reading [generate_iot_reading] builds from the inputs of a run. *)
Definition reading_of (env : Env) : Reading :=
  mkReading (now env)
    (PyFloat.round (uniform (mkFloat 28 0) (mkFloat 32 0) (random1 env)) 2)
    (PyFloat.round (uniform (mkFloat 70 0) (mkFloat 95 0) (random2 env)) 2)
    (PyFloat.round (uniform (mkFloat 6 1) (mkFloat 24 1) (random3 env)) 2).

(** A value with at most two decimal places: a whole number of hundredths. *)
Definition two_places (x : float) : Prop := exists k : Z, eqv x (mkFloat k 2).

(** [x] has the value [n / 10^E]. *)
Definition scaled (x : float) (E : nat) (n : Z) : Prop := eqv x (mkFloat n E).

(** A float in canonical form that [repr] writes in positional
    notation. *)
Definition plain_value (x : float) : Prop :=
  canonical x /\ positional x = true.

(** The readings the statements about the backing file speak of: a
    date-time of the calendar with a year of four digits, and values that
    are written in positional notation. *)
Definition wf_reading (r : Reading) : Prop :=
  valid_datetime (timestamp r) = true /\ 1000 <= year (timestamp r)
  /\ plain_value (temperature r) /\ plain_value (humidity r)
  /\ plain_value (airflow r).

(** The timestamps of a log all look alike as [str] prints them: all fall
    on a whole second, or all have a fraction. *)
Definition one_str_form (log : list Reading) : Prop :=
  Forall (fun r => microsecond (timestamp r) = 0) log
  \/ Forall (fun r => microsecond (timestamp r) <> 0) log.

(** The logs whose written form the reader turns back into date-times: any
    log held in typed columns, and a log held in [object] columns when its
    timestamps all look alike. *)
Definition reads_back (ty : layout) (log : list Reading) : Prop :=
  match ty with
  | TypedColumns => True
  | ObjectColumns => one_str_form log
  end.

(** The timestamps of a log do not look alike as [str] prints them: one
    falls on a whole second and one has a fraction. *)
Definition mixed_forms (log : list Reading) : bool :=
  existsb (fun r => microsecond (timestamp r) =? 0) log
  && existsb (fun r => negb (microsecond (timestamp r) =? 0)) log.

(** A reading as a row whose timestamp is the text of the date-time. *)
Definition text_row_of (r : Reading) : list cell :=
  [Str (datetime_str (timestamp r)); Num (temperature r); Num (humidity r);
   Num (airflow r)].

(** A log whose timestamps were left as text by the reader. *)
Definition text_frame_of (log : list Reading) : DataFrame :=
  mkFrame reading_columns [str; float64; float64; float64] (map text_row_of log).

(** The day of a reading lies in the inclusive window. *)
Definition in_window (start_date end_date : date) (r : Reading) : bool :=
  date_leb start_date (date_of (timestamp r))
  && date_leb (date_of (timestamp r)) end_date.

(** [xs] is [ys] with some elements left out, the rest in the same order. *)
Inductive subsequence {A} : list A -> list A -> Prop :=
| sub_nil : subsequence [] []
| sub_skip x xs ys : subsequence xs ys -> subsequence xs (x :: ys)
| sub_keep x xs ys : subsequence xs ys -> subsequence (x :: xs) (x :: ys).

(** The log the script works on at the start of a run: the session's, or
    the one loaded from the backing file on the first run of a session. *)
Definition current_log (session_data : option DataFrame) (fs : filesystem)
  : result DataFrame :=
  match session_data with
  | Some df => Ok df
  | None => load_data fs
  end.

(** The data lines of a CSV text, their fields, and their numeric fields
    (every field but the first), for checking what a file holds. *)
Definition data_lines (text : string) : list string :=
  tl (filter nonblank (split_on newline text)).

Definition numeric_fields (text : string) : list string :=
  flat_map (fun l => tl (split_on comma l)) (data_lines text).

Definition at_most_two_places (f : string) : bool :=
  match parse_float f with
  | Some x => (dexp x <=? 2)%nat
  | None => false
  end.



(** ** The lines of a written log *)

(** The resolution the timestamp of [r] is written at in a log: the common
    resolution [res] of the column in typed columns, its own in [object]
    columns. *)
Definition written_resolution (ty : layout) (res : resolution) (r : Reading)
  : resolution :=
  match ty with
  | TypedColumns => res
  | ObjectColumns => str_resolution (timestamp r)
  end.

(** The four fields of a reading as the writer prints them. *)
Definition reading_fields (ty : layout) (res : resolution) (r : Reading)
  : list string :=
  [format_datetime (written_resolution ty res r) (timestamp r);
   float_repr (temperature r); float_repr (humidity r); float_repr (airflow r)].

Definition reading_line (ty : layout) (res : resolution) (r : Reading) : string :=
  join_fields (reading_fields ty res r).

Definition header_line : string := "timestamp,temperature,humidity,airflow".

Definition log_resolution (log : list Reading) : resolution :=
  column_resolution (map timestamp log).

(** ** The days a log spans, the order of its readings *)

(** The days the sidebar hands to the date widget as [min_date] and
    [max_date]: the day of the earliest and of the latest timestamp. *)
Definition day_bounds (log : list Reading) : option (date * date) :=
  match map timestamp log with
  | t :: ts => Some (date_of (fold_left earlier ts t), date_of (fold_left later ts t))
  | [] => None
  end.

(** [a] was taken no later than [b]. *)
Definition no_later (a b : Reading) : Prop :=
  datetime_leb (timestamp a) (timestamp b) = true.

(** [a] was taken no earlier than [b]. *)
Definition no_earlier (a b : Reading) : Prop :=
  datetime_leb (timestamp b) (timestamp a) = true.

(** The insertion of [insert_desc], on readings. *)
Fixpoint insert_newest_first (r : Reading) (sorted : list Reading) : list Reading :=
  match sorted with
  | [] => [r]
  | s :: rest =>
      if negb (datetime_leb (timestamp s) (timestamp r))
      then s :: insert_newest_first r rest
      else r :: sorted
  end.

Definition newest_first (log : list Reading) : list Reading :=
  fold_right insert_newest_first [] log.

(** The two columns a chart is drawn from. *)
Definition chart_of (ty : layout) (name : string) (field : Reading -> float)
  (log : list Reading) : DataFrame :=
  mkFrame ["timestamp"; name] [timestamp_dtype ty; value_dtype ty]
          (map (fun r => [Time (timestamp r); Num (field r)]) log).

(** A widget the operator has not touched: it answers with its [value],
    the two bounds. *)
Definition untouched (env : Env) : Prop :=
  forall lo hi, date_input env lo hi = [lo; hi].

(** ** Sample data *)

Definition day1 : date := mkDate 2024 1 1.
Definition day2 : date := mkDate 2024 1 2.

Definition at_time (d h : Z) (x : Z) : Reading :=
  mkReading (mkDatetime 2024 1 d h 30 0 0)
            (mkFloat x 2) (mkFloat 80 0) (mkFloat 15 1).

(** Three readings on 2024-01-01 and two on 2024-01-02. *)
Definition two_day_log : list Reading :=
  [at_time 1 9 2801; at_time 1 8 2802; at_time 2 7 2803; at_time 1 23 2804;
   at_time 2 0 2805].

Definition no_files : filesystem := fun _ => None.

(** The inputs of a run at 2024-01-01 10:00:[sec], the date widget
    answering with both bounds it was given. *)
Definition sample_env (run : bool) (sec : Z) (d : disk) : Env :=
  mkEnv run (fun lo hi => [lo; hi]) (mkDatetime 2024 1 1 10 0 sec 0)
        (mkFloat 5 1) (mkFloat 25 2) (mkFloat 123456 6) d.

(** The same, the date widget answering with a start date only. *)
Definition one_date_env (run : bool) (sec : Z) (d : disk) : Env :=
  mkEnv run (fun lo hi => [lo]) (mkDatetime 2024 1 1 10 0 sec 0)
        (mkFloat 5 1) (mkFloat 25 2) (mkFloat 123456 6) d.

(** A running tick at 2024-01-01 10:00:[sec] and [us] microseconds, the
    disk writable, the date widget untouched. *)
Definition tick_env (sec us : Z) : Env :=
  mkEnv true (fun lo hi => [lo; hi]) (mkDatetime 2024 1 1 10 0 sec us)
        (mkFloat 5 1) (mkFloat 25 2) (mkFloat 123456 6) Writable.

(** A reading on a whole second and one with a fraction of a second, as
    two ticks of the clock give them. *)
Definition mixed_log : list Reading :=
  [reading_of (tick_env 0 0); reading_of (tick_env 10 123456)].

(** A log whose first temperature has three decimal places, as a backing
    file written by another tool may hold it. *)
Definition unrounded_log : list Reading :=
  [mkReading (mkDatetime 2024 1 1 9 30 0 0) (mkFloat 28123 3) (mkFloat 80 0) (mkFloat 15 1)].

(** A backing file with a temperature that is no number and a row that
    lacks its last field. *)
Definition damaged_text : string :=
  unlines [header_line; "2024-01-01 09:30:00,hot,80.0,1.5"; "2024-01-01 09:30:10,28.5,81.0"].

Definition damaged_files : filesystem := fs_set DATA_FILE (Some damaged_text) no_files.

(** A backing file of another layout: its header has no timestamp
    column. *)
Definition foreign_files : filesystem :=
  fs_set DATA_FILE (Some (unlines ["time,temp"; "2024-01-01 09:30:00,28.5"])) no_files.

(** The inputs of a paused run whose date widget answers with the window
    from [a] to [b]. *)
Definition window_env (a b : date) : Env :=
  mkEnv false (fun lo hi => [a; b]) (mkDatetime 2024 1 1 10 0 0 0)
        (mkFloat 5 1) (mkFloat 25 2) (mkFloat 123456 6) Writable.


(** Inputs of a run as the environment gives them: the clock shows a
    date-time of the calendar with a year of four digits, and the three
    draws of [random()] lie in [0, 1). *)
Definition sound_inputs (env : Env) : Prop :=
  valid_datetime (now env) = true /\ 1000 <= year (now env)
  /\ unit_interval (random1 env) /\ unit_interval (random2 env)
  /\ unit_interval (random3 env).

(** * Properties *)

(** ** The date filter *)

Lemma lex_leb_refl a : lex_leb a a = true.
Proof.
  induction a as [|x a IH]; simpl; [reflexivity|].
  rewrite Z.eqb_refl, IH. apply orb_true_r.
Qed.

Lemma lex_leb_trans a : forall b c,
  lex_leb a b = true -> lex_leb b c = true -> lex_leb a c = true.
Proof.
  induction a as [|x a IH]; intros [|y b] [|z c]; simpl; try congruence.
  intros H1 H2.
  apply orb_true_iff in H1. apply orb_true_iff in H2. apply orb_true_iff.
  destruct H1 as [H1|H1], H2 as [H2|H2];
    rewrite ?andb_true_iff, ?Z.ltb_lt, ?Z.eqb_eq in *.
  - left. lia.
  - left. destruct H2. lia.
  - left. destruct H1. lia.
  - right. destruct H1 as [-> H1], H2 as [-> H2]. split; [reflexivity|].
    eapply IH; eassumption.
Qed.

Lemma date_leb_trans a b c :
  date_leb a b = true -> date_leb b c = true -> date_leb a c = true.
Proof. apply lex_leb_trans. Qed.

Lemma column_timestamp_frame_of ty log :
  column "timestamp" (frame_of ty log)
  = Ok (mkSeries (timestamp_dtype ty) (map (fun r => Time (timestamp r)) log)).
Proof.
  unfold column, frame_of. simpl. rewrite map_map. reflexivity.
Qed.

Lemma dt_date_times log :
  dt_date (mkSeries datetime64 (map (fun r => Time (timestamp r)) log))
  = Ok (map (fun r => Some (date_of (timestamp r))) log).
Proof.
  unfold dt_date. cbn [dtype_of values]. rewrite map_map. reflexivity.
Qed.

Lemma loc_window start_date end_date log :
  loc (map row_of log)
      (series_and (days_ge (map (fun r => Some (date_of (timestamp r))) log) start_date)
                  (days_le (map (fun r => Some (date_of (timestamp r))) log) end_date))
  = map row_of (filter (in_window start_date end_date) log).
Proof.
  unfold days_ge, days_le.
  induction log as [|r log IH]; simpl; [reflexivity|].
  unfold in_window at 1.
  destruct (date_leb start_date (date_of (timestamp r))
            && date_leb (date_of (timestamp r)) end_date); simpl; rewrite IH; reflexivity.
Qed.

Lemma filter_subsequence {A} (p : A -> bool) (l : list A) :
  subsequence (filter p l) l.
Proof.
  induction l as [|x l IH]; simpl; [constructor|].
  destruct (p x); constructor; assumption.
Qed.

(** On a log held in typed columns the filter is [List.filter] with the
    window. *)
Lemma apply_date_filter_frame_of log start_date end_date :
  apply_date_filter (frame_of TypedColumns log) (Some [start_date; end_date])
  = Ok (frame_of TypedColumns (filter (in_window start_date end_date) log)).
Proof.
  destruct log as [|r log]; [reflexivity|].
  unfold apply_date_filter.
  change (empty (frame_of TypedColumns (r :: log))) with false. cbn [negb].
  rewrite column_timestamp_frame_of. cbn [bind timestamp_dtype].
  rewrite dt_date_times. cbn [bind].
  unfold frame_of at 2. cbn [rows columns dtypes frame_of].
  rewrite loc_window. reflexivity.
Qed.

(** On a log held in [object] columns the [.dt] accessor raises as soon as
    there is a row and a selection of two dates. *)
Lemma apply_date_filter_object log start_date end_date :
  log <> [] ->
  apply_date_filter (frame_of ObjectColumns log) (Some [start_date; end_date])
  = Raise AttributeError.
Proof.
  destruct log as [|r log]; [congruence|]. intros _.
  unfold apply_date_filter.
  change (empty (frame_of ObjectColumns (r :: log))) with false. cbn [negb].
  rewrite column_timestamp_frame_of. reflexivity.
Qed.

Lemma apply_date_filter_no_rows ty date_range :
  apply_date_filter (frame_of ty []) date_range = Ok (frame_of ty []).
Proof. reflexivity. Qed.

Lemma filter_window_reversed start_date end_date log :
  date_leb start_date end_date = false ->
  filter (in_window start_date end_date) log = [].
Proof.
  intros Hrev. induction log as [|r log IH]; simpl; [reflexivity|].
  destruct (in_window start_date end_date r) eqn:Hin; [|exact IH].
  unfold in_window in Hin. apply andb_true_iff in Hin as [H1 H2].
  rewrite (date_leb_trans _ _ _ H1 H2) in Hrev. discriminate.
Qed.

(** C4. For a log held in typed columns (a log loaded from the backing
    file) and a window [start_date <= end_date], the filter returns exactly
    the readings whose timestamp, cut down to its calendar day, lies in the
    inclusive window; they come as a subsequence of the log, in the log's
    own order.  For a log with readings held in [object] columns (the log
    of a session that started without a backing file) the filter returns
    nothing: [.dt] raises [AttributeError]. *)
Theorem filter_selects_window (log : list Reading) (start_date end_date : date) :
  date_leb start_date end_date = true ->
  (exists view,
      apply_date_filter (frame_of TypedColumns log) (Some [start_date; end_date])
      = Ok (frame_of TypedColumns view)
      /\ view = filter (in_window start_date end_date) log
      /\ subsequence view log
      /\ (forall r, In r view <->
                    In r log
                    /\ date_leb start_date (date_of (timestamp r)) = true
                    /\ date_leb (date_of (timestamp r)) end_date = true))
  /\ (log <> [] ->
      apply_date_filter (frame_of ObjectColumns log) (Some [start_date; end_date])
      = Raise AttributeError).
Proof.
  intros _. split.
  - exists (filter (in_window start_date end_date) log).
    split; [apply apply_date_filter_frame_of|].
    split; [reflexivity|].
    split; [apply filter_subsequence|].
    intros r. rewrite filter_In. unfold in_window. rewrite andb_true_iff. tauto.
  - apply apply_date_filter_object.
Qed.

Lemma filter_selects_window_witness :
  date_leb day1 day1 = true
  /\ (exists view,
        apply_date_filter (frame_of TypedColumns two_day_log) (Some [day1; day1])
        = Ok (frame_of TypedColumns view)
        /\ view = filter (in_window day1 day1) two_day_log
        /\ subsequence view two_day_log
        /\ (forall r, In r view <->
                      In r two_day_log
                      /\ date_leb day1 (date_of (timestamp r)) = true
                      /\ date_leb (date_of (timestamp r)) day1 = true))
  /\ (two_day_log <> [] ->
      apply_date_filter (frame_of ObjectColumns two_day_log) (Some [day1; day1])
      = Raise AttributeError).
Proof.
  split; [reflexivity|].
  apply (filter_selects_window two_day_log day1 day1). reflexivity.
Defined.

Example filter_day_one :
  apply_date_filter (frame_of TypedColumns two_day_log) (Some [day1; day1])
  = Ok (frame_of TypedColumns [at_time 1 9 2801; at_time 1 8 2802; at_time 1 23 2804]).
Proof. reflexivity. Qed.

(** C5. On a log held in typed columns the filter with
    [start_date > end_date] returns the empty view, it raises nothing; on
    the empty log, in either layout, it returns the empty view whatever the
    selection is.  On a log with readings held in [object] columns the
    filter raises [AttributeError] instead, for a reversed window as for
    any other. *)
Theorem filter_empty_cases :
  (forall (log : list Reading) (start_date end_date : date),
      date_leb start_date end_date = false ->
      apply_date_filter (frame_of TypedColumns log) (Some [start_date; end_date])
      = Ok (frame_of TypedColumns []))
  /\ (forall (ty : layout) (date_range : option (list date)),
         apply_date_filter (frame_of ty []) date_range = Ok (frame_of ty []))
  /\ (forall (log : list Reading) (start_date end_date : date),
         log <> [] ->
         apply_date_filter (frame_of ObjectColumns log) (Some [start_date; end_date])
         = Raise AttributeError).
Proof.
  split; [|split].
  - intros log s e Hrev.
    rewrite apply_date_filter_frame_of, (filter_window_reversed _ _ _ Hrev).
    reflexivity.
  - intros ty date_range. reflexivity.
  - intros log s e Hlog. apply apply_date_filter_object. exact Hlog.
Qed.

Lemma filter_empty_cases_witness :
  (date_leb day2 day1 = false
   /\ apply_date_filter (frame_of TypedColumns two_day_log) (Some [day2; day1])
      = Ok (frame_of TypedColumns []))
  /\ (two_day_log <> []
      /\ apply_date_filter (frame_of ObjectColumns two_day_log) (Some [day2; day1])
         = Raise AttributeError).
Proof.
  destruct filter_empty_cases as (P1 & _ & P3).
  split; (split; [first [reflexivity | discriminate]|]).
  - apply (P1 two_day_log day2 day1). reflexivity.
  - apply (P3 two_day_log day2 day1). discriminate.
Defined.

(** ** The ingest tick *)

Lemma generate_iot_reading_fields env :
  generate_iot_reading env
  = combine reading_columns (row_of (reading_of env)).
Proof. reflexivity. Qed.

(** The frame of the new row: the constructor infers [datetime64] for the
    date-time and [float64] for the floats. *)
Lemma records_one_reading (r : Reading) :
  DataFrame_records [combine reading_columns (row_of r)] = frame_of TypedColumns [r].
Proof. destruct r. reflexivity. Qed.

Lemma reindex_frame_of ty log :
  reindex reading_columns (frame_of ty log) = map row_of log.
Proof.
  unfold reindex. cbn [rows columns frame_of].
  rewrite <- (map_id (map row_of log)) at 2. rewrite !map_map.
  apply map_ext. intros [t x y z]. reflexivity.
Qed.

(** Appending new rows to a log of readings, as the tick does it: the log
    keeps its layout. *)
Lemma concat_frame_of ty log log' :
  concat (frame_of ty log) (frame_of TypedColumns log') = frame_of ty (log ++ log').
Proof.
  unfold concat.
  change (union_columns (columns (frame_of ty log)) (columns (frame_of TypedColumns log')))
    with reading_columns.
  rewrite !reindex_frame_of. unfold frame_of. rewrite map_app.
  destruct ty; reflexivity.
Qed.

Lemma forallb_time_or_nan log :
  forallb time_or_nan (map (fun r => Time (timestamp r)) log) = true.
Proof. induction log; simpl; auto. Qed.

Lemma forallb_is_time log :
  forallb is_time (map (fun r => Time (timestamp r)) log) = true.
Proof. induction log; simpl; auto. Qed.

Lemma times_of_log log :
  times (map (fun r => Time (timestamp r)) log) = map timestamp log.
Proof. induction log as [|r log IH]; simpl; [|rewrite IH]; reflexivity. Qed.

Lemma extreme_date_log pick ty log :
  extreme_date pick (mkSeries (timestamp_dtype ty) (map (fun r => Time (timestamp r)) log))
  = match map timestamp log with
    | t :: ts => Ok (date_of (fold_left pick ts t))
    | [] => Unmodelled
    end.
Proof.
  unfold extreme_date. cbn [dtype_of values].
  rewrite times_of_log.
  destruct ty; cbn [timestamp_dtype];
    rewrite ?forallb_time_or_nan, ?forallb_is_time; reflexivity.
Qed.

(** On a log of readings, in either layout, the sidebar never raises: no
    widget for the empty log, the widget's answer otherwise. *)
Lemma sidebar_frame_of env ty log :
  exists date_range,
    sidebar_date_range env (frame_of ty log) = Ok date_range
    /\ (log = [] -> date_range = None)
    /\ (log <> [] -> exists lo hi, date_range = Some (date_input env lo hi)).
Proof.
  destruct log as [|r log].
  - exists None. split; [reflexivity|]. split; [reflexivity|congruence].
  - unfold sidebar_date_range.
    change (empty (frame_of ty (r :: log))) with false. cbn [negb].
    rewrite column_timestamp_frame_of. cbn [bind].
    rewrite !extreme_date_log.
    cbn [map bind]. eexists. split; [reflexivity|].
    split; [discriminate|]. intros _. eauto.
Qed.

Lemma ingest_frame_of env ty log fs :
  ingest env (frame_of ty log) fs
  = (frame_of ty (log ++ [reading_of env]),
     fst (save_data (frame_of ty (log ++ [reading_of env])) (disk_state env) fs),
     snd (save_data (frame_of ty (log ++ [reading_of env])) (disk_state env) fs)).
Proof.
  unfold ingest.
  rewrite generate_iot_reading_fields, records_one_reading, concat_frame_of.
  reflexivity.
Qed.

(** A run in the Running state on a log of readings: the session holds the
    log with the new reading at its end, whatever the disk did. *)
Lemma script_running_session env ss fs ty log :
  current_log ss fs = Ok (frame_of ty log) ->
  run_simulation env = true ->
  session (script env ss fs) = Some (frame_of ty (log ++ [reading_of env])).
Proof.
  intros Hlog Hrun. unfold script. fold (current_log ss fs). rewrite Hlog.
  destruct (sidebar_frame_of env ty log) as (dr & -> & _).
  rewrite Hrun, ingest_frame_of.
  destruct (snd (save_data _ _ _)); reflexivity.
Qed.

Lemma refreshes_running envs : forall ss fs ty log,
  current_log ss fs = Ok (frame_of ty log) ->
  Forall (fun env => run_simulation env = true) envs ->
  current_log (fst (refreshes envs ss fs)) (snd (refreshes envs ss fs))
  = Ok (frame_of ty (log ++ map reading_of envs)).
Proof.
  induction envs as [|env envs IH]; intros ss fs ty log Hlog Hall.
  - simpl. rewrite app_nil_r. exact Hlog.
  - inversion Hall as [|? ? Hrun Hall']; subst.
    cbn [refreshes map].
    pose proof (script_running_session env ss fs ty log Hlog Hrun) as Hs.
    rewrite (IH _ _ ty (log ++ [reading_of env])); [|rewrite Hs; reflexivity|assumption].
    rewrite <- app_assoc. reflexivity.
Qed.

(** C6. After N ticks in the Running state the in-memory log holds exactly N
    more readings than before: the readings it held, unchanged and in their
    places, followed by the N new ones in tick order.  This holds for a
    log in either layout, and the log keeps its layout. *)
Theorem ticks_append_only (envs : list Env) (session_data : option DataFrame)
  (fs : filesystem) (ty : layout) (log : list Reading) :
  current_log session_data fs = Ok (frame_of ty log) ->
  Forall (fun env => run_simulation env = true) envs ->
  exists log',
    current_log (fst (refreshes envs session_data fs))
                (snd (refreshes envs session_data fs)) = Ok (frame_of ty log')
    /\ log' = log ++ map reading_of envs
    /\ List.length log' = (List.length log + List.length envs)%nat
    /\ firstn (List.length log) log' = log
    /\ (forall i r, nth_error log i = Some r -> nth_error log' i = Some r).
Proof.
  intros Hlog Hall. exists (log ++ map reading_of envs).
  split; [apply refreshes_running; assumption|].
  split; [reflexivity|].
  split; [rewrite length_app, length_map; reflexivity|].
  split.
  - rewrite firstn_app, Nat.sub_diag, firstn_all. simpl. apply app_nil_r.
  - intros i r Hi. rewrite nth_error_app1; [exact Hi|].
    apply nth_error_Some. congruence.
Qed.

Lemma ticks_append_only_witness :
  let envs := [sample_env true 0 Writable; sample_env true 10 (WriteFails None);
               sample_env true 20 Writable] in
  current_log None no_files = Ok (frame_of ObjectColumns [])
  /\ Forall (fun env => run_simulation env = true) envs
  /\ exists log',
      current_log (fst (refreshes envs None no_files))
                  (snd (refreshes envs None no_files)) = Ok (frame_of ObjectColumns log')
      /\ log' = [] ++ map reading_of envs
      /\ List.length log' = (List.length (@nil Reading) + List.length envs)%nat
      /\ firstn (List.length (@nil Reading)) log' = []
      /\ (forall i r, nth_error [] i = Some r -> nth_error log' i = Some r).
Proof.
  intros envs.
  assert (H1 : current_log None no_files = Ok (frame_of ObjectColumns [])) by reflexivity.
  assert (H2 : Forall (fun env => run_simulation env = true) envs)
    by (repeat constructor).
  split; [exact H1|]. split; [exact H2|].
  exact (ticks_append_only envs None no_files ObjectColumns [] H1 H2).
Defined.

Lemma script_running_page env ss fs ty log :
  current_log ss fs = Ok (frame_of ty log) ->
  run_simulation env = true ->
  page (script env ss fs)
  = match disk_state env with
    | Writable =>
        data <- apply_date_filter (frame_of ty (log ++ [reading_of env]))
                  (match sidebar_date_range env (frame_of ty log) with
                   | Ok dr => dr
                   | _ => None
                   end) ;;
        render data
    | WriteFails _ => Raise OSError
    end.
Proof.
  intros Hlog Hrun. unfold script. fold (current_log ss fs). rewrite Hlog.
  destruct (sidebar_frame_of env ty log) as (dr & -> & _).
  rewrite Hrun, ingest_frame_of.
  destruct (disk_state env); reflexivity.
Qed.

(** C7. The tick stores the new reading in the in-memory log before it
    saves: when the save fails the run ends with the error, the in-memory
    log holds the new reading all the same, and the next tick appends to
    it.  This holds for a log in either layout. *)
Theorem failed_save_keeps_reading (env env' : Env) (session_data : option DataFrame)
  (fs : filesystem) (ty : layout) (log : list Reading) (left_behind : option string) :
  current_log session_data fs = Ok (frame_of ty log) ->
  run_simulation env = true ->
  disk_state env = WriteFails left_behind ->
  run_simulation env' = true ->
  let r := script env session_data fs in
  page r = Raise OSError
  /\ session r = Some (frame_of ty (log ++ [reading_of env]))
  /\ session (script env' (session r) (files r))
     = Some (frame_of ty (log ++ [reading_of env; reading_of env'])).
Proof.
  intros Hlog Hrun Hdisk Hrun' r. subst r.
  pose proof (script_running_session env session_data fs ty log Hlog Hrun) as Hs.
  split; [|split].
  - rewrite (script_running_page env session_data fs ty log Hlog Hrun), Hdisk.
    reflexivity.
  - exact Hs.
  - rewrite Hs.
    rewrite (script_running_session env' _ _ ty (log ++ [reading_of env]));
      [|reflexivity|assumption].
    rewrite <- app_assoc. reflexivity.
Qed.

Lemma failed_save_keeps_reading_witness :
  let env := sample_env true 0 (WriteFails None) in
  let env' := sample_env true 10 Writable in
  current_log None no_files = Ok (frame_of ObjectColumns [])
  /\ run_simulation env = true
  /\ disk_state env = WriteFails None
  /\ run_simulation env' = true
  /\ (let r := script env None no_files in
      page r = Raise OSError
      /\ session r = Some (frame_of ObjectColumns ([] ++ [reading_of env]))
      /\ session (script env' (session r) (files r))
         = Some (frame_of ObjectColumns ([] ++ [reading_of env; reading_of env']))).
Proof.
  intros env env'.
  split; [reflexivity|]. split; [reflexivity|].
  split; [reflexivity|]. split; [reflexivity|].
  apply (failed_save_keeps_reading env env' None no_files ObjectColumns [] None);
    reflexivity.
Defined.

(** ** The Paused state *)

Lemma script_paused_empty env ss fs :
  fs DATA_FILE = None ->
  ss = None \/ ss = Some (frame_of ObjectColumns []) ->
  run_simulation env = false ->
  script env ss fs
  = mkRun (Some (frame_of ObjectColumns [])) fs (Ok (Info no_data_message)).
Proof.
  intros Hfile Hss Hrun. unfold script, load_data.
  destruct Hss as [-> | ->]; rewrite ?Hfile; cbn; rewrite Hrun; reflexivity.
Qed.

Lemma refreshes_paused_empty envs : forall ss fs,
  fs DATA_FILE = None ->
  ss = None \/ ss = Some (frame_of ObjectColumns []) ->
  Forall (fun env => run_simulation env = false) envs ->
  snd (refreshes envs ss fs) = fs
  /\ (fst (refreshes envs ss fs) = None
      \/ fst (refreshes envs ss fs) = Some (frame_of ObjectColumns []))
  /\ pages envs ss fs = repeat (Ok (Info no_data_message)) (List.length envs).
Proof.
  induction envs as [|env envs IH]; intros ss fs Hfile Hss Hall.
  - simpl. auto.
  - inversion Hall as [|? ? Hrun Hall']; subst.
    cbn [refreshes pages List.length repeat].
    rewrite (script_paused_empty env ss fs Hfile Hss Hrun). cbn [session files page].
    destruct (IH (Some (frame_of ObjectColumns [])) fs Hfile (or_intror eq_refl) Hall')
      as (Hfs & Hlog & Hpages).
    rewrite Hfs, Hpages. auto.
Qed.

Lemma script_paused_frame env df fs :
  run_simulation env = false ->
  session (script env (Some df) fs) = Some df /\ files (script env (Some df) fs) = fs.
Proof.
  intros Hrun. unfold script.
  destruct (sidebar_date_range env df); rewrite ?Hrun; auto.
Qed.

(** C9. From the empty log, no backing file and the Paused state: every
    refresh shows the "no data" message, the log stays empty and the app
    folder is left as it was, so no backing file appears; in the Paused
    state a run changes neither the log it finds in the session nor any
    file.  The backing file comes into being with the first tick in the
    Running state. *)
Theorem paused_changes_nothing :
  (forall (envs : list Env) (fs : filesystem),
      fs DATA_FILE = None ->
      Forall (fun env => run_simulation env = false) envs ->
      pages envs None fs = repeat (Ok (Info no_data_message)) (List.length envs)
      /\ snd (refreshes envs None fs) = fs
      /\ current_log (fst (refreshes envs None fs)) (snd (refreshes envs None fs))
         = Ok (frame_of ObjectColumns []))
  /\ (forall (env : Env) (df : DataFrame) (fs : filesystem),
         run_simulation env = false ->
         session (script env (Some df) fs) = Some df
         /\ files (script env (Some df) fs) = fs)
  /\ (forall (env : Env) (session_data : option DataFrame) (fs : filesystem)
             (ty : layout),
         fs DATA_FILE = None ->
         (session_data = None /\ ty = ObjectColumns)
         \/ session_data = Some (frame_of ty []) ->
         run_simulation env = true ->
         disk_state env = Writable ->
         files (script env session_data fs) DATA_FILE
         = Some (to_csv (frame_of ty [reading_of env]))).
Proof.
  split; [|split].
  - intros envs fs Hfile Hall.
    destruct (refreshes_paused_empty envs None fs Hfile (or_introl eq_refl) Hall)
      as (Hfs & Hlog & Hpages).
    split; [exact Hpages|]. split; [exact Hfs|].
    rewrite Hfs. destruct Hlog as [-> | ->]; [|reflexivity].
    unfold current_log, load_data. rewrite Hfile. reflexivity.
  - intros env df fs Hrun. apply script_paused_frame. exact Hrun.
  - intros env ss fs ty Hfile Hss Hrun Hdisk.
    assert (Hlog : current_log ss fs = Ok (frame_of ty [])).
    { destruct Hss as [[-> ->] | ->]; [|reflexivity].
      unfold current_log, load_data. rewrite Hfile. reflexivity. }
    unfold script. fold (current_log ss fs). rewrite Hlog.
    destruct (sidebar_frame_of env ty []) as (dr & -> & _).
    rewrite Hrun, ingest_frame_of, Hdisk. cbn. reflexivity.
Qed.

Lemma paused_changes_nothing_witness :
  let envs := [sample_env false 0 Writable; sample_env false 10 Writable] in
  let paused := sample_env false 20 Writable in
  let running := sample_env true 30 Writable in
  (no_files DATA_FILE = None
   /\ Forall (fun env => run_simulation env = false) envs
   /\ pages envs None no_files = repeat (Ok (Info no_data_message)) (List.length envs)
   /\ snd (refreshes envs None no_files) = no_files
   /\ current_log (fst (refreshes envs None no_files)) (snd (refreshes envs None no_files))
      = Ok (frame_of ObjectColumns []))
  /\ (run_simulation paused = false
      /\ session (script paused (Some (frame_of TypedColumns two_day_log)) no_files)
         = Some (frame_of TypedColumns two_day_log)
      /\ files (script paused (Some (frame_of TypedColumns two_day_log)) no_files)
         = no_files)
  /\ (run_simulation running = true
      /\ disk_state running = Writable
      /\ files (script running None no_files) DATA_FILE
         = Some (to_csv (frame_of ObjectColumns [reading_of running]))).
Proof.
  intros envs paused running.
  assert (H1 : no_files DATA_FILE = None) by reflexivity.
  assert (H2 : Forall (fun env => run_simulation env = false) envs)
    by (repeat constructor).
  destruct paused_changes_nothing as (P1 & P2 & P3).
  split; [|split].
  - split; [exact H1|]. split; [exact H2|]. exact (P1 envs no_files H1 H2).
  - split; [reflexivity|].
    exact (P2 paused (frame_of TypedColumns two_day_log) no_files eq_refl).
  - split; [reflexivity|]. split; [reflexivity|].
    exact (P3 running None no_files ObjectColumns H1
              (or_introl (conj eq_refl eq_refl)) eq_refl eq_refl).
Defined.

(** ** A selection with fewer than two dates *)

(** C10. When the date selection holds fewer than two dates, the filter
    step is skipped: the frame goes to the display as it is, and the page
    of the run (latest values, charts, table, download) is rendered from the
    whole in-memory log, in either layout. *)
Theorem short_selection_skips_filter :
  (forall (data : DataFrame) (selection : list date),
      (List.length selection < 2)%nat ->
      apply_date_filter data (Some selection) = Ok data)
  /\ (forall (env : Env) (ty : layout) (log : list Reading) (fs : filesystem),
         (forall lo hi, (List.length (date_input env lo hi) < 2)%nat) ->
         (run_simulation env = true -> disk_state env = Writable) ->
         let r := script env (Some (frame_of ty log)) fs in
         exists full, session r = Some full /\ page r = render full).
Proof.
  split.
  - intros data selection Hlen. unfold apply_date_filter.
    destruct (negb (empty data)); [|reflexivity].
    destruct selection as [|a [|b [|c l]]]; simpl in Hlen; try reflexivity; lia.
  - intros env ty log fs Hshort Hdisk r. subst r.
    assert (Hskip : forall data dr,
               sidebar_date_range env (frame_of ty log) = Ok dr ->
               apply_date_filter data dr = Ok data).
    { intros data dr Hdr.
      destruct (sidebar_frame_of env ty log) as (dr' & Hdr' & Hnil & Hcons).
      rewrite Hdr in Hdr'. injection Hdr' as <-.
      destruct log as [|r0 log].
      - rewrite Hnil by reflexivity. unfold apply_date_filter.
        destruct (negb (empty data)); reflexivity.
      - destruct Hcons as (lo & hi & ->); [discriminate|].
        unfold apply_date_filter. destruct (negb (empty data)); [|reflexivity].
        specialize (Hshort lo hi).
        destruct (date_input env lo hi) as [|a [|b [|c l]]];
          simpl in Hshort; try reflexivity; lia. }
    destruct (sidebar_frame_of env ty log) as (dr & Hdr & _).
    destruct (run_simulation env) eqn:Hrun.
    + exists (frame_of ty (log ++ [reading_of env])).
      split; [apply script_running_session; [reflexivity|assumption]|].
      rewrite (script_running_page env (Some (frame_of ty log)) fs ty log eq_refl Hrun),
        (Hdisk eq_refl), Hdr.
      rewrite (Hskip _ _ Hdr). reflexivity.
    + exists (frame_of ty log).
      unfold script. rewrite Hdr, Hrun. cbn [session page].
      rewrite (Hskip _ _ Hdr). split; reflexivity.
Qed.

Lemma short_selection_skips_filter_witness :
  let env := one_date_env false 0 Writable in
  ((List.length [day2] < 2)%nat
   /\ apply_date_filter (frame_of ObjectColumns two_day_log) (Some [day2])
      = Ok (frame_of ObjectColumns two_day_log))
  /\ ((forall lo hi, (List.length (date_input env lo hi) < 2)%nat)
      /\ (run_simulation env = true -> disk_state env = Writable)
      /\ (let r := script env (Some (frame_of ObjectColumns two_day_log)) no_files in
          exists full, session r = Some full /\ page r = render full)).
Proof.
  intros env.
  destruct short_selection_skips_filter as (P1 & P2).
  assert (H1 : (List.length [day2] < 2)%nat) by (simpl; lia).
  assert (H2 : forall lo hi, (List.length (date_input env lo hi) < 2)%nat)
    by (intros lo hi; simpl; lia).
  assert (H3 : run_simulation env = true -> disk_state env = Writable)
    by (intros _; reflexivity).
  split.
  - split; [exact H1|]. exact (P1 (frame_of ObjectColumns two_day_log) [day2] H1).
  - split; [exact H2|]. split; [exact H3|].
    exact (P2 env ObjectColumns two_day_log no_files H2 H3).
Defined.

Example one_date_shows_whole_log :
  page (script (one_date_env false 0 Writable)
               (Some (frame_of ObjectColumns two_day_log)) no_files)
  = render (frame_of ObjectColumns two_day_log)
  /\ exists d,
      render (frame_of ObjectColumns two_day_log) = Ok (Shown d)
      /\ metric_temperature d = "28.05"%string
      /\ download d = to_csv (frame_of ObjectColumns two_day_log)
      /\ rows (table d)
         = map row_of [at_time 2 7 2803; at_time 2 0 2805; at_time 1 23 2804;
                       at_time 1 9 2801; at_time 1 8 2802].
Proof.
  split; [reflexivity|]. eexists. split; [vm_compute; reflexivity|].
  repeat split; vm_compute; reflexivity.
Qed.

(** The first two runs of a session that starts without a backing file,
    the simulation running and the date widget untouched: the first run
    draws the page from the new reading; in the second the date widget is
    drawn, the filter is entered and [.dt] raises on the [object] column
    the session built.  The session holds both readings. *)
Example second_run_of_new_session :
  let envs := [tick_env 0 0; tick_env 10 0] in
  map (fun p => match p with
                | Ok (Shown _) => "page"
                | Ok (Info _) => "info"
                | Raise AttributeError => "AttributeError"
                | _ => "other"
                end%string) (pages envs None no_files)
  = ["page"; "AttributeError"]%string
  /\ fst (refreshes envs None no_files)
     = Some (frame_of ObjectColumns [reading_of (tick_env 0 0); reading_of (tick_env 10 0)]).
Proof. split; vm_compute; reflexivity. Qed.

(** ** Decimal arithmetic *)

Lemma pow10_pos e : 0 < pow10 e.
Proof. unfold pow10. apply Z.pow_pos_nonneg; lia. Qed.

Lemma pow10_S e : pow10 (S e) = 10 * pow10 e.
Proof. unfold pow10. rewrite Nat2Z.inj_succ, Z.pow_succ_r by lia. reflexivity. Qed.

Lemma pow10_add a b : pow10 (a + b) = pow10 a * pow10 b.
Proof. unfold pow10. rewrite Nat2Z.inj_add, Z.pow_add_r by lia. reflexivity. Qed.

Lemma pow10_0 : pow10 0 = 1.
Proof. reflexivity. Qed.

Lemma strip0_value m : forall e,
  dmant (strip0 m e) * pow10 e = m * pow10 (dexp (strip0 m e)).
Proof.
  intros e. revert m. induction e as [|e IH]; intros m; simpl; [reflexivity|].
  destruct (m mod 10 =? 0) eqn:Hm; [|reflexivity].
  apply Z.eqb_eq in Hm. specialize (IH (m / 10)).
  rewrite pow10_S.
  assert (Hd : m = 10 * (m / 10)) by (pose proof (Z.div_mod m 10); lia).
  rewrite Hd at 2. lia.
Qed.

Lemma strip0_dexp_le m : forall e, (dexp (strip0 m e) <= e)%nat.
Proof.
  intros e. revert m. induction e as [|e IH]; intros m; simpl; [lia|].
  destruct (m mod 10 =? 0); [specialize (IH (m / 10))|simpl]; lia.
Qed.

Lemma strip0_idem m : forall e, canon (strip0 m e) = strip0 m e.
Proof.
  intros e. revert m. induction e as [|e IH]; intros m; simpl; [reflexivity|].
  destruct (m mod 10 =? 0) eqn:Hm; [apply IH|].
  unfold canon. simpl. rewrite Hm. reflexivity.
Qed.

Lemma canon_canonical x : canonical (canon x).
Proof. apply strip0_idem. Qed.

Lemma canon_eqv x : eqv (canon x) x.
Proof. destruct x as [m e]. apply strip0_value. Qed.

Lemma eqv_refl x : eqv x x.
Proof. reflexivity. Qed.

Lemma eqv_sym x y : eqv x y -> eqv y x.
Proof. unfold eqv. congruence. Qed.

Lemma eqv_trans x y z : eqv x y -> eqv y z -> eqv x z.
Proof.
  unfold eqv. intros H1 H2.
  pose proof (pow10_pos (dexp y)) as Hy.
  apply (Z.mul_reg_r _ _ (pow10 (dexp y))); [lia|].
  transitivity (dmant x * pow10 (dexp y) * pow10 (dexp z)); [ring|].
  rewrite H1.
  transitivity (dmant y * pow10 (dexp z) * pow10 (dexp x)); [ring|].
  rewrite H2. ring.
Qed.

Lemma le_eqv_r x y y' : eqv y y' -> le x y -> le x y'.
Proof.
  unfold eqv, le. intros He Hle.
  pose proof (pow10_pos (dexp y)) as Hy.
  pose proof (pow10_pos (dexp y')) as Hy'.
  apply (Z.mul_le_mono_pos_r _ _ (pow10 (dexp y))); [lia|].
  assert (H1 : dmant y' * pow10 (dexp x) * pow10 (dexp y)
               = dmant y * pow10 (dexp x) * pow10 (dexp y')).
  { transitivity (dmant y' * pow10 (dexp y) * pow10 (dexp x)); [ring|].
    rewrite <- He. ring. }
  assert (H2 : dmant x * pow10 (dexp y') * pow10 (dexp y)
               = dmant x * pow10 (dexp y) * pow10 (dexp y')) by ring.
  rewrite H1, H2. apply Z.mul_le_mono_pos_r; lia.
Qed.

Lemma le_eqv_l x x' y : eqv x x' -> le x y -> le x' y.
Proof.
  unfold eqv, le. intros He Hle.
  pose proof (pow10_pos (dexp x)) as Hx.
  pose proof (pow10_pos (dexp x')) as Hx'.
  apply (Z.mul_le_mono_pos_r _ _ (pow10 (dexp x))); [lia|].
  assert (H1 : dmant x' * pow10 (dexp y) * pow10 (dexp x)
               = dmant x * pow10 (dexp y) * pow10 (dexp x')).
  { transitivity (dmant x' * pow10 (dexp x) * pow10 (dexp y)); [ring|].
    rewrite <- He. ring. }
  assert (H2 : dmant y * pow10 (dexp x') * pow10 (dexp x)
               = dmant y * pow10 (dexp x) * pow10 (dexp x')) by ring.
  rewrite H1, H2. apply Z.mul_le_mono_pos_r; lia.
Qed.

Lemma scaled_self x : scaled x (dexp x) (dmant x).
Proof. destruct x. apply eqv_refl. Qed.

Lemma scaled_lift x E n k : scaled x E n -> scaled x (E + k) (n * pow10 k).
Proof.
  unfold scaled, eqv. simpl. intros H. rewrite pow10_add.
  transitivity (dmant x * pow10 E * pow10 k); [ring|]. rewrite H. ring.
Qed.

Lemma scaled_canon x E n : scaled x E n -> scaled (canon x) E n.
Proof. intros H. eapply eqv_trans; [apply canon_eqv|exact H]. Qed.

Lemma scaled_le x y E n n' : scaled x E n -> scaled y E n' -> (le x y <-> n <= n').
Proof.
  intros Hx Hy. split; intros H.
  - assert (H' : le (mkFloat n E) (mkFloat n' E)).
    { eapply le_eqv_l; [exact Hx|]. eapply le_eqv_r; [exact Hy|]. exact H. }
    unfold le in H'. simpl in H'. pose proof (pow10_pos E). nia.
  - eapply le_eqv_l; [apply eqv_sym, Hx|].
    eapply le_eqv_r; [apply eqv_sym, Hy|].
    unfold le. simpl. pose proof (pow10_pos E). nia.
Qed.

Lemma max_split a b : exists k k', (Nat.max a b = a + k /\ Nat.max a b = b + k')%nat.
Proof. exists (Nat.max a b - a)%nat, (Nat.max a b - b)%nat. lia. Qed.

Lemma scaled_add x y E n n' :
  scaled x E n -> scaled y E n' -> scaled (add x y) E (n + n').
Proof.
  unfold add. intros Hx Hy. apply scaled_canon.
  destruct (max_split (dexp x) (dexp y)) as (k & k' & Hk & Hk').
  set (M := Nat.max (dexp x) (dexp y)) in *.
  replace (M - dexp x)%nat with k by lia.
  replace (M - dexp y)%nat with k' by lia.
  unfold scaled, eqv in *. simpl in *.
  assert (HM : pow10 M = pow10 (dexp x) * pow10 k) by (rewrite Hk; apply pow10_add).
  assert (HM' : pow10 M = pow10 (dexp y) * pow10 k') by (rewrite Hk'; apply pow10_add).
  transitivity (dmant x * pow10 E * pow10 k + dmant y * pow10 E * pow10 k'); [ring|].
  rewrite Hx, Hy.
  transitivity (n * (pow10 (dexp x) * pow10 k) + n' * (pow10 (dexp y) * pow10 k'));
    [ring|].
  rewrite <- HM, <- HM'. ring.
Qed.

Lemma scaled_opp x E n : scaled x E n -> scaled (opp x) E (- n).
Proof. unfold scaled, eqv. simpl. intros H. lia. Qed.

Lemma scaled_sub x y E n n' :
  scaled x E n -> scaled y E n' -> scaled (sub x y) E (n - n').
Proof.
  intros Hx Hy. unfold sub. replace (n - n') with (n + - n') by lia.
  apply scaled_add; [exact Hx|apply scaled_opp, Hy].
Qed.

Lemma scaled_mul x y E E' n n' :
  scaled x E n -> scaled y E' n' -> scaled (mul x y) (E + E') (n * n').
Proof.
  unfold mul. intros Hx Hy. apply scaled_canon.
  unfold scaled, eqv in *. simpl in *. rewrite !pow10_add.
  transitivity ((dmant x * pow10 E) * (dmant y * pow10 E')); [ring|].
  rewrite Hx, Hy. ring.
Qed.

(** [random.uniform(a, b)] stays between its bounds. *)
Lemma uniform_bounds a b u :
  le a b -> unit_interval u ->
  le a (uniform a b u) /\ le (uniform a b u) b.
Proof.
  intros Hab [Hu0 Hu1].
  set (E := (dexp a + dexp b)%nat).
  set (na := dmant a * pow10 (dexp b)).
  set (nb := dmant b * pow10 (dexp a)).
  assert (Ha : scaled a E na) by apply scaled_lift, scaled_self.
  assert (Hb : scaled b E nb).
  { unfold E. rewrite Nat.add_comm. apply scaled_lift, scaled_self. }
  assert (Hnab : na <= nb) by (apply (scaled_le a b E); assumption).
  assert (Hmu : 0 <= dmant u < pow10 (dexp u)).
  { unfold le, lt, of_Z in Hu0, Hu1. cbn [dmant dexp] in Hu0, Hu1.
    rewrite pow10_0 in Hu0, Hu1. lia. }
  assert (Hx : scaled (uniform a b u) (E + dexp u)
                      (na * pow10 (dexp u) + (nb - na) * dmant u)).
  { unfold uniform. apply scaled_add.
    - apply scaled_lift, Ha.
    - apply scaled_mul; [apply scaled_sub; assumption|apply scaled_self]. }
  pose proof (scaled_lift a E na (dexp u) Ha) as Ha'.
  pose proof (scaled_lift b E nb (dexp u) Hb) as Hb'.
  assert (Hlo : 0 <= (nb - na) * dmant u) by (apply Z.mul_nonneg_nonneg; lia).
  assert (Hhi : (nb - na) * dmant u <= (nb - na) * pow10 (dexp u))
    by (apply Z.mul_le_mono_nonneg_l; lia).
  clearbody na nb. split.
  - apply (scaled_le _ _ _ _ _ Ha' Hx). lia.
  - apply (scaled_le _ _ _ _ _ Hx Hb'). lia.
Qed.

(** [round(x, n)] is a whole number of units of [10^-n], and it does not
    leave an interval whose ends are such numbers. *)
Lemma round_scaled x n :
  exists k, scaled (PyFloat.round x n) n k
            /\ (forall A, le (mkFloat A n) x -> A <= k)
            /\ (forall B, le x (mkFloat B n) -> k <= B).
Proof.
  unfold PyFloat.round. destruct (dexp x <=? n)%nat eqn:He.
  - apply Nat.leb_le in He.
    exists (dmant x * pow10 (n - dexp x)).
    assert (Hs : scaled x n (dmant x * pow10 (n - dexp x))).
    { replace n with (dexp x + (n - dexp x))%nat at 1 by lia.
      apply scaled_lift, scaled_self. }
    split; [apply scaled_canon, Hs|]. split.
    + intros A HA. apply (scaled_le (mkFloat A n) x n); [apply eqv_refl|exact Hs|exact HA].
    + intros B HB. apply (scaled_le x (mkFloat B n) n); [exact Hs|apply eqv_refl|exact HB].
  - apply Nat.leb_gt in He.
    set (p := pow10 (dexp x - n)).
    set (q := dmant x / p). set (r := dmant x mod p).
    assert (Hp : 0 < p) by apply pow10_pos.
    assert (Hm : dmant x = p * q + r) by (apply Z.div_mod; lia).
    assert (Hr : 0 <= r < p) by (apply Z.mod_pos_bound; lia).
    assert (HP : pow10 (dexp x) = pow10 n * p).
    { unfold p. rewrite <- pow10_add. f_equal. lia. }
    pose proof (pow10_pos n) as Hn.
    eexists. split; [apply scaled_canon, eqv_refl|]. split.
    + intros A HA. unfold le in HA. simpl in HA. rewrite HP in HA.
      assert (A * p <= dmant x) by nia.
      assert (A <= q) by nia.
      destruct (2 * r <? p); [lia|].
      destruct (p <? 2 * r); [lia|].
      destruct (Z.even q); lia.
    + intros B HB. unfold le in HB. simpl in HB. rewrite HP in HB.
      assert (dmant x <= B * p) by nia.
      assert (q <= B) by nia.
      destruct (2 * r <? p) eqn:H1; [lia|].
      apply Z.ltb_ge in H1.
      assert (q < B) by nia.
      destruct (p <? 2 * r); [lia|].
      destruct (Z.even q); lia.
Qed.

Lemma round_between x n lo hi A B :
  scaled lo n A -> scaled hi n B ->
  le lo x -> le x hi ->
  le lo (PyFloat.round x n) /\ le (PyFloat.round x n) hi
  /\ exists k, eqv (PyFloat.round x n) (mkFloat k n).
Proof.
  intros Hlo Hhi H1 H2.
  destruct (round_scaled x n) as (k & Hk & HA & HB).
  split; [|split].
  - apply (scaled_le _ _ _ _ _ Hlo Hk). apply HA.
    eapply le_eqv_l; [exact Hlo|exact H1].
  - apply (scaled_le _ _ _ _ _ Hk Hhi). apply HB.
    eapply le_eqv_r; [exact Hhi|exact H2].
  - exists k. exact Hk.
Qed.

Lemma uniform_round_between lo hi u A B :
  scaled lo 2 A -> scaled hi 2 B -> le lo hi -> unit_interval u ->
  le lo (PyFloat.round (uniform lo hi u) 2)
  /\ le (PyFloat.round (uniform lo hi u) 2) hi
  /\ two_places (PyFloat.round (uniform lo hi u) 2).
Proof.
  intros Hlo Hhi Hle Hu.
  destruct (uniform_bounds lo hi u Hle Hu) as [H1 H2].
  exact (round_between _ 2 lo hi A B Hlo Hhi H1 H2).
Qed.

(** ** The reading generator *)

(** C3. The generator is a total function of the clock and the three random
    draws; for draws in [0, 1) the reading it returns has its temperature
    in [28.0, 32.0], its humidity in [70.0, 95.0] and its airflow in
    [0.6, 2.4], each a value with two decimal places. *)
Theorem generated_reading_in_range (env : Env) :
  unit_interval (random1 env) ->
  unit_interval (random2 env) ->
  unit_interval (random3 env) ->
  exists t h a,
    generate_iot_reading env
    = [("timestamp"%string, Time (now env)); ("temperature"%string, Num t);
       ("humidity"%string, Num h); ("airflow"%string, Num a)]
    /\ (le (mkFloat 28 0) t /\ le t (mkFloat 32 0))
    /\ (le (mkFloat 70 0) h /\ le h (mkFloat 95 0))
    /\ (le (mkFloat 6 1) a /\ le a (mkFloat 24 1))
    /\ two_places t /\ two_places h /\ two_places a.
Proof.
  intros H1 H2 H3.
  destruct (uniform_round_between (mkFloat 28 0) (mkFloat 32 0) (random1 env) 2800 3200)
    as (Ht1 & Ht2 & Ht3); [reflexivity|reflexivity|unfold le; simpl; lia|exact H1|].
  destruct (uniform_round_between (mkFloat 70 0) (mkFloat 95 0) (random2 env) 7000 9500)
    as (Hh1 & Hh2 & Hh3); [reflexivity|reflexivity|unfold le; simpl; lia|exact H2|].
  destruct (uniform_round_between (mkFloat 6 1) (mkFloat 24 1) (random3 env) 60 240)
    as (Ha1 & Ha2 & Ha3); [reflexivity|reflexivity|unfold le; simpl; lia|exact H3|].
  do 3 eexists. split; [reflexivity|]. tauto.
Qed.

Lemma generated_reading_in_range_witness :
  let env := sample_env true 0 Writable in
  unit_interval (random1 env)
  /\ unit_interval (random2 env)
  /\ unit_interval (random3 env)
  /\ exists t h a,
      generate_iot_reading env
      = [("timestamp"%string, Time (now env)); ("temperature"%string, Num t);
         ("humidity"%string, Num h); ("airflow"%string, Num a)]
      /\ (le (mkFloat 28 0) t /\ le t (mkFloat 32 0))
      /\ (le (mkFloat 70 0) h /\ le h (mkFloat 95 0))
      /\ (le (mkFloat 6 1) a /\ le a (mkFloat 24 1))
      /\ two_places t /\ two_places h /\ two_places a.
Proof.
  intros env.
  assert (H1 : unit_interval (random1 env)) by (vm_compute; split; congruence).
  assert (H2 : unit_interval (random2 env)) by (vm_compute; split; congruence).
  assert (H3 : unit_interval (random3 env)) by (vm_compute; split; congruence).
  split; [exact H1|]. split; [exact H2|]. split; [exact H3|].
  exact (generated_reading_in_range env H1 H2 H3).
Defined.

Example generated_sample :
  generate_iot_reading (sample_env true 0 Writable)
  = [("timestamp"%string, Time (mkDatetime 2024 1 1 10 0 0 0));
     ("temperature"%string, Num (mkFloat 30 0));
     ("humidity"%string, Num (mkFloat 7625 2));
     ("airflow"%string, Num (mkFloat 82 2))].
Proof. vm_compute. reflexivity. Qed.

(** Values between [1e-4] and [1e16] are written in positional
    notation. *)
Lemma positional_between x A Ea B Eb :
  pow10 Ea <= A * pow10 4 ->
  B < pow10 (16 + Eb) ->
  le (mkFloat A Ea) x -> le x (mkFloat B Eb) ->
  positional x = true.
Proof.
  intros HA HB Hlo Hhi.
  assert (Hlo' : le (mkFloat A Ea) (canon x))
    by (eapply le_eqv_r; [apply eqv_sym, canon_eqv|exact Hlo]).
  assert (Hhi' : le (canon x) (mkFloat B Eb))
    by (eapply le_eqv_l; [apply eqv_sym, canon_eqv|exact Hhi]).
  unfold positional. set (c := canon x) in *. clearbody c.
  unfold le in Hlo', Hhi'. cbn [dmant dexp] in Hlo', Hhi'.
  pose proof (pow10_pos Ea) as Pa. pose proof (pow10_pos Eb) as Pb.
  pose proof (pow10_pos (dexp c)) as Pc. pose proof (pow10_pos 4) as P4.
  assert (HApos : 0 < A) by nia.
  assert (Hc : 0 < dmant c) by nia.
  rewrite Z.abs_eq by lia.
  apply orb_true_iff. right. apply andb_true_iff. split.
  - apply Z.leb_le.
    apply (Z.mul_le_mono_pos_r _ _ (pow10 Ea)); [lia|].
    transitivity (A * pow10 4 * pow10 (dexp c)).
    + rewrite (Z.mul_comm (pow10 (dexp c))). apply Z.mul_le_mono_nonneg_r; lia.
    + transitivity (A * pow10 (dexp c) * pow10 4); [lia|].
      transitivity (dmant c * pow10 Ea * pow10 4); [|lia].
      apply Z.mul_le_mono_nonneg_r; lia.
  - apply Z.ltb_lt. rewrite pow10_add in *.
    apply (Z.mul_lt_mono_pos_r (pow10 Eb)); [lia|].
    apply Z.le_lt_trans with (B * pow10 (dexp c)); [lia|].
    replace (pow10 16 * pow10 (dexp c) * pow10 Eb)
      with (pow10 16 * pow10 Eb * pow10 (dexp c)) by ring.
    apply Z.mul_lt_mono_pos_r; lia.
Qed.

(** ** Digits and numerals *)

#[local] Arguments digit_char : simpl never.
#[local] Arguments pow10 : simpl never.

Lemma digit_val_char d : 0 <= d <= 9 -> digit_val (digit_char d) = Some d.
Proof.
  intros Hd.
  assert (H : d = 0 \/ d = 1 \/ d = 2 \/ d = 3 \/ d = 4 \/ d = 5 \/ d = 6
              \/ d = 7 \/ d = 8 \/ d = 9) by lia.
  repeat (destruct H as [-> | H]; [reflexivity|]). subst d. reflexivity.
Qed.

Lemma digit_of_mod n : digit_val (digit_char (n mod 10)) = Some (n mod 10).
Proof. apply digit_val_char. pose proof (Z.mod_pos_bound n 10). lia. Qed.

Lemma string_forall_app p a b :
  string_forall p (a ++ b)%string = string_forall p a && string_forall p b.
Proof.
  induction a as [|c a IH]; simpl; [reflexivity|].
  rewrite IH. apply andb_assoc.
Qed.

Lemma string_forall_impl (p q : ascii -> bool) s :
  (forall c, p c = true -> q c = true) ->
  string_forall p s = true -> string_forall q s = true.
Proof.
  intros Hpq. induction s as [|c s IH]; simpl; [reflexivity|].
  rewrite !andb_true_iff. intros [H1 H2]. auto.
Qed.

Lemma zfill_digits w n : string_forall is_digit (zfill w n) = true.
Proof.
  induction w as [|w IH]; cbn [zfill string_forall]; [reflexivity|].
  rewrite IH. unfold is_digit. rewrite digit_of_mod. reflexivity.
Qed.

Lemma zfill_length w n : String.length (zfill w n) = w.
Proof.
  induction w as [|w IH]; cbn [zfill String.length]; [|rewrite IH]; reflexivity.
Qed.

Lemma pow10_step acc n w :
  (acc * 10 + (n / pow10 w) mod 10) * pow10 w + n mod pow10 w
  = acc * pow10 (S w) + n mod pow10 (S w).
Proof.
  pose proof (pow10_pos w) as Hp.
  rewrite pow10_S, (Z.mul_comm 10 (pow10 w)), Z.rem_mul_r by lia. ring.
Qed.

Lemma take_digits_zfill w n rest : forall acc,
  take_digits w acc (zfill w n ++ rest)%string
  = Some (acc * pow10 w + n mod pow10 w, rest).
Proof.
  induction w as [|w IH]; intros acc; cbn [zfill take_digits append].
  - rewrite pow10_0, Z.mod_1_r. do 2 f_equal. lia.
  - rewrite digit_of_mod. cbn [obind]. rewrite IH, pow10_step. reflexivity.
Qed.

Lemma digits_value_zfill w n : forall acc,
  digits_value acc (zfill w n) = Some (acc * pow10 w + n mod pow10 w).
Proof.
  induction w as [|w IH]; intros acc; cbn [zfill digits_value].
  - rewrite pow10_0, Z.mod_1_r. f_equal. lia.
  - rewrite digit_of_mod. cbn [obind]. rewrite IH, pow10_step. reflexivity.
Qed.

Lemma lstrip0_value s : digits_value 0 (lstrip0 s) = digits_value 0 s.
Proof.
  induction s as [|c s IH]; [reflexivity|].
  cbn [lstrip0]. destruct (c =? "0")%char eqn:Hc; [|reflexivity].
  destruct s as [|c' s']; [reflexivity|].
  rewrite IH. apply Ascii.eqb_eq in Hc. subst c. reflexivity.
Qed.

Lemma lstrip0_nonempty s : s <> ""%string -> lstrip0 s <> ""%string.
Proof.
  induction s as [|c s IH]; [congruence|]. intros _.
  cbn [lstrip0]. destruct (c =? "0")%char; [|discriminate].
  destruct s as [|c' s']; [discriminate|]. apply IH. discriminate.
Qed.

Lemma lstrip0_forall p s :
  string_forall p s = true -> string_forall p (lstrip0 s) = true.
Proof.
  induction s as [|c s IH]; [reflexivity|]. intros H.
  cbn [lstrip0]. destruct (c =? "0")%char; [|exact H].
  destruct s as [|c' s']; [exact H|].
  apply IH. simpl in H. apply andb_true_iff in H. apply H.
Qed.

Lemma below_pow10_log2 n : 0 <= n -> n < pow10 (S (Z.to_nat (Z.log2 n))).
Proof.
  intros Hn. unfold pow10. rewrite Nat2Z.inj_succ, Z2Nat.id by apply Z.log2_nonneg.
  destruct (Z.eq_dec n 0) as [-> | Hnz]; [reflexivity|].
  pose proof (Z.log2_spec n ltac:(lia)) as [_ H2].
  eapply Z.lt_le_trans; [exact H2|].
  apply Z.pow_le_mono_l. pose proof (Z.log2_nonneg n). lia.
Qed.

Lemma str_nat_nonempty n : str_nat n <> ""%string.
Proof. unfold str_nat. apply lstrip0_nonempty. cbn [zfill]. discriminate. Qed.

Lemma str_nat_digits n : string_forall is_digit (str_nat n) = true.
Proof. unfold str_nat. apply lstrip0_forall, zfill_digits. Qed.

Lemma parse_nat_nonempty s : s <> ""%string -> parse_nat s = digits_value 0 s.
Proof. destruct s; [congruence|reflexivity]. Qed.

Lemma parse_nat_str_nat n : 0 <= n -> parse_nat (str_nat n) = Some n.
Proof.
  intros Hn. rewrite parse_nat_nonempty by apply str_nat_nonempty.
  unfold str_nat. rewrite lstrip0_value, digits_value_zfill.
  rewrite Z.mod_small by (split; [exact Hn|apply below_pow10_log2, Hn]).
  reflexivity.
Qed.

Lemma parse_nat_zfill w n :
  (0 < w)%nat -> parse_nat (zfill w n) = Some (n mod pow10 w).
Proof.
  intros Hw. rewrite parse_nat_nonempty, digits_value_zfill; [reflexivity|].
  destruct w; [lia|discriminate].
Qed.

(** ** Splitting at a separator *)

Lemma split_on_none sep s :
  string_forall (differs sep) s = true -> split_on sep s = [s].
Proof.
  induction s as [|c s IH]; simpl; [reflexivity|].
  unfold differs at 1. intros H. apply andb_true_iff in H as [Hc Hs].
  apply negb_true_iff in Hc. rewrite Hc, (IH Hs). reflexivity.
Qed.

Lemma split_on_app sep a b :
  string_forall (differs sep) a = true ->
  split_on sep (a ++ String sep b)%string = a :: split_on sep b.
Proof.
  induction a as [|c a IH]; simpl.
  - intros _. rewrite Ascii.eqb_refl. reflexivity.
  - unfold differs at 1. intros H. apply andb_true_iff in H as [Hc Ha].
    apply negb_true_iff in Hc. rewrite Hc, (IH Ha). reflexivity.
Qed.

Lemma digit_differs sep c :
  is_digit sep = false -> is_digit c = true -> differs sep c = true.
Proof.
  intros Hsep Hc. unfold differs. apply negb_true_iff.
  destruct (c =? sep)%char eqn:E; [|reflexivity].
  apply Ascii.eqb_eq in E. subst c. congruence.
Qed.

Lemma digits_differ sep s :
  is_digit sep = false ->
  string_forall is_digit s = true -> string_forall (differs sep) s = true.
Proof.
  intros Hsep. apply string_forall_impl. intros c. apply digit_differs, Hsep.
Qed.

(** ** The text of a float reads back as the float *)

Lemma strip0_opp m : forall e, strip0 (- m) e = opp (strip0 m e).
Proof.
  intros e. revert m. induction e as [|e IH]; intros m; simpl; [reflexivity|].
  destruct (m mod 10 =? 0) eqn:Hm.
  - apply Z.eqb_eq in Hm.
    rewrite (Z.mod_opp_l_z m 10) by lia. simpl.
    rewrite (Z.div_opp_l_z m 10) by lia. apply IH.
  - apply Z.eqb_neq in Hm.
    destruct (- m mod 10 =? 0) eqn:Hm'; [|reflexivity].
    apply Z.eqb_eq in Hm'. exfalso. apply Hm.
    rewrite <- (Z.opp_involutive m). apply Z.mod_opp_l_z; lia.
Qed.

Lemma opp_involutive x : opp (opp x) = x.
Proof. destruct x as [m e]. unfold opp. simpl. rewrite Z.opp_involutive. reflexivity. Qed.

Lemma parse_unsigned_point a e :
  0 <= a ->
  parse_unsigned
    (str_nat (a / pow10 e)
       ++ String dot (match e with O => "0" | _ => zfill e a end))%string
  = Some (canon (mkFloat a e)).
Proof.
  intros Ha. unfold parse_unsigned.
  assert (HI : 0 <= a / pow10 e) by (apply Z.div_pos; [exact Ha|apply pow10_pos]).
  rewrite split_on_app by (apply digits_differ; [reflexivity|apply str_nat_digits]).
  destruct e as [|e].
  - change (split_on dot "0") with ["0"%string]. cbv iota.
    rewrite parse_nat_str_nat by exact HI. cbn [obind].
    change (parse_nat "0") with (Some 0). cbn [obind String.length].
    change (pow10 1) with 10. rewrite pow10_0, Z.div_1_r.
    replace (a * 10 + 0) with (a * 10) by lia.
    unfold canon. cbn [dmant dexp strip0].
    rewrite Z.mod_mul, Z.div_mul by lia. reflexivity.
  - rewrite split_on_none by (apply digits_differ; [reflexivity|apply zfill_digits]).
    rewrite parse_nat_str_nat by exact HI. cbn [obind].
    rewrite parse_nat_zfill by lia. cbn [obind].
    rewrite zfill_length.
    pose proof (pow10_pos (S e)).
    replace (a / pow10 (S e) * pow10 (S e) + a mod pow10 (S e)) with a
      by (pose proof (Z.div_mod a (pow10 (S e))); lia).
    reflexivity.
Qed.

Lemma str_nat_head n :
  exists c r, str_nat n = String c r /\ is_digit c = true.
Proof.
  pose proof (str_nat_nonempty n) as Hne. pose proof (str_nat_digits n) as Hd.
  destruct (str_nat n) as [|c r]; [congruence|].
  exists c, r. split; [reflexivity|].
  simpl in Hd. apply andb_true_iff in Hd. apply Hd.
Qed.

Lemma parse_float_positional x : parse_float (float_positional x) = Some (canon x).
Proof.
  unfold float_positional.
  pose proof (canon_canonical x) as Hc. unfold canonical in Hc.
  destruct (canon x) as [m e]. cbv zeta. cbn [dmant dexp].
  unfold canon in Hc. cbn [dmant dexp] in Hc.
  destruct (m <? 0) eqn:Hneg.
  - apply Z.ltb_lt in Hneg.
    cbn [append parse_float]. change ("-" =? minus)%char with true. cbv iota.
    rewrite parse_unsigned_point by lia. cbn [obind].
    rewrite Z.abs_neq by lia.
    unfold canon. cbn [dmant dexp].
    rewrite strip0_opp, opp_involutive, Hc. reflexivity.
  - apply Z.ltb_ge in Hneg. cbn [append].
    rewrite Z.abs_eq by lia.
    destruct (str_nat_head (m / pow10 e)) as (c & r & Hs & Hd).
    assert (Hm : (c =? minus)%char = false).
    { apply negb_true_iff. apply (digit_differs minus c); [reflexivity|exact Hd]. }
    transitivity
      (parse_unsigned
         (str_nat (m / pow10 e)
            ++ String dot match e with O => "0" | _ => zfill e m end)%string).
    + rewrite Hs. cbn [append parse_float]. rewrite Hm. reflexivity.
    + rewrite parse_unsigned_point by exact Hneg.
      unfold canon. cbn [dmant dexp]. rewrite Hc. reflexivity.
Qed.

Lemma float_repr_positional x :
  positional x = true -> float_repr x = float_positional x.
Proof. unfold float_repr. intros ->. reflexivity. Qed.

(** In positional notation the text of a float reads back as the float. *)
Lemma parse_float_repr x :
  positional x = true -> parse_float (float_repr x) = Some (canon x).
Proof. intros H. rewrite float_repr_positional by exact H. apply parse_float_positional. Qed.

Lemma parse_float_repr_plain x :
  plain_value x -> parse_float (float_repr x) = Some x.
Proof. intros [Hc Hp]. rewrite parse_float_repr by exact Hp. f_equal. exact Hc. Qed.

Example float_text_samples :
  map float_repr [mkFloat 2850 2; mkFloat (-5) 1; mkFloat 30 0; mkFloat 1 4;
                  mkFloat 1 5; mkFloat 15 6; mkFloat (10 ^ 15) 0; mkFloat (10 ^ 16) 0]
  = ["28.5"; "-0.5"; "30.0"; "0.0001"; "1e-05"; "1.5e-05"; "1000000000000000.0";
     "1e+16"]%string.
Proof. vm_compute. reflexivity. Qed.

Example datetime_text_samples :
  let t := mkDatetime 2024 1 2 3 4 5 678000 in
  (map (fun r => format_datetime r t) [ResDay; ResSecond; ResMilli; ResMicro],
   map parse_datetime
       ["2024-01-02 03:04:05.678"; "2024-01-02"; "2024-02-30";
        "2024-01-02 03:04:05.678000"; "2024-01-02T03:04:05"; "yesterday"]%string)
  = (["2024-01-02"; "2024-01-02 03:04:05"; "2024-01-02 03:04:05.678";
      "2024-01-02 03:04:05.678000"]%string,
     [Some t; Some (mkDatetime 2024 1 2 0 0 0 0); None; Some t; None; None]).
Proof. vm_compute. reflexivity. Qed.

(** ** The text of a date-time reads back as the date-time *)

Lemma string_app_assoc (a b c : string) :
  ((a ++ b) ++ c = a ++ (b ++ c))%string.
Proof. induction a as [|x a IH]; cbn [append]; [|rewrite IH]; reflexivity. Qed.

Lemma string_app_nil_r (a : string) : (a ++ "" = a)%string.
Proof. induction a as [|x a IH]; cbn [append]; [|rewrite IH]; reflexivity. Qed.

Lemma expect_head c s : expect c (String c s) = Some s.
Proof. cbn [expect]. rewrite Ascii.eqb_refl. reflexivity. Qed.

Lemma take_triple_format w sep a b c rest :
  take_triple w sep (format_triple w sep a b c ++ rest)%string
  = Some (a mod pow10 w, b mod pow10 2, c mod pow10 2, rest).
Proof.
  unfold take_triple, format_triple.
  rewrite string_app_assoc. cbn [append].
  rewrite take_digits_zfill. cbn [obind fst snd].
  rewrite expect_head. cbn [obind].
  rewrite string_app_assoc. cbn [append].
  rewrite take_digits_zfill. cbn [obind fst snd].
  rewrite expect_head. cbn [obind].
  rewrite take_digits_zfill. cbn [obind fst snd].
  reflexivity.
Qed.

Lemma days_in_month_le y m : days_in_month y m <= 31.
Proof.
  unfold days_in_month.
  destruct (m =? 2); [destruct (is_leap y); lia|].
  destruct ((m =? 4) || (m =? 6) || (m =? 9) || (m =? 11)); lia.
Qed.

Lemma in_range_spec lo x hi : in_range lo x hi = true <-> lo <= x <= hi.
Proof. unfold in_range. rewrite andb_true_iff, !Z.leb_le. tauto. Qed.

Lemma valid_datetime_ranges t :
  valid_datetime t = true ->
  0 <= year t < pow10 4 /\ 0 <= month t < pow10 2 /\ 0 <= day t < pow10 2
  /\ 0 <= hour t < pow10 2 /\ 0 <= minute t < pow10 2 /\ 0 <= second t < pow10 2
  /\ 0 <= microsecond t < pow10 6.
Proof.
  unfold valid_datetime. rewrite !andb_true_iff, !in_range_spec.
  pose proof (days_in_month_le (year t) (month t)).
  change (pow10 4) with 10000. change (pow10 2) with 100.
  change (pow10 6) with 1000000. lia.
Qed.

Lemma checked_valid t : valid_datetime t = true -> checked t = Some t.
Proof. unfold checked. intros ->. reflexivity. Qed.

Lemma format_triple_head w sep a b c :
  exists x r, format_triple (S w) sep a b c = String x r /\ is_digit x = true.
Proof.
  unfold format_triple. cbn [zfill append]. do 2 eexists. split; [reflexivity|].
  unfold is_digit. rewrite digit_of_mod. reflexivity.
Qed.

(** Reading back what the writer printed at a resolution that shows all of
    the date-time. *)
Lemma parse_datetime_format r t :
  valid_datetime t = true -> fits r t = true ->
  parse_datetime (format_datetime r t) = Some t.
Proof.
  intros Hv Hfit.
  destruct (valid_datetime_ranges t Hv) as (Hy & Hmo & Hd & Hh & Hmi & Hs & Hus).
  destruct t as [y mo d h mi s us]. cbn [year month day hour minute second microsecond] in *.
  unfold parse_datetime, format_datetime, format_date, format_clock.
  cbn [year month day hour minute second microsecond].
  destruct r; cbn [fits hour minute second microsecond] in Hfit.
  - rewrite <- (string_app_nil_r (format_triple 4 "-" y mo d)).
    rewrite take_triple_format. cbn [obind].
    rewrite !Z.mod_small by lia.
    rewrite !andb_true_iff, !Z.eqb_eq in Hfit.
    destruct Hfit as [[[-> ->] ->] ->]. apply checked_valid, Hv.
  - rewrite take_triple_format. cbn [obind]. rewrite expect_head. cbn [obind].
    rewrite <- (string_app_nil_r (format_triple 2 ":" h mi s)).
    rewrite take_triple_format. cbn [obind].
    rewrite !Z.mod_small by lia.
    apply Z.eqb_eq in Hfit. subst us. apply checked_valid, Hv.
  - rewrite take_triple_format. cbn [obind]. rewrite expect_head. cbn [obind].
    rewrite take_triple_format. cbn [obind]. rewrite expect_head. cbn [obind].
    unfold parse_fraction. rewrite zfill_length.
    rewrite parse_nat_zfill by lia. cbn [obind].
    rewrite !Z.mod_small by lia.
    apply Z.eqb_eq in Hfit.
    change (pow10 6) with 1000000 in Hus. change (pow10 3) with 1000.
    pose proof (Z.div_mod us 1000).
    rewrite Z.mod_small by lia.
    replace (us / 1000 * 1000) with us by lia.
    apply checked_valid, Hv.
  - rewrite take_triple_format. cbn [obind]. rewrite expect_head. cbn [obind].
    rewrite take_triple_format. cbn [obind]. rewrite expect_head. cbn [obind].
    unfold parse_fraction. rewrite zfill_length.
    rewrite parse_nat_zfill by lia. cbn [obind].
    rewrite !Z.mod_small by lia.
    apply checked_valid, Hv.
Qed.

Lemma fits_resolution_of t : fits (resolution_of t) t = true.
Proof.
  unfold resolution_of.
  destruct (microsecond t mod 1000 =? 0) eqn:H1; cbn [negb]; [|reflexivity].
  destruct (microsecond t =? 0) eqn:H2; cbn [negb]; [|exact H1].
  destruct ((hour t =? 0) && (minute t =? 0) && (second t =? 0)) eqn:H3.
  - cbn [fits]. rewrite H3, H2. reflexivity.
  - exact H2.
Qed.

Lemma fits_mono r r' t :
  (resolution_rank r <= resolution_rank r')%nat ->
  fits r t = true -> fits r' t = true.
Proof.
  destruct r, r'; cbn [resolution_rank fits]; intros Hr H;
    try lia; try reflexivity; try exact H.
  all: rewrite ?andb_true_iff, ?Z.eqb_eq in H; apply Z.eqb_eq.
  all: replace (microsecond t) with 0 by lia; reflexivity.
Qed.

Lemma resolution_max_rank a b :
  (resolution_rank a <= resolution_rank (resolution_max a b))%nat
  /\ (resolution_rank b <= resolution_rank (resolution_max a b))%nat.
Proof.
  unfold resolution_max.
  destruct (resolution_rank a <=? resolution_rank b)%nat eqn:E.
  - apply Nat.leb_le in E. lia.
  - apply Nat.leb_gt in E. lia.
Qed.

Lemma column_resolution_fits ts t :
  In t ts -> fits (column_resolution ts) t = true.
Proof.
  induction ts as [|t' ts IH]; [intros []|].
  intros Hin. cbn [column_resolution fold_right]. fold (column_resolution ts).
  destruct (resolution_max_rank (resolution_of t') (column_resolution ts)) as [H1 H2].
  destruct Hin as [<- | Hin].
  - eapply fits_mono; [exact H1|apply fits_resolution_of].
  - eapply fits_mono; [exact H2|apply IH, Hin].
Qed.

(** ** What the printed fields are made of *)

Lemma digit_is_plain c : is_digit c = true -> plain_char c = true.
Proof. unfold plain_char. intros ->. reflexivity. Qed.

Lemma zfill_plain w n : string_forall plain_char (zfill w n) = true.
Proof.
  apply (string_forall_impl is_digit); [apply digit_is_plain|apply zfill_digits].
Qed.

Lemma format_triple_plain w sep a b c :
  plain_char sep = true ->
  string_forall plain_char (format_triple w sep a b c) = true.
Proof.
  intros Hsep. unfold format_triple.
  rewrite string_forall_app. cbn [string_forall].
  rewrite string_forall_app. cbn [string_forall].
  rewrite !zfill_plain, Hsep. reflexivity.
Qed.

Lemma format_datetime_plain r t :
  string_forall plain_char (format_datetime r t) = true.
Proof.
  unfold format_datetime, format_date, format_clock.
  destruct r;
    rewrite ?string_forall_app; cbn [string_forall];
    rewrite ?string_forall_app; cbn [string_forall];
    rewrite ?format_triple_plain, ?zfill_plain by reflexivity;
    reflexivity.
Qed.

Lemma float_positional_plain x : string_forall plain_char (float_positional x) = true.
Proof.
  unfold float_positional. cbv zeta.
  rewrite !string_forall_app. cbn [string_forall].
  assert (H1 : string_forall plain_char
                 (str_nat (Z.abs (dmant (canon x)) / pow10 (dexp (canon x)))) = true).
  { apply (string_forall_impl is_digit); [apply digit_is_plain|apply str_nat_digits]. }
  rewrite H1.
  destruct (dmant (canon x) <? 0); destruct (dexp (canon x));
    rewrite ?zfill_plain; reflexivity.
Qed.

Lemma float_repr_plain x :
  positional x = true -> string_forall plain_char (float_repr x) = true.
Proof.
  intros H. rewrite float_repr_positional by exact H. apply float_positional_plain.
Qed.

Lemma plain_differs sep s :
  plain_char sep = false ->
  string_forall plain_char s = true -> string_forall (differs sep) s = true.
Proof.
  intros Hsep. apply string_forall_impl. intros c Hc.
  unfold differs. apply negb_true_iff.
  destruct (c =? sep)%char eqn:E; [|reflexivity].
  apply Ascii.eqb_eq in E. subst c. congruence.
Qed.

Lemma plain_no_comma s :
  string_forall plain_char s = true -> string_forall (differs comma) s = true.
Proof. apply plain_differs. reflexivity. Qed.

Lemma plain_no_newline s :
  string_forall plain_char s = true -> string_forall (differs newline) s = true.
Proof. apply plain_differs. reflexivity. Qed.

(** ** What the reader takes the printed fields for *)

Lemma digits_value_none s : forall acc,
  string_forall is_digit s = false -> digits_value acc s = None.
Proof.
  induction s as [|c s IH]; intros acc; cbn [string_forall digits_value]; [discriminate|].
  unfold is_digit at 1. destruct (digit_val c); cbn [is_some andb obind]; [|reflexivity].
  apply IH.
Qed.

Lemma parse_nat_none s : string_forall is_digit s = false -> parse_nat s = None.
Proof.
  intros H. destruct s; [discriminate|]. unfold parse_nat. apply digits_value_none, H.
Qed.

Lemma not_digits_with sep a b :
  is_digit sep = false -> string_forall is_digit (a ++ String sep b)%string = false.
Proof.
  intros Hsep. rewrite string_forall_app. cbn [string_forall]. rewrite Hsep.
  cbn [andb]. apply andb_false_r.
Qed.

Lemma string_length_app (a b : string) :
  String.length (a ++ b)%string = (String.length a + String.length b)%nat.
Proof. induction a as [|c a IH]; cbn [append String.length]; [|rewrite IH]; reflexivity. Qed.

Lemma format_triple_length w sep a b c :
  String.length (format_triple w sep a b c) = (w + 6)%nat.
Proof.
  unfold format_triple.
  rewrite string_length_app. cbn [String.length].
  rewrite string_length_app. cbn [String.length].
  rewrite !zfill_length. lia.
Qed.

Lemma format_datetime_length r t :
  String.length (format_datetime r t)
  = match r with
    | ResDay => 10 | ResSecond => 19 | ResMilli => 23 | ResMicro => 26
    end%nat.
Proof.
  unfold format_datetime, format_date, format_clock.
  destruct r;
    rewrite ?string_length_app; cbn [String.length];
    rewrite ?string_length_app; cbn [String.length];
    rewrite ?format_triple_length, ?zfill_length; reflexivity.
Qed.

Lemma text_resolution_format r t :
  valid_datetime t = true -> fits r t = true ->
  text_resolution (format_datetime r t) = Some r.
Proof.
  intros Hv Hfit. unfold text_resolution.
  rewrite (parse_datetime_format r t Hv Hfit), format_datetime_length.
  destruct r; reflexivity.
Qed.

(** No marker of a missing value is made of plain characters. *)
Lemma is_na_plain f :
  string_forall plain_char f = true -> f <> ""%string -> is_na f = false.
Proof.
  intros Hplain Hne. apply not_true_is_false. intros H.
  apply existsb_exists in H as (v & Hin & Heq).
  apply String.eqb_eq in Heq. subst v.
  assert (T : forallb (fun v => negb (string_forall plain_char v) || (v =? "")%string)
                      na_values = true) by (vm_compute; reflexivity).
  rewrite forallb_forall in T. specialize (T f Hin).
  rewrite Hplain in T. cbn [negb orb] in T. apply String.eqb_eq in T. contradiction.
Qed.

Lemma split_on_prefix sep p s :
  string_forall (differs sep) p = true ->
  split_on sep (p ++ s)%string
  = match split_on sep s with
    | h :: t => (p ++ h)%string :: t
    | [] => [p]
    end.
Proof.
  induction p as [|c p IH]; cbn [append string_forall].
  - intros _. destruct (split_on sep s) eqn:E; [|reflexivity].
    destruct s; cbn [split_on] in E; [discriminate|].
    destruct (a =? sep)%char; [discriminate|].
    destruct (split_on sep s); discriminate.
  - unfold differs at 1. intros H. apply andb_true_iff in H as [Hc Hp].
    apply negb_true_iff in Hc. cbn [split_on]. rewrite Hc, (IH Hp).
    destruct (split_on sep s); reflexivity.
Qed.

Lemma parse_unsigned_head_none s ip rest :
  split_on dot s = ip :: rest -> parse_nat ip = None -> parse_unsigned s = None.
Proof.
  intros Hs Hip. unfold parse_unsigned. rewrite Hs.
  destruct rest as [|fp [|x rest]]; [| |reflexivity]; rewrite Hip; reflexivity.
Qed.

(** The text of a date-time starts with the four digits of the year and a
    hyphen. *)
Lemma format_datetime_split r t :
  exists rest,
    format_datetime r t = (zfill 4 (year t) ++ String "-" rest)%string.
Proof.
  unfold format_datetime, format_date, format_triple.
  destruct r; rewrite ?string_app_assoc; cbn [append]; eauto.
Qed.

Lemma format_datetime_head res t :
  exists c s, format_datetime res t = String c s /\ is_digit c = true.
Proof.
  unfold format_datetime, format_date.
  destruct (format_triple_head 3 "-" (year t) (month t) (day t)) as (c & s & -> & Hc).
  destruct res; cbn [append]; eauto.
Qed.

Lemma format_datetime_no_number r t :
  is_int_text (format_datetime r t) = false
  /\ parse_float (format_datetime r t) = None.
Proof.
  destruct (format_datetime_head r t) as (c & s & Hcs & Hc).
  destruct (format_datetime_split r t) as (rest & Hsplit).
  assert (Hm : (c =? minus)%char = false).
  { apply negb_true_iff. apply (digit_differs minus c); [reflexivity|exact Hc]. }
  split.
  - unfold is_int_text. rewrite Hcs, Hm, <- Hcs, Hsplit.
    rewrite not_digits_with by reflexivity.
    rewrite andb_false_r. reflexivity.
  - unfold parse_float. rewrite Hcs, Hm, <- Hcs, Hsplit.
    assert (Hd : string_forall (differs dot) (zfill 4 (year t)) = true)
      by (apply digits_differ; [reflexivity|apply zfill_digits]).
    pose proof (split_on_prefix dot (zfill 4 (year t)) (String "-" rest) Hd) as Hp.
    cbn [split_on] in Hp. change ("-" =? dot)%char with false in Hp. cbv iota in Hp.
    destruct (split_on dot rest) as [|h tl] eqn:Hrest.
    + eapply parse_unsigned_head_none; [exact Hp|].
      apply parse_nat_none, not_digits_with. reflexivity.
    + eapply parse_unsigned_head_none; [exact Hp|].
      apply parse_nat_none, not_digits_with. reflexivity.
Qed.

(** The reader takes the text of a date-time for a date-time in the form
    it is written in. *)
Lemma classify_datetime r t :
  valid_datetime t = true -> fits r t = true ->
  classify (format_datetime r t) = KTime r.
Proof.
  intros Hv Hfit. unfold classify.
  destruct (format_datetime_head r t) as (c & s & Hcs & _).
  rewrite is_na_plain; [|apply format_datetime_plain|rewrite Hcs; discriminate].
  destruct (format_datetime_no_number r t) as [-> ->].
  rewrite (text_resolution_format r t Hv Hfit). reflexivity.
Qed.

Lemma float_positional_shape x :
  exists sign whole places,
    float_positional x = (sign ++ whole ++ String dot places)%string
    /\ (sign = ""%string \/ sign = "-"%string)
    /\ (exists c s, whole = String c s /\ is_digit c = true).
Proof.
  unfold float_positional. cbv zeta.
  do 3 eexists. split; [reflexivity|]. split.
  - destruct (dmant (canon x) <? 0); auto.
  - apply str_nat_head.
Qed.

(** The reader takes the text of a float in positional notation for a
    decimal numeral. *)
Lemma classify_float x :
  positional x = true -> classify (float_repr x) = KDec.
Proof.
  intros Hp. pose proof (parse_float_repr x Hp) as Hparse.
  pose proof (float_repr_plain x Hp) as Hplain.
  rewrite float_repr_positional in * by exact Hp.
  destruct (float_positional_shape x) as (sign & whole & places & Hs & Hsign & c & s & Hw & Hc).
  assert (Hm : (c =? minus)%char = false).
  { apply negb_true_iff. apply (digit_differs minus c); [reflexivity|exact Hc]. }
  unfold classify.
  rewrite is_na_plain; [|exact Hplain|rewrite Hs, Hw; destruct Hsign as [-> | ->]; discriminate].
  rewrite Hparse.
  assert (Hint : is_int_text (float_positional x) = false).
  { unfold is_int_text. rewrite Hs.
    destruct Hsign as [-> | ->]; cbn [append].
    - rewrite Hw. cbn [append]. rewrite Hm.
      change (String c (s ++ String dot places))%string
        with (String c s ++ String dot places)%string.
      rewrite not_digits_with by reflexivity.
      rewrite andb_false_r. reflexivity.
    - change ("-" =? minus)%char with true. cbv iota.
      rewrite not_digits_with by reflexivity.
      rewrite andb_false_r. reflexivity. }
  rewrite Hint.
  assert (Hdot : string_exists (fun c => (c =? dot)%char) (float_positional x) = true).
  { unfold string_exists. rewrite Hs, !string_forall_app. cbn [string_forall].
    rewrite Ascii.eqb_refl. cbn [negb andb].
    rewrite !andb_false_r. reflexivity. }
  rewrite Hdot. reflexivity.
Qed.

(** ** The lines of a written log *)

Lemma wf_positional r :
  wf_reading r ->
  positional (temperature r) = true /\ positional (humidity r) = true
  /\ positional (airflow r) = true.
Proof. intros (_ & _ & [_ H1] & [_ H2] & [_ H3]). auto. Qed.

Lemma reading_line_shape ty res r :
  reading_line ty res r
  = (format_datetime (written_resolution ty res r) (timestamp r)
       ++ String comma (float_repr (temperature r)
       ++ String comma (float_repr (humidity r)
       ++ String comma (float_repr (airflow r)))))%string.
Proof. reflexivity. Qed.

Lemma split_reading_line ty res r :
  wf_reading r ->
  split_on comma (reading_line ty res r) = reading_fields ty res r.
Proof.
  intros Hwf. destruct (wf_positional r Hwf) as (H1 & H2 & H3).
  rewrite reading_line_shape.
  rewrite split_on_app by apply plain_no_comma, format_datetime_plain.
  rewrite split_on_app by apply plain_no_comma, float_repr_plain, H1.
  rewrite split_on_app by apply plain_no_comma, float_repr_plain, H2.
  rewrite split_on_none by apply plain_no_comma, float_repr_plain, H3.
  reflexivity.
Qed.

Lemma reading_line_plain ty res r :
  wf_reading r ->
  string_forall (fun c => plain_char c || (c =? comma)%char) (reading_line ty res r) = true.
Proof.
  intros Hwf. destruct (wf_positional r Hwf) as (H1 & H2 & H3).
  assert (Himp : forall s, string_forall plain_char s = true ->
                           string_forall (fun c => plain_char c || (c =? comma)%char) s = true).
  { intros s. apply string_forall_impl. intros c ->. reflexivity. }
  rewrite reading_line_shape.
  rewrite !string_forall_app. cbn [string_forall].
  rewrite !string_forall_app. cbn [string_forall].
  rewrite !string_forall_app. cbn [string_forall].
  rewrite !Himp
    by first [apply format_datetime_plain | apply float_repr_plain; assumption].
  reflexivity.
Qed.

Lemma reading_line_no_newline ty res r :
  wf_reading r ->
  string_forall (differs newline) (reading_line ty res r) = true.
Proof.
  intros Hwf. eapply string_forall_impl; [|apply (reading_line_plain ty res r Hwf)].
  intros c Hc. unfold differs. apply negb_true_iff.
  destruct (c =? newline)%char eqn:E; [|reflexivity].
  apply Ascii.eqb_eq in E. subst c. discriminate.
Qed.

Lemma reading_line_nonblank ty res r : nonblank (reading_line ty res r) = true.
Proof.
  rewrite reading_line_shape.
  destruct (format_datetime_head (written_resolution ty res r) (timestamp r))
    as (c & s & -> & Hc).
  reflexivity.
Qed.

Lemma plain_modelled c :
  plain_char c || (c =? comma)%char = true -> modelled_char c = true.
Proof.
  destruct c as [[] [] [] [] [] [] [] []]; vm_compute; intros H;
    first [reflexivity | discriminate H].
Qed.

Lemma modelled_unlines ls :
  Forall (fun l => string_forall modelled_char l = true) ls ->
  modelled_text (unlines ls) = true.
Proof.
  unfold modelled_text.
  induction 1 as [|l ls Hl Hls IH]; [reflexivity|].
  cbn [unlines]. rewrite string_forall_app. cbn [string_forall].
  rewrite Hl, IH. reflexivity.
Qed.

Lemma split_unlines ls :
  Forall (fun l => string_forall (differs newline) l = true) ls ->
  split_on newline (unlines ls) = ls ++ [""%string].
Proof.
  induction 1 as [|l ls Hl Hls IH]; [reflexivity|].
  cbn [unlines app]. rewrite split_on_app by exact Hl. rewrite IH. reflexivity.
Qed.

Lemma filter_nonblank_lines ls :
  Forall (fun l => nonblank l = true) ls ->
  filter nonblank (ls ++ [""%string]) = ls.
Proof.
  induction 1 as [|l ls Hl Hls IH]; [reflexivity|].
  cbn [app filter]. rewrite Hl, IH. reflexivity.
Qed.

Lemma first_column_of_log log :
  times (map (nth_cell 0) (map row_of log)) = map timestamp log.
Proof.
  rewrite map_map.
  change (map (fun x => nth_cell 0 (row_of x)) log)
    with (map (fun r => Time (timestamp r)) log).
  apply times_of_log.
Qed.

(** The text [to_csv] writes for a log of readings: the header line, then
    one line per reading in log order.  In typed columns every timestamp
    is written at the resolution of the column, in [object] columns each
    as its own [str]. *)
Lemma to_csv_frame_of ty log :
  to_csv (frame_of ty log)
  = unlines (header_line :: map (reading_line ty (log_resolution log)) log).
Proof.
  unfold to_csv. cbn [columns rows dtypes frame_of].
  change (join_fields (map csv_text reading_columns)) with header_line.
  f_equal. f_equal. rewrite map_map. apply map_ext. intros r.
  unfold column_resolutions. cbn [columns rows frame_of reading_columns List.length seq map].
  rewrite first_column_of_log. fold (log_resolution log).
  unfold row_of. cbn [row_text].
  unfold reading_line, reading_fields. f_equal.
  destruct ty; reflexivity.
Qed.

Lemma lines_of_written_log ty log :
  Forall wf_reading log ->
  filter nonblank (split_on newline (to_csv (frame_of ty log)))
  = header_line :: map (reading_line ty (log_resolution log)) log.
Proof.
  intros Hwf. rewrite Forall_forall in Hwf.
  rewrite to_csv_frame_of, split_unlines, filter_nonblank_lines; [reflexivity| |].
  - constructor; [reflexivity|].
    apply Forall_forall. intros l Hl. apply in_map_iff in Hl as (r & <- & _).
    apply reading_line_nonblank.
  - constructor; [reflexivity|].
    apply Forall_forall. intros l Hl. apply in_map_iff in Hl as (r & <- & Hr).
    apply reading_line_no_newline, Hwf, Hr.
Qed.

Lemma written_log_modelled ty log :
  Forall wf_reading log ->
  modelled_text (to_csv (frame_of ty log)) = true.
Proof.
  intros Hwf. rewrite Forall_forall in Hwf.
  rewrite to_csv_frame_of. apply modelled_unlines.
  constructor; [reflexivity|].
  apply Forall_forall. intros l Hl. apply in_map_iff in Hl as (r & <- & Hr).
  eapply string_forall_impl; [apply plain_modelled|].
  apply reading_line_plain, Hwf, Hr.
Qed.

(** ** Reading a written log back *)

Lemma forallb_map_true {A B} (f : A -> B) (p : B -> bool) (l : list A) :
  (forall x, In x l -> p (f x) = true) -> forallb p (map f l) = true.
Proof.
  intros H. apply forallb_forall. intros y Hy.
  apply in_map_iff in Hy as (x & <- & Hx). apply H, Hx.
Qed.

Lemma forallb_false_in {A} (p : A -> bool) (l : list A) x :
  In x l -> p x = false -> forallb p l = false.
Proof.
  intros Hin Hp. apply not_true_is_false. intros H.
  rewrite forallb_forall in H. rewrite (H x Hin) in Hp. discriminate.
Qed.

(** The timestamps of a log that reads back are all written in one form,
    which shows each of them in full. *)
Lemma written_resolution_common ty log :
  reads_back ty log ->
  exists res,
    forall r, In r log ->
              written_resolution ty (log_resolution log) r = res
              /\ fits res (timestamp r) = true.
Proof.
  destruct ty; cbn [reads_back written_resolution].
  - intros [Hall | Hall]; rewrite Forall_forall in Hall.
    + exists ResSecond. intros r Hr. unfold str_resolution. cbn [fits].
      rewrite (Hall r Hr). auto.
    + exists ResMicro. intros r Hr. unfold str_resolution.
      destruct (microsecond (timestamp r) =? 0) eqn:E; [|auto].
      apply Z.eqb_eq in E. destruct (Hall r Hr E).
  - intros _. exists (log_resolution log). intros r Hr. split; [reflexivity|].
    apply column_resolution_fits, in_map, Hr.
Qed.

Lemma time_forms_const {A} res (l : list A) :
  time_forms (map (fun _ => KTime res) l) = Some (map (fun _ => res) l).
Proof. induction l as [|x l IH]; cbn [map time_forms]; [|rewrite IH]; reflexivity. Qed.

Lemma resolution_eqb_refl res : resolution_eqb res res = true.
Proof. unfold resolution_eqb. apply Nat.eqb_refl. Qed.

(** A date column whose fields are date-times in one form becomes
    [datetime64]. *)
Lemma column_dtype_times {A} res (f : A -> string) (l : list A) :
  l <> [] ->
  (forall x, In x l -> classify (f x) = KTime res) ->
  column_dtype true (map f l) = Some datetime64.
Proof.
  intros Hne Hall. unfold column_dtype. rewrite map_map.
  rewrite (map_ext_in _ (fun _ => KTime res) l Hall).
  rewrite forallb_map_true by reflexivity. cbn [negb].
  rewrite time_forms_const.
  destruct l as [|x l]; [congruence|]. cbn [map].
  rewrite forallb_map_true by (intros; apply resolution_eqb_refl).
  reflexivity.
Qed.

(** A column of decimal numerals becomes [float64]. *)
Lemma column_dtype_floats {A} (f : A -> string) (l : list A) :
  l <> [] ->
  (forall x, In x l -> classify (f x) = KDec) ->
  column_dtype false (map f l) = Some float64.
Proof.
  intros Hne Hall. unfold column_dtype. rewrite map_map.
  rewrite (map_ext_in _ (fun _ => KDec) l Hall).
  rewrite forallb_map_true by reflexivity. cbn [negb].
  destruct l as [|x l]; [congruence|]. cbn [map forallb andb].
  rewrite forallb_map_true by reflexivity.
  reflexivity.
Qed.

Lemma no_long_rows ty res log :
  existsb (fun r => (4 <? List.length r)%nat) (map (reading_fields ty res) log) = false.
Proof. induction log as [|r log IH]; [reflexivity|exact IH]. Qed.

(** Reading the text written for a log of readings: the reader finds the
    four labels and one row of four fields per reading; the numbers come
    back as [float64] columns, and what becomes of the timestamps is up to
    the dtype the reader gives their column. *)
Lemma read_csv_written_rows ty log :
  log <> [] -> Forall wf_reading log ->
  let stamp r :=
    format_datetime (written_resolution ty (log_resolution log) r) (timestamp r) in
  read_csv (to_csv (frame_of ty log)) ["timestamp"%string]
  = match column_dtype true (map stamp log) with
    | Some d =>
        Ok (mkFrame reading_columns [d; float64; float64; float64]
              (map (fun r => [convert d (stamp r); Num (temperature r);
                              Num (humidity r); Num (airflow r)]) log))
    | None => Unmodelled
    end.
Proof.
  intros Hne Hwf stamp. unfold read_csv.
  rewrite (written_log_modelled ty log Hwf). cbn [negb].
  rewrite (lines_of_written_log ty log Hwf).
  rewrite Forall_forall in Hwf.
  change (split_on comma header_line) with reading_columns.
  change (forallb is_label reading_columns && distinct reading_columns) with true.
  change (forallb (has_column reading_columns) ["timestamp"%string]) with true.
  cbn [negb]. rewrite map_map.
  rewrite (map_ext_in _ (reading_fields ty (log_resolution log)) log)
    by (intros r Hr; apply split_reading_line, Hwf, Hr).
  set (fields := reading_fields ty (log_resolution log)).
  assert (Hcase : map fields log <> [])
    by (destruct log; [congruence|discriminate]).
  destruct (map fields log) as [|first others] eqn:Hrows; [congruence|].
  assert (Hfirst : (List.length reading_columns <? List.length first)%nat = false).
  { destruct log as [|r0 log']; [discriminate|].
    cbn [map] in Hrows. injection Hrows as <- _. reflexivity. }
  assert (Hothers : existsb (fun r => (List.length reading_columns <? List.length r)%nat)
                            others = false).
  { destruct log as [|r0 log']; [discriminate|].
    cbn [map] in Hrows. injection Hrows as _ <-. apply no_long_rows. }
  rewrite Hfirst, Hothers. cbv zeta. rewrite <- Hrows. clear Hfirst Hothers Hrows Hcase.
  assert (Hpad : map (pad (List.length reading_columns)) (map fields log) = map fields log).
  { rewrite map_map. apply map_ext. reflexivity. }
  rewrite Hpad. cbn [List.length reading_columns seq map nth].
  rewrite !map_map. subst fields. cbn [reading_fields nth].
  change (has_column ["timestamp"%string] "timestamp"%string) with true.
  change (has_column ["timestamp"%string] "temperature"%string) with false.
  change (has_column ["timestamp"%string] "humidity"%string) with false.
  change (has_column ["timestamp"%string] "airflow"%string) with false.
  fold stamp.
  change (map (fun x => format_datetime
                          (written_resolution ty (log_resolution log) x) (timestamp x)) log)
    with (map stamp log).
  destruct (column_dtype true (map stamp log)) as [d|]; [|reflexivity].
  rewrite !column_dtype_floats; try exact Hne.
  2-4: intros r Hr; apply classify_float; apply (wf_positional r (Hwf r Hr)).
  cbn [all_some option_map]. do 2 f_equal.
  rewrite map_map. apply map_ext_in. intros r Hr.
  destruct (Hwf r Hr) as (_ & _ & Ht & Hh & Ha).
  unfold reading_fields. cbn [combine map fst snd].
  fold (stamp r). unfold convert at 2 3 4.
  rewrite !parse_float_repr_plain by assumption. reflexivity.
Qed.

(** Reading the text written for a log of readings gives the log back, in
    typed columns, provided the log reads back: in [object] columns the
    timestamps have to look alike. *)
Lemma read_csv_written_log ty log :
  log <> [] -> Forall wf_reading log -> reads_back ty log ->
  read_csv (to_csv (frame_of ty log)) ["timestamp"%string]
  = Ok (frame_of TypedColumns log).
Proof.
  intros Hne Hwf Hrb.
  rewrite (read_csv_written_rows ty log Hne Hwf). cbv zeta.
  destruct (written_resolution_common ty log Hrb) as (res & Hres).
  rewrite Forall_forall in Hwf.
  rewrite (column_dtype_times res); [|exact Hne|].
  2:{ intros r Hr. destruct (Hres r Hr) as [-> Hfit].
      apply classify_datetime; [apply (Hwf r Hr)|exact Hfit]. }
  unfold frame_of. cbn [timestamp_dtype value_dtype]. do 2 f_equal.
  apply map_ext_in. intros r Hr.
  destruct (Hres r Hr) as [Hw Hfit]. destruct (Hwf r Hr) as (Hv & _).
  unfold row_of, convert.
  rewrite Hw, (parse_datetime_format res _ Hv Hfit). reflexivity.
Qed.

Lemma str_resolution_fits t : fits (str_resolution t) t = true.
Proof.
  unfold str_resolution.
  destruct (microsecond t =? 0) eqn:E; [exact E|reflexivity].
Qed.

Lemma time_forms_map {A} (f : A -> resolution) (l : list A) :
  time_forms (map (fun x => KTime (f x)) l) = Some (map f l).
Proof. induction l as [|x l IH]; cbn [map time_forms]; [|rewrite IH]; reflexivity. Qed.

(** Whole seconds and fractions in one list of forms: the forms are not
    all that of the first. *)
Lemma forms_differ (rs : list resolution) r :
  In ResSecond (r :: rs) -> In ResMicro (r :: rs) ->
  forallb (resolution_eqb r) rs = false.
Proof.
  intros H1 H2.
  destruct H1 as [H1 | H1].
  - subst r. destruct H2 as [H2 | H2]; [discriminate|].
    apply (forallb_false_in _ _ ResMicro H2). reflexivity.
  - destruct H2 as [H2 | H2].
    + subst r. apply (forallb_false_in _ _ ResSecond H1). reflexivity.
    + destruct r.
      * apply (forallb_false_in _ _ ResSecond H1). reflexivity.
      * apply (forallb_false_in _ _ ResMicro H2). reflexivity.
      * apply (forallb_false_in _ _ ResSecond H1). reflexivity.
      * apply (forallb_false_in _ _ ResSecond H1). reflexivity.
Qed.

(** Reading the text written for a log held in [object] columns whose
    timestamps do not look alike: the reader leaves the timestamps as
    text. *)
Lemma read_csv_mixed_log log :
  Forall wf_reading log -> mixed_forms log = true ->
  read_csv (to_csv (frame_of ObjectColumns log)) ["timestamp"%string]
  = Ok (text_frame_of log).
Proof.
  intros Hwf Hmixed.
  assert (Hne : log <> []) by (destruct log; [discriminate|discriminate]).
  rewrite (read_csv_written_rows ObjectColumns log Hne Hwf). cbv zeta.
  cbn [written_resolution]. fold datetime_str.
  rewrite Forall_forall in Hwf.
  assert (Hclass : forall r, In r log ->
            classify (datetime_str (timestamp r)) = KTime (str_resolution (timestamp r))).
  { intros r Hr. apply classify_datetime; [apply (Hwf r Hr)|apply str_resolution_fits]. }
  assert (Hdtype : column_dtype true (map (fun r => datetime_str (timestamp r)) log)
                   = Some str).
  { unfold column_dtype. rewrite map_map.
    rewrite (map_ext_in _ (fun r => KTime (str_resolution (timestamp r))) log Hclass).
    rewrite forallb_map_true by reflexivity. cbn [negb].
    rewrite (time_forms_map (fun r => str_resolution (timestamp r))).
    apply andb_true_iff in Hmixed as [Hzero Hfrac].
    apply existsb_exists in Hzero as (r0 & Hr0 & Hz).
    apply existsb_exists in Hfrac as (r1 & Hr1 & Hf).
    apply negb_true_iff in Hf.
    assert (H0 : In ResSecond (map (fun r => str_resolution (timestamp r)) log)).
    { apply in_map_iff. exists r0. split; [|exact Hr0].
      unfold str_resolution. rewrite Hz. reflexivity. }
    assert (H1 : In ResMicro (map (fun r => str_resolution (timestamp r)) log)).
    { apply in_map_iff. exists r1. split; [|exact Hr1].
      unfold str_resolution. rewrite Hf. reflexivity. }
    destruct (map (fun r => str_resolution (timestamp r)) log) as [|r rs];
      [destruct H0|].
    rewrite (forms_differ rs r H0 H1).
    rewrite forallb_map_true; [reflexivity|].
    intros x _. unfold str_resolution. destruct (microsecond (timestamp x) =? 0);
      reflexivity. }
  change (map (fun r => format_datetime (str_resolution (timestamp r)) (timestamp r)) log)
    with (map (fun r => datetime_str (timestamp r)) log).
  rewrite Hdtype. unfold text_frame_of. do 2 f_equal.
  apply map_ext_in. intros r Hr. unfold text_row_of, convert.
  destruct (format_datetime_head (str_resolution (timestamp r)) (timestamp r))
    as (c & s & Hcs & _).
  fold (datetime_str (timestamp r)).
  rewrite is_na_plain;
    [reflexivity|apply format_datetime_plain|unfold datetime_str; rewrite Hcs; discriminate].
Qed.

(** ** Save, then load *)

Lemma save_data_writable df fs :
  save_data df Writable fs = (fs_set DATA_FILE (Some (to_csv df)) fs, Ok tt).
Proof. reflexivity. Qed.

Lemma fs_set_same path content fs : fs_set path content fs path = content.
Proof. unfold fs_set. rewrite String.eqb_refl. reflexivity. Qed.

Lemma fs_set_other path content fs p :
  p <> path -> fs_set path content fs p = fs p.
Proof.
  intros Hp. unfold fs_set. destruct (String.eqb p path) eqn:E; [|reflexivity].
  apply String.eqb_eq in E. congruence.
Qed.

Lemma round_canonical x n : canonical (PyFloat.round x n).
Proof.
  unfold PyFloat.round. destruct (dexp x <=? n)%nat; apply canon_canonical.
Qed.

(** The readings the generator builds from draws in [0, 1) and a clock
    with a four-digit year are well formed. *)
Lemma reading_of_wf env :
  valid_datetime (now env) = true -> 1000 <= year (now env) ->
  unit_interval (random1 env) -> unit_interval (random2 env) ->
  unit_interval (random3 env) ->
  wf_reading (reading_of env).
Proof.
  intros Hv Hy H1 H2 H3. unfold wf_reading, reading_of, plain_value.
  cbn [timestamp temperature humidity airflow].
  destruct (uniform_round_between (mkFloat 28 0) (mkFloat 32 0) (random1 env) 2800 3200)
    as (Ht1 & Ht2 & _); [reflexivity|reflexivity|unfold le; simpl; lia|exact H1|].
  destruct (uniform_round_between (mkFloat 70 0) (mkFloat 95 0) (random2 env) 7000 9500)
    as (Hh1 & Hh2 & _); [reflexivity|reflexivity|unfold le; simpl; lia|exact H2|].
  destruct (uniform_round_between (mkFloat 6 1) (mkFloat 24 1) (random3 env) 60 240)
    as (Ha1 & Ha2 & _); [reflexivity|reflexivity|unfold le; simpl; lia|exact H3|].
  split; [exact Hv|]. split; [exact Hy|].
  repeat split; try apply round_canonical.
  - eapply positional_between; [| |exact Ht1|exact Ht2]; vm_compute; congruence.
  - eapply positional_between; [| |exact Hh1|exact Hh2]; vm_compute; congruence.
  - eapply positional_between; [| |exact Ha1|exact Ha2]; vm_compute; congruence.
Qed.

Lemma two_day_log_wf : Forall wf_reading two_day_log.
Proof.
  repeat (constructor;
          [repeat split; first [reflexivity | vm_compute; congruence]|]).
  constructor.
Qed.

Lemma mixed_log_wf : Forall wf_reading mixed_log.
Proof.
  repeat (constructor;
          [repeat split; first [reflexivity | vm_compute; congruence]|]).
  constructor.
Qed.

Lemma load_written_log ty log fs :
  log <> [] -> Forall wf_reading log -> reads_back ty log ->
  load_data (fs_set DATA_FILE (Some (to_csv (frame_of ty log))) fs)
  = Ok (frame_of TypedColumns log).
Proof.
  intros Hne Hwf Hrb. unfold load_data. rewrite fs_set_same.
  apply read_csv_written_log; assumption.
Qed.

Lemma load_mixed_log log fs :
  Forall wf_reading log -> mixed_forms log = true ->
  load_data (fs_set DATA_FILE (Some (to_csv (frame_of ObjectColumns log))) fs)
  = Ok (text_frame_of log).
Proof.
  intros Hwf Hmixed. unfold load_data. rewrite fs_set_same.
  apply read_csv_mixed_log; assumption.
Qed.

(** A log whose timestamps are text is no log of readings, in either
    layout. *)
Lemma text_frame_is_no_log ty log log' : text_frame_of log <> frame_of ty log'.
Proof. destruct ty; discriminate. Qed.

(** C2.  Saving a non-empty log of readings writes the whole log over
    whatever the backing file held.  Loading the file gives the same
    readings back, every reading with its timestamp, its temperature, its
    humidity and its airflow equal to the original's, when the log is held
    in typed columns (it was loaded from the backing file), and when it is
    held in [object] columns (the session started without a backing file)
    and its timestamps all look alike: all on a whole second, or all with a
    fraction.  The loaded log is held in typed columns.  When the log is
    held in [object] columns and one timestamp falls on a whole second and
    another has a fraction, the load returns the timestamps as text: this
    is no log of readings, and not the log that was saved. *)
Theorem load_save_round_trip (ty : layout) (log : list Reading) (fs : filesystem) :
  log <> [] ->
  Forall wf_reading log ->
  let saved := save_data (frame_of ty log) Writable fs in
  snd saved = Ok tt
  /\ fst saved DATA_FILE = Some (to_csv (frame_of ty log))
  /\ (reads_back ty log ->
      load_data (fst saved) = Ok (frame_of TypedColumns log))
  /\ (ty = ObjectColumns -> mixed_forms log = true ->
      load_data (fst saved) = Ok (text_frame_of log)
      /\ forall ty' log', load_data (fst saved) <> Ok (frame_of ty' log')).
Proof.
  intros Hne Hwf saved. subst saved. rewrite save_data_writable. cbn [fst snd].
  split; [reflexivity|]. split; [apply fs_set_same|]. split.
  - intros Hrb. apply load_written_log; assumption.
  - intros -> Hmixed. rewrite (load_mixed_log log fs Hwf Hmixed).
    split; [reflexivity|].
    intros ty' log' H. apply (text_frame_is_no_log ty' log log'). congruence.
Qed.

Lemma load_save_round_trip_witness :
  mixed_log <> []
  /\ Forall wf_reading mixed_log
  /\ mixed_forms mixed_log = true
  /\ (let saved := save_data (frame_of ObjectColumns mixed_log) Writable damaged_files in
      snd saved = Ok tt
      /\ fst saved DATA_FILE = Some (to_csv (frame_of ObjectColumns mixed_log))
      /\ load_data (fst saved) = Ok (text_frame_of mixed_log)
      /\ forall ty' log', load_data (fst saved) <> Ok (frame_of ty' log')).
Proof.
  assert (H1 : mixed_log <> []) by discriminate.
  split; [exact H1|]. split; [exact mixed_log_wf|]. split; [reflexivity|].
  destruct (load_save_round_trip ObjectColumns mixed_log damaged_files H1 mixed_log_wf)
    as (S1 & S2 & _ & S4).
  split; [exact S1|]. split; [exact S2|].
  exact (S4 eq_refl eq_refl).
Defined.

(** The log of a session that started without a backing file and ticked
    once on a whole second and once at a fraction of a second.  The session
    holds the two readings in [object] columns; the save writes each
    timestamp as its own [str], one without and one with a fraction; the
    reader does not take the mixed column for date-times, and the load
    returns the timestamps as text. *)
Example session_log_not_read_back :
  let envs := [tick_env 0 0; tick_env 10 123456] in
  let r := refreshes envs None no_files in
  fst r = Some (frame_of ObjectColumns mixed_log)
  /\ snd r DATA_FILE
     = Some (unlines ["timestamp,temperature,humidity,airflow";
                      "2024-01-01 10:00:00,30.0,76.25,0.82";
                      "2024-01-01 10:00:10.123456,30.0,76.25,0.82"]%string)
  /\ load_data (snd r)
     = Ok (mkFrame reading_columns [str; float64; float64; float64]
             [[Str "2024-01-01 10:00:00"; Num (mkFloat 30 0);
               Num (mkFloat 7625 2); Num (mkFloat 82 2)];
              [Str "2024-01-01 10:00:10.123456"; Num (mkFloat 30 0);
               Num (mkFloat 7625 2); Num (mkFloat 82 2)]])
  /\ load_data (snd r) <> Ok (frame_of TypedColumns mixed_log).
Proof.
  intros envs r. subst envs r.
  split; [vm_compute; reflexivity|].
  split; [vm_compute; reflexivity|].
  split; [vm_compute; reflexivity|].
  vm_compute. discriminate.
Qed.

Example written_two_day_log :
  filter nonblank (split_on newline (to_csv (frame_of TypedColumns two_day_log)))
  = ["timestamp,temperature,humidity,airflow";
     "2024-01-01 09:30:00,28.01,80.0,1.5";
     "2024-01-01 08:30:00,28.02,80.0,1.5";
     "2024-01-02 07:30:00,28.03,80.0,1.5";
     "2024-01-01 23:30:00,28.04,80.0,1.5";
     "2024-01-02 00:30:00,28.05,80.0,1.5"]%string.
Proof. vm_compute. reflexivity. Qed.

(** The same log and the same timestamps, written from typed columns and
    from [object] columns. *)
Example written_mixed_log :
  (data_lines (to_csv (frame_of TypedColumns mixed_log)),
   data_lines (to_csv (frame_of ObjectColumns mixed_log)))
  = (["2024-01-01 10:00:00.000000,30.0,76.25,0.82";
      "2024-01-01 10:00:10.123456,30.0,76.25,0.82"]%string,
     ["2024-01-01 10:00:00,30.0,76.25,0.82";
      "2024-01-01 10:00:10.123456,30.0,76.25,0.82"]%string).
Proof. vm_compute. reflexivity. Qed.

(** ** The written file *)

Lemma canonical_last_digit m e :
  canonical (mkFloat m (S e)) -> m mod 10 <> 0.
Proof.
  unfold canonical, canon. cbn [dmant dexp strip0].
  destruct (m mod 10 =? 0) eqn:Hm; [|intros _; apply Z.eqb_neq, Hm].
  intros H. pose proof (strip0_dexp_le (m / 10) e) as Hle.
  rewrite H in Hle. cbn [dexp] in Hle. lia.
Qed.

(** A canonical float that is a whole number of hundredths has at most two
    decimal places in its representation. *)
Lemma two_places_dexp x : two_places x -> (dexp (canon x) <= 2)%nat.
Proof.
  intros [k Hk].
  assert (Hc : eqv (canon x) (mkFloat k 2))
    by (eapply eqv_trans; [apply canon_eqv|exact Hk]).
  pose proof (canon_canonical x) as Hcan.
  destruct (canon x) as [m e]. cbn [dexp].
  destruct (le_lt_dec e 2) as [|Hgt]; [assumption|exfalso].
  destruct e as [|e]; [lia|].
  apply (canonical_last_digit m e Hcan).
  unfold eqv in Hc. cbn [dmant dexp] in Hc.
  replace (S e) with (2 + (e - 2) + 1)%nat in Hc by lia.
  rewrite !pow10_add in Hc. change (pow10 1) with 10 in Hc.
  pose proof (pow10_pos 2) as H2.
  assert (Hm : m = k * pow10 (e - 2) * 10).
  { apply (Z.mul_reg_r _ _ (pow10 2)); [lia|]. rewrite Hc. ring. }
  rewrite Hm. apply Z.mod_mul. lia.
Qed.

Lemma float_repr_places x :
  positional x = true ->
  at_most_two_places (float_repr x) = (dexp (canon x) <=? 2)%nat.
Proof.
  intros Hp. unfold at_most_two_places. rewrite parse_float_repr by exact Hp.
  reflexivity.
Qed.

Lemma written_resolution_fits ty log r :
  In r log ->
  fits (written_resolution ty (log_resolution log) r) (timestamp r) = true.
Proof.
  intros Hr. destruct ty; cbn [written_resolution].
  - unfold str_resolution.
    destruct (microsecond (timestamp r) =? 0) eqn:E; [exact E|reflexivity].
  - apply column_resolution_fits, in_map, Hr.
Qed.

(** C8, as the code has it.  [save_data] writes the header line with the
    four column names in their order, then one line per reading in log
    order, and replaces whatever the backing file held; it touches no other
    file.  Each line has four fields: the timestamp in a form that reads
    back as the same date-time (in typed columns at the resolution of the
    column, in [object] columns as its own [str]), and the temperature,
    the humidity and the airflow as decimal text that reads back as
    exactly the stored value.  The writer does not round: the text has at
    most two decimal places when the stored value has. *)
Theorem save_writes_log_as_stored (ty : layout) (log : list Reading) (fs : filesystem) :
  Forall wf_reading log ->
  let saved := save_data (frame_of ty log) Writable fs in
  let res := log_resolution log in
  fst saved DATA_FILE = Some (unlines (header_line :: map (reading_line ty res) log))
  /\ (forall p, p <> DATA_FILE -> fst saved p = fs p)
  /\ (forall r, In r log ->
        let stamp := format_datetime (written_resolution ty res r) (timestamp r) in
        split_on comma (reading_line ty res r)
        = [stamp; float_repr (temperature r);
           float_repr (humidity r); float_repr (airflow r)]
        /\ parse_datetime stamp = Some (timestamp r)
        /\ parse_float (float_repr (temperature r)) = Some (temperature r)
        /\ parse_float (float_repr (humidity r)) = Some (humidity r)
        /\ parse_float (float_repr (airflow r)) = Some (airflow r)
        /\ (two_places (temperature r) ->
            at_most_two_places (float_repr (temperature r)) = true)
        /\ (two_places (humidity r) ->
            at_most_two_places (float_repr (humidity r)) = true)
        /\ (two_places (airflow r) ->
            at_most_two_places (float_repr (airflow r)) = true)).
Proof.
  intros Hwf saved res. subst saved res. rewrite save_data_writable. cbn [fst].
  split; [rewrite fs_set_same, to_csv_frame_of; reflexivity|].
  split; [intros p Hp; apply fs_set_other, Hp|].
  intros r Hr. cbv zeta.
  rewrite Forall_forall in Hwf. pose proof (Hwf r Hr) as Hr'.
  destruct Hr' as (Hv & _ & Ht & Hh & Ha).
  split; [apply split_reading_line, Hwf, Hr|].
  split; [apply parse_datetime_format; [exact Hv|apply written_resolution_fits, Hr]|].
  rewrite !parse_float_repr_plain by assumption.
  destruct Ht as [_ Ht], Hh as [_ Hh], Ha as [_ Ha].
  repeat split; intros H2; rewrite float_repr_places by assumption;
    apply Nat.leb_le, two_places_dexp, H2.
Qed.

Lemma save_writes_log_as_stored_witness :
  Forall wf_reading mixed_log
  /\ (let saved := save_data (frame_of ObjectColumns mixed_log) Writable damaged_files in
      let res := log_resolution mixed_log in
      fst saved DATA_FILE
      = Some (unlines (header_line :: map (reading_line ObjectColumns res) mixed_log))
      /\ (forall p, p <> DATA_FILE -> fst saved p = damaged_files p)
      /\ (forall r, In r mixed_log ->
            let stamp :=
              format_datetime (written_resolution ObjectColumns res r) (timestamp r) in
            split_on comma (reading_line ObjectColumns res r)
            = [stamp; float_repr (temperature r);
               float_repr (humidity r); float_repr (airflow r)]
            /\ parse_datetime stamp = Some (timestamp r)
            /\ parse_float (float_repr (temperature r)) = Some (temperature r)
            /\ parse_float (float_repr (humidity r)) = Some (humidity r)
            /\ parse_float (float_repr (airflow r)) = Some (airflow r)
            /\ (two_places (temperature r) ->
                at_most_two_places (float_repr (temperature r)) = true)
            /\ (two_places (humidity r) ->
                at_most_two_places (float_repr (humidity r)) = true)
            /\ (two_places (airflow r) ->
                at_most_two_places (float_repr (airflow r)) = true))).
Proof.
  split; [exact mixed_log_wf|].
  exact (save_writes_log_as_stored ObjectColumns mixed_log damaged_files mixed_log_wf).
Defined.

(** C8, as the claim states it, fails: a log that holds a temperature with
    three decimal places is written with all three, no field of the file is
    rounded to two places by the save. *)
Lemma save_keeps_third_decimal :
  exists text,
    fst (save_data (frame_of TypedColumns unrounded_log) Writable no_files) DATA_FILE
    = Some text
    /\ numeric_fields text = ["28.123"; "80.0"; "1.5"]%string
    /\ forallb at_most_two_places (numeric_fields text) = false.
Proof. eexists. split; [reflexivity|]. split; vm_compute; reflexivity. Qed.

(** ** Loading a backing file that is not a written log *)

Lemma existsb_false_forall {A} (p : A -> bool) (l : list A) :
  (forall x, In x l -> p x = false) -> existsb p l = false.
Proof.
  intros H. induction l as [|x l IH]; [reflexivity|].
  cbn [existsb]. rewrite (H x (or_introl eq_refl)). apply IH.
  intros y Hy. apply H. right. exact Hy.
Qed.

















(** What the reader refuses. *)
Example refused_files :
  map (fun text => read_csv text ["timestamp"%string])
      [""%string;
       unlines ["time,temp"; "2024-01-01 09:30:00,28.5"]%string;
       unlines [header_line; "2024-01-01 09:30:00,28.5,80.0,1.5";
                "2024-01-01 09:30:10,28.5,80.0,1.5,7"]%string]
  = [Raise EmptyDataError; Raise ValueError; Raise ParserError].
Proof. vm_compute. reflexivity. Qed.

(** * Further properties of the script *)

(** ** A session that holds a log does not read the backing file *)

(** X1. Once the session holds a log, a run takes nothing from the files:
    the log it leaves in the session and the page it draws are the same
    whatever the app folder holds.  A backing file changed from outside
    while the session lives is not read again. *)
Theorem session_ignores_files (env : Env) (df : DataFrame) (fs fs' : filesystem) :
  session (script env (Some df) fs) = session (script env (Some df) fs')
  /\ page (script env (Some df) fs) = page (script env (Some df) fs').
Proof.
  unfold script, ingest, save_data.
  destruct (sidebar_date_range env df) as [dr|e|]; cbn [session page files].
  - destruct (run_simulation env); [|split; reflexivity].
    destruct (disk_state env); cbn [fst snd session page files]; split; reflexivity.
  - split; reflexivity.
  - split; reflexivity.
Qed.

(** ** The bounds of the date widget *)

Lemma lex_leb_total a : forall b,
  List.length a = List.length b -> lex_leb a b = false -> lex_leb b a = true.
Proof.
  induction a as [|x a IH]; intros [|y b] Hlen; cbn [lex_leb]; try discriminate.
  intros H. apply orb_false_iff in H as [H1 H2].
  apply Z.ltb_ge in H1.
  destruct (x =? y) eqn:E; cbn [andb] in H2.
  - apply Z.eqb_eq in E. subst y. rewrite Z.eqb_refl.
    rewrite (IH b) by (try exact H2; simpl in Hlen; lia). apply orb_true_r.
  - apply Z.eqb_neq in E. assert (Hlt : y < x) by lia.
    apply Z.ltb_lt in Hlt. rewrite Hlt. reflexivity.
Qed.

Lemma datetime_leb_total a b : datetime_leb a b = false -> datetime_leb b a = true.
Proof. apply lex_leb_total. reflexivity. Qed.

Lemma datetime_leb_refl a : datetime_leb a a = true.
Proof. apply lex_leb_refl. Qed.

Lemma datetime_leb_trans a b c :
  datetime_leb a b = true -> datetime_leb b c = true -> datetime_leb a c = true.
Proof. apply lex_leb_trans. Qed.

Lemma lex_leb_prefix a : forall b c d,
  List.length a = List.length b ->
  lex_leb (a ++ c) (b ++ d) = true -> lex_leb a b = true.
Proof.
  induction a as [|x a IH]; intros [|y b] c d Hlen; cbn [lex_leb app]; try discriminate.
  - reflexivity.
  - intros H. apply orb_true_iff in H as [H|H]; [rewrite H; reflexivity|].
    apply andb_true_iff in H as [H1 H2]. rewrite H1.
    rewrite (IH b c d) by (try exact H2; simpl in Hlen; lia).
    apply orb_true_r.
Qed.

(** The order of timestamps carries over to their days. *)
Lemma date_of_mono a b :
  datetime_leb a b = true -> date_leb (date_of a) (date_of b) = true.
Proof.
  intros H. unfold date_leb, date_of. cbn [dyear dmonth dday].
  apply (lex_leb_prefix [year a; month a; day a] [year b; month b; day b]
           [hour a; minute a; second a; microsecond a]
           [hour b; minute b; second b; microsecond b]); [reflexivity|exact H].
Qed.

Lemma earlier_spec a b :
  (earlier a b = a \/ earlier a b = b)
  /\ datetime_leb (earlier a b) a = true /\ datetime_leb (earlier a b) b = true.
Proof.
  unfold earlier. destruct (datetime_leb a b) eqn:E.
  - split; [left; reflexivity|]. split; [apply datetime_leb_refl|exact E].
  - split; [right; reflexivity|].
    split; [apply datetime_leb_total, E|apply datetime_leb_refl].
Qed.

Lemma later_spec a b :
  (later a b = a \/ later a b = b)
  /\ datetime_leb a (later a b) = true /\ datetime_leb b (later a b) = true.
Proof.
  unfold later. destruct (datetime_leb a b) eqn:E.
  - split; [right; reflexivity|]. split; [exact E|apply datetime_leb_refl].
  - split; [left; reflexivity|].
    split; [apply datetime_leb_refl|apply datetime_leb_total, E].
Qed.

Lemma earliest_spec ts : forall t,
  In (fold_left earlier ts t) (t :: ts)
  /\ forall x, In x (t :: ts) -> datetime_leb (fold_left earlier ts t) x = true.
Proof.
  induction ts as [|y ts IH]; intros t; cbn [fold_left].
  - split; [left; reflexivity|]. intros x [<- | []]. apply datetime_leb_refl.
  - destruct (IH (earlier t y)) as [Hin Hle].
    destruct (earlier_spec t y) as (Hc & Ht & Hy).
    split.
    + destruct Hin as [Hin|Hin]; [|right; right; exact Hin].
      rewrite <- Hin. destruct Hc as [-> | ->]; [left|right; left]; reflexivity.
    + intros x [<- | [<- | Hx]].
      * eapply datetime_leb_trans; [apply Hle; left; reflexivity|exact Ht].
      * eapply datetime_leb_trans; [apply Hle; left; reflexivity|exact Hy].
      * apply Hle. right. exact Hx.
Qed.

Lemma latest_spec ts : forall t,
  In (fold_left later ts t) (t :: ts)
  /\ forall x, In x (t :: ts) -> datetime_leb x (fold_left later ts t) = true.
Proof.
  induction ts as [|y ts IH]; intros t; cbn [fold_left].
  - split; [left; reflexivity|]. intros x [<- | []]. apply datetime_leb_refl.
  - destruct (IH (later t y)) as [Hin Hle].
    destruct (later_spec t y) as (Hc & Ht & Hy).
    split.
    + destruct Hin as [Hin|Hin]; [|right; right; exact Hin].
      rewrite <- Hin. destruct Hc as [-> | ->]; [left|right; left]; reflexivity.
    + intros x [<- | [<- | Hx]].
      * eapply datetime_leb_trans; [exact Ht|apply Hle; left; reflexivity].
      * eapply datetime_leb_trans; [exact Hy|apply Hle; left; reflexivity].
      * apply Hle. right. exact Hx.
Qed.

Lemma sidebar_hands_day_bounds env ty log lo hi :
  day_bounds log = Some (lo, hi) ->
  sidebar_date_range env (frame_of ty log) = Ok (Some (date_input env lo hi)).
Proof.
  destruct log as [|r log]; [discriminate|].
  unfold day_bounds. cbn [map]. intros H. injection H as <- <-.
  unfold sidebar_date_range.
  change (empty (frame_of ty (r :: log))) with false. cbn [negb].
  rewrite column_timestamp_frame_of. cbn [bind].
  rewrite !extreme_date_log.
  cbn [map bind]. reflexivity.
Qed.

(** The bounds the sidebar computes, and what they are to the log. *)
Lemma sidebar_day_bounds (env : Env) (ty : layout) (log : list Reading) :
  log <> [] ->
  exists lo hi,
    day_bounds log = Some (lo, hi)
    /\ sidebar_date_range env (frame_of ty log) = Ok (Some (date_input env lo hi))
    /\ (exists r, In r log /\ date_of (timestamp r) = lo)
    /\ (exists r, In r log /\ date_of (timestamp r) = hi)
    /\ (forall r, In r log -> in_window lo hi r = true).
Proof.
  intros Hne. destruct log as [|r0 log]; [congruence|].
  destruct (earliest_spec (map timestamp log) (timestamp r0)) as [Hin1 Hle1].
  destruct (latest_spec (map timestamp log) (timestamp r0)) as [Hin2 Hle2].
  exists (date_of (fold_left earlier (map timestamp log) (timestamp r0))),
         (date_of (fold_left later (map timestamp log) (timestamp r0))).
  split; [reflexivity|].
  split; [apply sidebar_hands_day_bounds; reflexivity|].
  change (timestamp r0 :: map timestamp log) with (map timestamp (r0 :: log)) in *.
  split; [|split].
  - apply in_map_iff in Hin1 as (r & Hr & Hin). exists r. split; [exact Hin|].
    rewrite Hr. reflexivity.
  - apply in_map_iff in Hin2 as (r & Hr & Hin). exists r. split; [exact Hin|].
    rewrite Hr. reflexivity.
  - intros r Hr. unfold in_window. apply andb_true_iff. split.
    + apply date_of_mono, Hle1, in_map, Hr.
    + apply date_of_mono, Hle2, in_map, Hr.
Qed.

(** X2. For a log with readings, in either layout, the sidebar raises
    nothing and hands the date widget two days of the log as its bounds:
    the day of the earliest timestamp and the day of the latest.  Every
    reading of the log lies in the window between them. *)
Theorem sidebar_bounds_span_log (env : Env) (ty : layout) (log : list Reading) :
  log <> [] ->
  exists lo hi,
    day_bounds log = Some (lo, hi)
    /\ sidebar_date_range env (frame_of ty log) = Ok (Some (date_input env lo hi))
    /\ (exists r, In r log /\ date_of (timestamp r) = lo)
    /\ (exists r, In r log /\ date_of (timestamp r) = hi)
    /\ (forall r, In r log -> in_window lo hi r = true).
Proof.
  intros Hne. destruct (sidebar_day_bounds env ty log Hne) as (lo & hi & H).
  exists lo, hi. exact H.
Qed.

Lemma sidebar_bounds_span_log_witness :
  two_day_log <> []
  /\ exists lo hi,
      day_bounds two_day_log = Some (lo, hi)
      /\ sidebar_date_range (sample_env false 0 Writable)
           (frame_of ObjectColumns two_day_log)
         = Ok (Some (date_input (sample_env false 0 Writable) lo hi))
      /\ (exists r, In r two_day_log /\ date_of (timestamp r) = lo)
      /\ (exists r, In r two_day_log /\ date_of (timestamp r) = hi)
      /\ (forall r, In r two_day_log -> in_window lo hi r = true).
Proof.
  assert (H : two_day_log <> []) by discriminate.
  split; [exact H|].
  exact (sidebar_bounds_span_log (sample_env false 0 Writable) ObjectColumns
           two_day_log H).
Defined.

Example two_day_bounds : day_bounds two_day_log = Some (day1, day2).
Proof. reflexivity. Qed.

(** ** The display section on a view of readings *)

Lemma empty_frame_of ty log : log <> [] -> empty (frame_of ty log) = false.
Proof. destruct log; [congruence|reflexivity]. Qed.

Lemma iloc_last_frame_of ty init r :
  iloc_last (frame_of ty (init ++ [r])) = Ok (combine reading_columns (row_of r)).
Proof.
  unfold iloc_last. cbn [rows columns frame_of].
  rewrite map_app, rev_app_distr. reflexivity.
Qed.

Lemma metrics_of_reading r :
  metric (combine reading_columns (row_of r)) "temperature" = Ok (format_2f (temperature r))
  /\ metric (combine reading_columns (row_of r)) "humidity" = Ok (format_2f (humidity r))
  /\ metric (combine reading_columns (row_of r)) "airflow" = Ok (format_2f (airflow r)).
Proof. repeat split; reflexivity. Qed.

Lemma select_chart ty name (field : Reading -> float) log :
  (forall r, map (cell_at reading_columns (row_of r)) ["timestamp"%string; name]
             = [Time (timestamp r); Num (field r)]) ->
  has_column reading_columns name = true ->
  map (dtype_at (frame_of ty log)) ["timestamp"%string; name]
  = [timestamp_dtype ty; value_dtype ty] ->
  select ["timestamp"%string; name] (frame_of ty log) = Ok (chart_of ty name field log).
Proof.
  intros Hcells Hcol Hty. unfold select. cbn [columns frame_of forallb].
  change (has_column reading_columns "timestamp") with true. rewrite Hcol. cbn [andb].
  rewrite Hty.
  unfold chart_of, reindex. cbn [rows columns frame_of]. rewrite map_map.
  do 2 f_equal. apply map_ext. exact Hcells.
Qed.

Lemma insert_desc_rows r log :
  insert_desc (timestamp_key "timestamp" reading_columns) (row_of r) (map row_of log)
  = map row_of (insert_newest_first r log).
Proof.
  induction log as [|s log IH]; [reflexivity|].
  cbn [map insert_desc insert_newest_first].
  change (timestamp_key "timestamp" reading_columns (row_of r)) with (Some (timestamp r)).
  change (timestamp_key "timestamp" reading_columns (row_of s)) with (Some (timestamp s)).
  cbn [before_desc].
  destruct (negb (datetime_leb (timestamp s) (timestamp r))); [|reflexivity].
  cbn [map]. rewrite IH. reflexivity.
Qed.

Lemma sort_values_desc_frame_of ty log :
  sort_values_desc "timestamp" (frame_of ty log) = Ok (frame_of ty (newest_first log)).
Proof.
  unfold sort_values_desc. rewrite column_timestamp_frame_of.
  cbn [dtype_of values].
  assert (Hguard : match timestamp_dtype ty with
                   | datetime64 =>
                       forallb time_or_nan (map (fun r => Time (timestamp r)) log)
                   | object => forallb is_time (map (fun r => Time (timestamp r)) log)
                   | _ => false
                   end = true).
  { destruct ty; cbn [timestamp_dtype];
      [apply forallb_is_time|apply forallb_time_or_nan]. }
  rewrite Hguard. clear Hguard. cbn [columns rows dtypes frame_of].
  unfold frame_of. do 2 f_equal.
  induction log as [|r log IH]; [reflexivity|].
  cbn [map fold_right]. rewrite IH. apply insert_desc_rows.
Qed.

(** The dashboard the display section builds from a view of readings. *)
Lemma render_on_view (ty : layout) (init : list Reading) (r : Reading) :
  let view := init ++ [r] in
  render (frame_of ty view)
  = Ok (Shown (mkDashboard
                 (format_2f (temperature r))
                 (format_2f (humidity r))
                 (format_2f (airflow r))
                 (chart_of ty "temperature" temperature view)
                 (chart_of ty "humidity" humidity view)
                 (chart_of ty "airflow" airflow view)
                 (frame_of ty (newest_first view))
                 (to_csv (frame_of ty view)))).
Proof.
  intros view. unfold render.
  rewrite empty_frame_of by (subst view; destruct init; discriminate).
  cbn [negb]. subst view.
  rewrite iloc_last_frame_of. cbn [bind].
  destruct (metrics_of_reading r) as (-> & -> & ->). cbn [bind].
  rewrite (select_chart ty "temperature" temperature) by (intros; reflexivity).
  rewrite (select_chart ty "humidity" humidity) by (intros; reflexivity).
  rewrite (select_chart ty "airflow" airflow) by (intros; reflexivity).
  cbn [bind]. rewrite sort_values_desc_frame_of. reflexivity.
Qed.

Lemma render_frame_of_ok ty log : exists shown, render (frame_of ty log) = Ok shown.
Proof.
  destruct log as [|r0 log]; [eexists; reflexivity|].
  destruct (exists_last (l := r0 :: log)) as (init & r & ->); [discriminate|].
  eexists. apply render_on_view.
Qed.

(** ** The table *)

Lemma insert_newest_first_perm r log :
  Permutation (r :: log) (insert_newest_first r log).
Proof.
  induction log as [|s log IH]; cbn [insert_newest_first]; [apply Permutation_refl|].
  destruct (negb (datetime_leb (timestamp s) (timestamp r))); [|apply Permutation_refl].
  eapply Permutation_trans; [apply perm_swap|]. apply perm_skip, IH.
Qed.

Lemma newest_first_perm log : Permutation log (newest_first log).
Proof.
  induction log as [|r log IH]; [apply Permutation_refl|].
  cbn [newest_first fold_right]. fold (newest_first log).
  eapply Permutation_trans; [apply perm_skip, IH|apply insert_newest_first_perm].
Qed.

Lemma no_earlier_trans a b c : no_earlier a b -> no_earlier b c -> no_earlier a c.
Proof. unfold no_earlier. intros H1 H2. eapply datetime_leb_trans; eassumption. Qed.

Lemma insert_newest_first_sorted r log :
  StronglySorted no_earlier log -> StronglySorted no_earlier (insert_newest_first r log).
Proof.
  induction 1 as [|s log Hs IH Hall]; cbn [insert_newest_first].
  - constructor; constructor.
  - destruct (datetime_leb (timestamp s) (timestamp r)) eqn:E; cbn [negb].
    + constructor; [constructor; assumption|].
      constructor; [exact E|].
      eapply Forall_impl; [|exact Hall].
      intros x Hx. eapply no_earlier_trans; [exact E|exact Hx].
    + apply datetime_leb_total in E.
      constructor; [exact IH|].
      apply (Permutation_Forall (insert_newest_first_perm r log)).
      constructor; [exact E|exact Hall].
Qed.

Lemma newest_first_sorted log : StronglySorted no_earlier (newest_first log).
Proof.
  induction log as [|r log IH]; [constructor|].
  cbn [newest_first fold_right]. apply insert_newest_first_sorted, IH.
Qed.

(** Readings taken at the same time keep the order they have in the
    view. *)
Example table_keeps_ties_in_view_order :
  let at_hour h x := mkReading (mkDatetime 2024 1 1 h 0 0 0)
                               (mkFloat x 0) (mkFloat 80 0) (mkFloat 15 1) in
  map temperature
      (newest_first [at_hour 9 1; at_hour 9 2; at_hour 10 3; at_hour 9 4; at_hour 10 6])
  = map (fun x => mkFloat x 0) [3; 6; 1; 2; 4].
Proof. vm_compute. reflexivity. Qed.

(** X6. On a view of readings that is not empty, in either layout, the
    display section raises nothing.  The three metrics are the
    temperature, the humidity and the airflow of the last reading of the
    view, in view order, whichever timestamp is the latest; each chart is
    drawn from the timestamps and one quantity of all readings in view
    order; the table holds the readings of the view ordered by timestamp,
    newest first; the download is the CSV text of the view. *)
Theorem display_of_view (ty : layout) (init : list Reading) (r : Reading) :
  let view := init ++ [r] in
  exists d newest,
    render (frame_of ty view) = Ok (Shown d)
    /\ metric_temperature d = format_2f (temperature r)
    /\ metric_humidity d = format_2f (humidity r)
    /\ metric_airflow d = format_2f (airflow r)
    /\ chart_temperature d = chart_of ty "temperature" temperature view
    /\ chart_humidity d = chart_of ty "humidity" humidity view
    /\ chart_airflow d = chart_of ty "airflow" airflow view
    /\ (table d = frame_of ty newest
        /\ Permutation view newest /\ StronglySorted no_earlier newest)
    /\ download d = to_csv (frame_of ty view).
Proof.
  intros view. eexists. exists (newest_first view).
  split; [apply render_on_view|].
  cbn [metric_temperature metric_humidity metric_airflow chart_temperature
       chart_humidity chart_airflow table download].
  repeat split; [apply newest_first_perm|apply newest_first_sorted].
Qed.

(** X8. The table of the page holds exactly the readings of the view, each
    as often as the view holds it, ordered by timestamp with the newest
    first: no reading of the table is earlier than one below it. *)
Theorem table_is_view_newest_first (ty : layout) (init : list Reading) (r : Reading) :
  let view := init ++ [r] in
  exists d newest,
    render (frame_of ty view) = Ok (Shown d)
    /\ table d = frame_of ty newest
    /\ Permutation view newest
    /\ StronglySorted no_earlier newest.
Proof.
  intros view. eexists. exists (newest_first view).
  split; [apply render_on_view|]. cbn [table].
  split; [reflexivity|].
  split; [apply newest_first_perm|apply newest_first_sorted].
Qed.

(** ** The text of a metric *)

Lemma canonical_eqv_lt m e n f :
  canonical (mkFloat n f) -> (e < f)%nat ->
  eqv (mkFloat m e) (mkFloat n f) -> False.
Proof.
  intros Hn Hlt Heq. destruct f as [|f]; [lia|].
  apply (canonical_last_digit n f Hn).
  unfold eqv in Heq. cbn [dmant dexp] in Heq.
  replace (S f) with (e + (f - e) + 1)%nat in Heq by lia.
  rewrite !pow10_add in Heq. change (pow10 1) with 10 in Heq.
  pose proof (pow10_pos e) as He.
  assert (Hm : n = m * pow10 (f - e) * 10).
  { apply (Z.mul_reg_r _ _ (pow10 e)); [lia|]. rewrite <- Heq. ring. }
  rewrite Hm. apply Z.mod_mul. lia.
Qed.

(** Canonical floats of equal value are equal. *)
Lemma canonical_eqv_eq x y : canonical x -> canonical y -> eqv x y -> x = y.
Proof.
  destruct x as [m e], y as [n f]. intros Hx Hy Heq.
  destruct (lt_eq_lt_dec e f) as [[Hlt | ->] | Hgt].
  - exfalso. exact (canonical_eqv_lt m e n f Hy Hlt Heq).
  - unfold eqv in Heq. cbn [dmant dexp] in Heq.
    pose proof (pow10_pos f). f_equal. apply (Z.mul_reg_r _ _ (pow10 f)); [lia|exact Heq].
  - exfalso. exact (canonical_eqv_lt n f m e Hx Hgt (eqv_sym _ _ Heq)).
Qed.

Lemma canon_eqv_eq x y : eqv x y -> canon x = canon y.
Proof.
  intros H. apply canonical_eqv_eq; try apply canon_canonical.
  eapply eqv_trans; [apply canon_eqv|].
  eapply eqv_trans; [exact H|apply eqv_sym, canon_eqv].
Qed.

(** Integer part, point and [e] decimal places read back as the float they
    spell, with and without a minus sign in front. *)
Lemma parse_float_unsigned a e :
  0 <= a ->
  parse_float
    (str_nat (a / pow10 e)
       ++ String dot (match e with O => "0" | _ => zfill e a end))%string
  = Some (canon (mkFloat a e)).
Proof.
  intros Ha.
  destruct (str_nat_head (a / pow10 e)) as (c & r & Hs & Hd).
  assert (Hm : (c =? minus)%char = false).
  { apply negb_true_iff. apply (digit_differs minus c); [reflexivity|exact Hd]. }
  transitivity
    (parse_unsigned
       (str_nat (a / pow10 e)
          ++ String dot match e with O => "0" | _ => zfill e a end)%string).
  - rewrite Hs. cbn [append parse_float]. rewrite Hm. reflexivity.
  - apply parse_unsigned_point. exact Ha.
Qed.

Lemma parse_float_negated a e :
  0 <= a ->
  parse_float
    ("-" ++ str_nat (a / pow10 e)
       ++ String dot (match e with O => "0" | _ => zfill e a end))%string
  = Some (canon (mkFloat (- a) e)).
Proof.
  intros Ha. cbn [append parse_float]. change ("-" =? minus)%char with true. cbv iota.
  rewrite parse_unsigned_point by exact Ha. cbn [obind].
  unfold canon. cbn [dmant dexp]. rewrite strip0_opp. reflexivity.
Qed.

Lemma round_places x n : (dexp (PyFloat.round x n) <= n)%nat.
Proof.
  unfold PyFloat.round. destruct (dexp x <=? n)%nat eqn:E.
  - apply Nat.leb_le in E. unfold canon.
    pose proof (strip0_dexp_le (dmant x) (dexp x)). lia.
  - unfold canon. cbn [dmant dexp]. apply strip0_dexp_le.
Qed.

Lemma round_fixed x n :
  canonical x -> (dexp x <= n)%nat -> PyFloat.round x n = x.
Proof.
  intros Hc Hle. unfold PyFloat.round.
  apply Nat.leb_le in Hle. rewrite Hle. exact Hc.
Qed.

(** The hundredths of [round(x, 2)] have the sign of [x]. *)
Lemma round_hundredths x :
  let r := PyFloat.round x 2 in
  let k := dmant r * pow10 (2 - dexp r) in
  scaled r 2 k /\ (dmant x < 0 -> k <= 0) /\ (0 <= dmant x -> 0 <= k).
Proof.
  intros r k.
  assert (Hk : scaled r 2 k).
  { pose proof (round_places x 2) as Hle. fold r in Hle.
    pose proof (scaled_lift r (dexp r) (dmant r) (2 - dexp r) (scaled_self r)) as H.
    replace (dexp r + (2 - dexp r))%nat with 2%nat in H by lia. exact H. }
  split; [exact Hk|].
  destruct (round_scaled x 2) as (k' & Hk' & Hlo & Hhi). fold r in Hk'.
  assert (Heq : k = k').
  { assert (H : eqv (mkFloat k 2) (mkFloat k' 2))
      by (eapply eqv_trans; [apply eqv_sym, Hk|exact Hk']).
    unfold eqv in H. cbn [dmant dexp] in H. pose proof (pow10_pos 2). nia. }
  pose proof (pow10_pos (dexp x)) as Hp. pose proof (pow10_pos 2) as H2.
  split; intros Hx; rewrite Heq.
  - apply Hhi. unfold le. cbn [dmant dexp]. nia.
  - apply Hlo. unfold le. cbn [dmant dexp]. nia.
Qed.

(** X7. The text of a metric, [f"{x:.2f}"], is the value rounded to two
    decimal places: it reads back as [round(x, 2)], and it is made of a part
    without a point, the point, and exactly two digits.  For a value the
    generator produced nothing is lost: the text reads back as the value. *)
Theorem metric_text_is_rounded_value (x : float) :
  parse_float (format_2f x) = Some (PyFloat.round x 2)
  /\ (exists whole frac,
         format_2f x = (whole ++ String dot frac)%string
         /\ string_forall (differs dot) whole = true
         /\ String.length frac = 2%nat
         /\ string_forall is_digit frac = true)
  /\ (forall env,
         parse_float (format_2f (temperature (reading_of env)))
         = Some (temperature (reading_of env))
         /\ parse_float (format_2f (humidity (reading_of env)))
            = Some (humidity (reading_of env))
         /\ parse_float (format_2f (airflow (reading_of env)))
            = Some (airflow (reading_of env))).
Proof.
  assert (Hgen : forall y, parse_float (format_2f y) = Some (PyFloat.round y 2)).
  { intros y. unfold format_2f. cbv zeta.
    destruct (round_hundredths y) as (Hk & Hneg & Hpos).
    set (r := PyFloat.round y 2) in *.
    set (k := dmant r * pow10 (2 - dexp r)) in *.
    change 100 with (pow10 2).
    assert (Hval : canon (mkFloat k 2) = r).
    { transitivity (canon r); [|exact (round_canonical y 2)].
      apply canon_eqv_eq. apply eqv_sym. exact Hk. }
    destruct (dmant y <? 0) eqn:Hsign.
    - apply Z.ltb_lt in Hsign. specialize (Hneg Hsign).
      rewrite parse_float_negated by lia.
      rewrite Z.abs_neq, Z.opp_involutive by lia. f_equal. exact Hval.
    - apply Z.ltb_ge in Hsign. specialize (Hpos Hsign).
      cbn [append]. rewrite parse_float_unsigned by lia.
      rewrite Z.abs_eq by lia. f_equal. exact Hval. }
  split; [apply Hgen|]. split.
  - unfold format_2f. cbv zeta.
    set (k := dmant (PyFloat.round x 2) * pow10 (2 - dexp (PyFloat.round x 2))).
    eexists. exists (zfill 2 (Z.abs k)).
    split; [rewrite <- string_app_assoc; reflexivity|].
    split; [|split; [apply zfill_length|apply zfill_digits]].
    rewrite string_forall_app.
    rewrite (digits_differ dot (str_nat _)) by (try reflexivity; apply str_nat_digits).
    destruct (dmant x <? 0); reflexivity.
  - intros env. unfold reading_of. cbn [temperature humidity airflow].
    rewrite !Hgen.
    rewrite !(round_fixed (PyFloat.round _ 2) 2)
      by (try apply round_canonical; apply round_places).
    repeat split.
Qed.

Example metric_text_samples :
  map format_2f [mkFloat 285 1; mkFloat 28456 3; mkFloat 30 0; mkFloat (-1) 3]
  = ["28.50"; "28.46"; "30.00"; "-0.00"]%string.
Proof. vm_compute. reflexivity. Qed.

(** ** What a run shows *)

Lemma filter_all {A} (p : A -> bool) (l : list A) :
  (forall x, In x l -> p x = true) -> filter p l = l.
Proof.
  induction l as [|x l IH]; intros H; [reflexivity|].
  cbn [filter]. rewrite (H x (or_introl eq_refl)). f_equal.
  apply IH. intros y Hy. apply H. right. exact Hy.
Qed.

Lemma script_paused_page env ty log fs :
  run_simulation env = false ->
  page (script env (Some (frame_of ty log)) fs)
  = (data <- apply_date_filter (frame_of ty log)
               (match sidebar_date_range env (frame_of ty log) with
                | Ok dr => dr
                | _ => None
                end) ;;
     render data).
Proof.
  intros Hrun. unfold script.
  destruct (sidebar_frame_of env ty log) as (dr & -> & _).
  rewrite Hrun. reflexivity.
Qed.

(** X3. A session whose log was loaded from the backing file holds it in
    typed columns.  With the simulation paused and the date widget left as
    it comes up (its value is the pair of its bounds), the filter keeps
    every reading of such a log: the page is drawn from the whole log. *)
Theorem untouched_widget_shows_whole_log (env : Env) (log : list Reading)
  (fs : filesystem) :
  untouched env ->
  run_simulation env = false ->
  page (script env (Some (frame_of TypedColumns log)) fs)
  = render (frame_of TypedColumns log).
Proof.
  intros Hdef Hrun. rewrite (script_paused_page env TypedColumns log fs Hrun).
  destruct log as [|r0 log]; [reflexivity|].
  destruct (sidebar_day_bounds env TypedColumns (r0 :: log))
    as (lo & hi & _ & -> & _ & _ & Hall); [discriminate|].
  rewrite Hdef, apply_date_filter_frame_of, (filter_all _ _ Hall). reflexivity.
Qed.

Lemma sample_env_untouched run sec d : untouched (sample_env run sec d).
Proof. intros lo hi. reflexivity. Qed.

Lemma untouched_widget_shows_whole_log_witness :
  untouched (sample_env false 0 Writable)
  /\ run_simulation (sample_env false 0 Writable) = false
  /\ page (script (sample_env false 0 Writable)
                  (Some (frame_of TypedColumns two_day_log)) no_files)
     = render (frame_of TypedColumns two_day_log).
Proof.
  split; [apply sample_env_untouched|]. split; [reflexivity|].
  apply (untouched_widget_shows_whole_log (sample_env false 0 Writable) two_day_log
           no_files (sample_env_untouched false 0 Writable)).
  reflexivity.
Defined.

(** X4. In the Running state the date widget is drawn before the tick, so
    its bounds are the days of the log as it was.  For a log held in typed
    columns and the widget left as it comes up, the new reading is stored
    in the session, and the page of that run shows it only if its day lies
    within the days the log spanned before: a reading taken on a later day
    is left out of the page that stores it. *)
Theorem new_reading_shown_within_old_bounds (env : Env) (log : list Reading)
  (fs : filesystem) (lo hi : date) :
  day_bounds log = Some (lo, hi) ->
  untouched env ->
  run_simulation env = true ->
  disk_state env = Writable ->
  let r := script env (Some (frame_of TypedColumns log)) fs in
  session r = Some (frame_of TypedColumns (log ++ [reading_of env]))
  /\ page r
     = render (frame_of TypedColumns (if in_window lo hi (reading_of env)
                                      then log ++ [reading_of env]
                                      else log)).
Proof.
  intros Hb Hdef Hrun Hdisk r. subst r.
  split; [apply script_running_session; [reflexivity|exact Hrun]|].
  rewrite (script_running_page env (Some (frame_of TypedColumns log)) fs TypedColumns log
             eq_refl Hrun), Hdisk.
  rewrite (sidebar_hands_day_bounds env TypedColumns log lo hi Hb), Hdef.
  rewrite apply_date_filter_frame_of, filter_app. cbn [bind filter].
  assert (Hall : forall x, In x log -> in_window lo hi x = true).
  { destruct log as [|r0 log]; [intros x []|].
    destruct (sidebar_day_bounds env TypedColumns (r0 :: log))
      as (lo' & hi' & Hb' & _ & _ & _ & Hall); [discriminate|].
    rewrite Hb in Hb'. injection Hb' as <- <-. exact Hall. }
  rewrite (filter_all _ _ Hall).
  destruct (in_window lo hi (reading_of env)); [reflexivity|].
  rewrite app_nil_r. reflexivity.
Qed.

Lemma new_reading_shown_within_old_bounds_witness :
  let env := mkEnv true (fun lo hi => [lo; hi]) (mkDatetime 2024 1 3 0 0 5 0)
                   (mkFloat 5 1) (mkFloat 25 2) (mkFloat 123456 6) Writable in
  day_bounds two_day_log = Some (day1, day2)
  /\ untouched env
  /\ run_simulation env = true
  /\ disk_state env = Writable
  /\ in_window day1 day2 (reading_of env) = false
  /\ (let r := script env (Some (frame_of TypedColumns two_day_log)) no_files in
      session r = Some (frame_of TypedColumns (two_day_log ++ [reading_of env]))
      /\ page r
         = render (frame_of TypedColumns (if in_window day1 day2 (reading_of env)
                                          then two_day_log ++ [reading_of env]
                                          else two_day_log))).
Proof.
  intros env.
  assert (Hdef : untouched env) by (intros lo hi; reflexivity).
  split; [reflexivity|]. split; [exact Hdef|].
  split; [reflexivity|]. split; [reflexivity|]. split; [reflexivity|].
  exact (new_reading_shown_within_old_bounds env two_day_log no_files day1 day2
           eq_refl Hdef eq_refl eq_refl).
Defined.

Lemma first_tick_page env ss fs ty :
  current_log ss fs = Ok (frame_of ty []) ->
  run_simulation env = true ->
  disk_state env = Writable ->
  page (script env ss fs) = render (frame_of ty [reading_of env]).
Proof.
  intros Hlog Hrun Hdisk.
  rewrite (script_running_page env ss fs ty [] Hlog Hrun), Hdisk.
  cbn [app].
  change (sidebar_date_range env (frame_of ty []))
    with (@Ok (option (list date)) None).
  cbv iota.
  change (apply_date_filter (frame_of ty [reading_of env]) None)
    with (Ok (frame_of ty [reading_of env])).
  reflexivity.
Qed.

(** X5. The first tick on an empty log, in either layout: no date widget
    was drawn for the empty log, so nothing is filtered, whatever the
    widget would answer.  The page shows the new reading: its three values
    as the metrics, and it alone in the charts, the table and the
    download. *)
Theorem first_tick_shows_reading (env : Env) (session_data : option DataFrame)
  (fs : filesystem) (ty : layout) :
  current_log session_data fs = Ok (frame_of ty []) ->
  run_simulation env = true ->
  disk_state env = Writable ->
  let new := reading_of env in
  page (script env session_data fs)
  = Ok (Shown (mkDashboard
                 (format_2f (temperature new))
                 (format_2f (humidity new))
                 (format_2f (airflow new))
                 (chart_of ty "temperature" temperature [new])
                 (chart_of ty "humidity" humidity [new])
                 (chart_of ty "airflow" airflow [new])
                 (frame_of ty [new])
                 (to_csv (frame_of ty [new])))).
Proof.
  intros Hlog Hrun Hdisk new.
  rewrite (first_tick_page env session_data fs ty Hlog Hrun Hdisk).
  exact (render_on_view ty [] (reading_of env)).
Qed.

Lemma first_tick_shows_reading_witness :
  let env := one_date_env true 0 Writable in
  let new := reading_of env in
  current_log None no_files = Ok (frame_of ObjectColumns [])
  /\ run_simulation env = true
  /\ disk_state env = Writable
  /\ page (script env None no_files)
     = Ok (Shown (mkDashboard
                    (format_2f (temperature new))
                    (format_2f (humidity new))
                    (format_2f (airflow new))
                    (chart_of ObjectColumns "temperature" temperature [new])
                    (chart_of ObjectColumns "humidity" humidity [new])
                    (chart_of ObjectColumns "airflow" airflow [new])
                    (frame_of ObjectColumns [new])
                    (to_csv (frame_of ObjectColumns [new])))).
Proof.
  intros env new.
  split; [reflexivity|]. split; [reflexivity|]. split; [reflexivity|].
  exact (first_tick_shows_reading env None no_files ObjectColumns
           eq_refl eq_refl eq_refl).
Defined.

(** ** The download *)

(** X9. The download of the page is written like the backing file.  Read
    with the reader [load_data] uses, it gives back the readings of the
    view the page was drawn from, in typed columns, when the view is held
    in typed columns, and when it is held in [object] columns and its
    timestamps all look alike. *)
Theorem download_reads_back_as_view (ty : layout) (init : list Reading) (r : Reading) :
  Forall wf_reading (init ++ [r]) ->
  reads_back ty (init ++ [r]) ->
  exists d,
    render (frame_of ty (init ++ [r])) = Ok (Shown d)
    /\ read_csv (download d) ["timestamp"%string]
       = Ok (frame_of TypedColumns (init ++ [r])).
Proof.
  intros Hwf Hrb. eexists. split; [apply render_on_view|].
  cbn [download]. apply read_csv_written_log; [|exact Hwf|exact Hrb].
  destruct init; discriminate.
Qed.

Lemma download_reads_back_as_view_witness :
  Forall wf_reading (removelast two_day_log ++ [at_time 2 0 2805])
  /\ reads_back TypedColumns (removelast two_day_log ++ [at_time 2 0 2805])
  /\ exists d,
      render (frame_of TypedColumns (removelast two_day_log ++ [at_time 2 0 2805]))
      = Ok (Shown d)
      /\ read_csv (download d) ["timestamp"%string]
         = Ok (frame_of TypedColumns (removelast two_day_log ++ [at_time 2 0 2805])).
Proof.
  assert (H : Forall wf_reading (removelast two_day_log ++ [at_time 2 0 2805]))
    by exact two_day_log_wf.
  split; [exact H|]. split; [exact I|].
  exact (download_reads_back_as_view TypedColumns (removelast two_day_log)
           (at_time 2 0 2805) H I).
Defined.

(** ** The backing file follows the session *)

Lemma script_running_files env ss fs ty log :
  current_log ss fs = Ok (frame_of ty log) ->
  run_simulation env = true ->
  disk_state env = Writable ->
  files (script env ss fs) DATA_FILE
  = Some (to_csv (frame_of ty (log ++ [reading_of env]))).
Proof.
  intros Hlog Hrun Hdisk. unfold script. fold (current_log ss fs). rewrite Hlog.
  destruct (sidebar_frame_of env ty log) as (dr & -> & _).
  rewrite Hrun, ingest_frame_of, Hdisk. cbn [save_data fst snd files].
  apply fs_set_same.
Qed.

Lemma sound_reading env : sound_inputs env -> wf_reading (reading_of env).
Proof. intros (Hv & Hy & H1 & H2 & H3). apply reading_of_wf; assumption. Qed.

Lemma sample_env_sound run sec d :
  0 <= sec <= 59 -> sound_inputs (sample_env run sec d).
Proof.
  intros Hsec. unfold sound_inputs, sample_env. cbn [now random1 random2 random3 year].
  split; [|split; [lia|repeat split; vm_compute; congruence]].
  unfold valid_datetime. cbn [year month day hour minute second microsecond].
  rewrite !andb_true_iff, !in_range_spec. vm_compute days_in_month. lia.
Qed.

(** X10. After a tick whose save went through, the backing file holds the
    log of the session: a new session started on the files that run left
    loads the readings the old session holds, the new reading included.
    This holds for a session that holds its log in typed columns, and for
    one that holds it in [object] columns as long as the timestamps of the
    log, the new one included, all look alike. *)
Theorem tick_leaves_file_in_step (env : Env) (session_data : option DataFrame)
  (fs : filesystem) (ty : layout) (log : list Reading) :
  current_log session_data fs = Ok (frame_of ty log) ->
  Forall wf_reading log ->
  sound_inputs env ->
  reads_back ty (log ++ [reading_of env]) ->
  run_simulation env = true ->
  disk_state env = Writable ->
  let r := script env session_data fs in
  session r = Some (frame_of ty (log ++ [reading_of env]))
  /\ current_log None (files r) = Ok (frame_of TypedColumns (log ++ [reading_of env])).
Proof.
  intros Hlog Hwf Hnow Hrb Hrun Hdisk r. subst r.
  split; [apply script_running_session; assumption|].
  unfold current_log, load_data.
  rewrite (script_running_files env session_data fs ty log Hlog Hrun Hdisk).
  apply read_csv_written_log; [destruct log; discriminate| |exact Hrb].
  apply Forall_app. split; [exact Hwf|].
  constructor; [apply sound_reading, Hnow|constructor].
Qed.

Lemma tick_leaves_file_in_step_witness :
  let env := sample_env true 0 Writable in
  current_log (Some (frame_of ObjectColumns two_day_log)) damaged_files
  = Ok (frame_of ObjectColumns two_day_log)
  /\ Forall wf_reading two_day_log
  /\ sound_inputs env
  /\ reads_back ObjectColumns (two_day_log ++ [reading_of env])
  /\ run_simulation env = true
  /\ disk_state env = Writable
  /\ (let r := script env (Some (frame_of ObjectColumns two_day_log)) damaged_files in
      session r = Some (frame_of ObjectColumns (two_day_log ++ [reading_of env]))
      /\ current_log None (files r)
         = Ok (frame_of TypedColumns (two_day_log ++ [reading_of env]))).
Proof.
  intros env.
  assert (Hs : sound_inputs env) by (apply sample_env_sound; lia).
  assert (Hrb : reads_back ObjectColumns (two_day_log ++ [reading_of env]))
    by (left; repeat constructor).
  split; [reflexivity|]. split; [exact two_day_log_wf|].
  split; [exact Hs|]. split; [exact Hrb|]. split; [reflexivity|]. split; [reflexivity|].
  exact (tick_leaves_file_in_step env (Some (frame_of ObjectColumns two_day_log))
           damaged_files ObjectColumns two_day_log eq_refl two_day_log_wf Hs Hrb
           eq_refl eq_refl).
Defined.

(** X11. Every save writes the whole log, so a reading whose save failed
    is not lost to the backing file: the next tick whose save goes through
    writes it together with the new one, whatever the failed write left
    behind.  The file then loads as the old log followed by both readings,
    under the condition of X10 on the timestamps of a log in [object]
    columns. *)
Theorem next_save_catches_up (env env' : Env) (session_data : option DataFrame)
  (fs : filesystem) (ty : layout) (log : list Reading) (left_behind : option string) :
  current_log session_data fs = Ok (frame_of ty log) ->
  Forall wf_reading log ->
  sound_inputs env ->
  sound_inputs env' ->
  reads_back ty (log ++ [reading_of env; reading_of env']) ->
  run_simulation env = true ->
  disk_state env = WriteFails left_behind ->
  run_simulation env' = true ->
  disk_state env' = Writable ->
  let r := script env session_data fs in
  let r' := script env' (session r) (files r) in
  files r DATA_FILE = left_behind
  /\ current_log None (files r')
     = Ok (frame_of TypedColumns (log ++ [reading_of env; reading_of env'])).
Proof.
  intros Hlog Hwf Hnow Hnow' Hrb Hrun Hdisk Hrun' Hdisk' r r'. subst r r'.
  pose proof (script_running_session env session_data fs ty log Hlog Hrun) as Hs.
  split.
  - unfold script. fold (current_log session_data fs). rewrite Hlog.
    destruct (sidebar_frame_of env ty log) as (dr & -> & _).
    rewrite Hrun, ingest_frame_of, Hdisk. cbn [save_data fst snd files].
    apply fs_set_same.
  - rewrite Hs. unfold current_log at 1. unfold load_data.
    rewrite (script_running_files env' (Some (frame_of ty (log ++ [reading_of env])))
               (files (script env session_data fs)) ty
               (log ++ [reading_of env]) eq_refl Hrun' Hdisk').
    rewrite <- app_assoc. cbn [app].
    apply read_csv_written_log; [destruct log; discriminate| |exact Hrb].
    apply Forall_app. split; [exact Hwf|].
    constructor; [apply sound_reading, Hnow|].
    constructor; [apply sound_reading, Hnow'|constructor].
Qed.

Lemma next_save_catches_up_witness :
  let env := sample_env true 0 (WriteFails (Some "timestamp,temp"%string)) in
  let env' := sample_env true 10 Writable in
  current_log None no_files = Ok (frame_of ObjectColumns [])
  /\ Forall wf_reading []
  /\ sound_inputs env
  /\ sound_inputs env'
  /\ reads_back ObjectColumns ([] ++ [reading_of env; reading_of env'])
  /\ run_simulation env = true
  /\ disk_state env = WriteFails (Some "timestamp,temp"%string)
  /\ run_simulation env' = true
  /\ disk_state env' = Writable
  /\ (let r := script env None no_files in
      let r' := script env' (session r) (files r) in
      files r DATA_FILE = Some "timestamp,temp"%string
      /\ current_log None (files r')
         = Ok (frame_of TypedColumns ([] ++ [reading_of env; reading_of env']))).
Proof.
  intros env env'.
  assert (Hs : sound_inputs env) by (apply sample_env_sound; lia).
  assert (Hs' : sound_inputs env') by (apply sample_env_sound; lia).
  assert (Hrb : reads_back ObjectColumns ([] ++ [reading_of env; reading_of env']))
    by (left; repeat constructor).
  split; [reflexivity|]. split; [constructor|].
  split; [exact Hs|]. split; [exact Hs'|]. split; [exact Hrb|].
  split; [reflexivity|].
  split; [reflexivity|]. split; [reflexivity|]. split; [reflexivity|].
  exact (next_save_catches_up env env' None no_files ObjectColumns []
           (Some "timestamp,temp"%string)
           eq_refl (Forall_nil _) Hs Hs' Hrb eq_refl eq_refl eq_refl eq_refl).
Defined.

(** ** What can go wrong in a run *)

Lemma apply_date_filter_total log date_range :
  exists view,
    apply_date_filter (frame_of TypedColumns log) date_range
    = Ok (frame_of TypedColumns view).
Proof.
  destruct date_range as [[|a [|b [|c l]]]|].
  3: { eexists. apply apply_date_filter_frame_of. }
  all: exists log; unfold apply_date_filter;
    destruct (negb (empty (frame_of TypedColumns log))); reflexivity.
Qed.

Lemma view_page_ok log date_range :
  exists shown,
    (data <- apply_date_filter (frame_of TypedColumns log) date_range ;; render data)
    = Ok shown.
Proof.
  destruct (apply_date_filter_total log date_range) as (view & ->).
  cbn [bind]. apply render_frame_of_ok.
Qed.

(** X12. On a log of readings held in typed columns (a log loaded from the
    backing file) nothing in a run can fail but the save.  A run draws its
    page, or the simulation was running, the write of the backing file
    failed, and the run ends with the [OSError] of that write.  The
    sidebar, the filter and the display section raise nothing, whatever the
    date widget answers. *)
Theorem only_the_save_can_fail (env : Env) (log : list Reading) (fs : filesystem) :
  let p := page (script env (Some (frame_of TypedColumns log)) fs) in
  (exists shown, p = Ok shown)
  \/ (p = Raise OSError
      /\ run_simulation env = true
      /\ exists left_behind, disk_state env = WriteFails left_behind).
Proof.
  cbv zeta. destruct (run_simulation env) eqn:Hrun.
  - rewrite (script_running_page env (Some (frame_of TypedColumns log)) fs
               TypedColumns log eq_refl Hrun).
    destruct (disk_state env) as [|left_behind].
    + left.
      apply (view_page_ok (log ++ [reading_of env])
               (match sidebar_date_range env (frame_of TypedColumns log) with
                | Ok dr => dr
                | _ => None
                end)).
    + right. split; [reflexivity|]. split; [reflexivity|eauto].
  - left. rewrite (script_paused_page env TypedColumns log fs Hrun).
    apply (view_page_ok log
             (match sidebar_date_range env (frame_of TypedColumns log) with
              | Ok dr => dr
              | _ => None
              end)).
Qed.

Example failed_write_ends_run :
  page (script (sample_env true 0 (WriteFails None))
               (Some (frame_of TypedColumns two_day_log)) no_files)
  = Raise OSError.
Proof. reflexivity. Qed.

(** ** A session that started without a backing file *)

(** One run on a log with readings held in [object] columns, the date
    widget answering with two dates: the filter is entered and [.dt]
    raises.  A tick made in that run is kept by the session. *)
Lemma object_log_run env log fs :
  log <> [] ->
  (forall lo hi, List.length (date_input env lo hi) = 2%nat) ->
  (run_simulation env = true -> disk_state env = Writable) ->
  page (script env (Some (frame_of ObjectColumns log)) fs) = Raise AttributeError
  /\ session (script env (Some (frame_of ObjectColumns log)) fs)
     = Some (frame_of ObjectColumns
               (log ++ if run_simulation env then [reading_of env] else [])).
Proof.
  intros Hne Htwo Hdisk.
  destruct (sidebar_day_bounds env ObjectColumns log Hne) as (lo & hi & _ & Hside & _).
  assert (Hsel : exists a b, date_input env lo hi = [a; b]).
  { specialize (Htwo lo hi).
    destruct (date_input env lo hi) as [|a [|b [|c l]]]; try discriminate. eauto. }
  destruct Hsel as (a & b & Hsel).
  destruct (run_simulation env) eqn:Hrun.
  - split; [|apply script_running_session; [reflexivity|exact Hrun]].
    rewrite (script_running_page env (Some (frame_of ObjectColumns log)) fs
               ObjectColumns log eq_refl Hrun), (Hdisk eq_refl), Hside, Hsel.
    rewrite apply_date_filter_object by (destruct log; discriminate). reflexivity.
  - rewrite app_nil_r. split; [|apply script_paused_frame, Hrun].
    rewrite (script_paused_page env ObjectColumns log fs Hrun), Hside, Hsel.
    rewrite apply_date_filter_object by exact Hne. reflexivity.
Qed.

Lemma object_log_runs envs : forall log fs,
  log <> [] ->
  Forall (fun env => (forall lo hi, List.length (date_input env lo hi) = 2%nat)
                     /\ (run_simulation env = true -> disk_state env = Writable)) envs ->
  pages envs (Some (frame_of ObjectColumns log)) fs
  = repeat (Raise AttributeError) (List.length envs)
  /\ fst (refreshes envs (Some (frame_of ObjectColumns log)) fs)
     = Some (frame_of ObjectColumns
               (log ++ map reading_of (filter run_simulation envs))).
Proof.
  induction envs as [|env envs IH]; intros log fs Hne Hall.
  - cbn. rewrite app_nil_r. auto.
  - inversion Hall as [|? ? [Htwo Hdisk] Hall']; subst.
    destruct (object_log_run env log fs Hne Htwo Hdisk) as [Hpage Hsession].
    cbn [pages refreshes List.length repeat]. rewrite Hpage, Hsession.
    destruct (IH (log ++ if run_simulation env then [reading_of env] else [])
                 (files (script env (Some (frame_of ObjectColumns log)) fs)))
      as [Hpages Hlast]; [destruct log; [congruence|discriminate]|exact Hall'|].
    rewrite Hpages, Hlast. split; [reflexivity|].
    cbn [filter]. destruct (run_simulation env); cbn [map];
      rewrite <- app_assoc; reflexivity.
Qed.

(** X16. A session that starts without a backing file draws its page
    once.  Its first tick shows the new reading; from then on the log has
    readings, the date widget is drawn, and as long as the widget answers
    with two dates (as it does when untouched) every run, running or
    paused, ends with [AttributeError]: the session built its log in
    [object] columns and the date filter's [.dt] does not take them.  The
    session goes on collecting the readings of the ticks. *)
Theorem new_session_stops_at_second_run (env : Env) (envs : list Env)
  (fs : filesystem) :
  fs DATA_FILE = None ->
  run_simulation env = true ->
  disk_state env = Writable ->
  Forall (fun env => (forall lo hi, List.length (date_input env lo hi) = 2%nat)
                     /\ (run_simulation env = true -> disk_state env = Writable)) envs ->
  exists first,
    pages (env :: envs) None fs
    = Ok (Shown first) :: repeat (Raise AttributeError) (List.length envs)
    /\ fst (refreshes (env :: envs) None fs)
       = Some (frame_of ObjectColumns
                 (reading_of env :: map reading_of (filter run_simulation envs))).
Proof.
  intros Hfile Hrun Hdisk Hall.
  assert (Hlog : current_log None fs = Ok (frame_of ObjectColumns []))
    by (unfold current_log, load_data; rewrite Hfile; reflexivity).
  pose proof (first_tick_page env None fs ObjectColumns Hlog Hrun Hdisk) as Hpage.
  pose proof (script_running_session env None fs ObjectColumns [] Hlog Hrun) as Hsession.
  cbn [app] in Hsession.
  pose proof (render_on_view ObjectColumns [] (reading_of env)) as Hrender.
  cbv zeta in Hrender. cbn [app] in Hrender. rewrite Hrender in Hpage.
  eexists. cbn [pages refreshes]. rewrite Hpage, Hsession.
  destruct (object_log_runs envs [reading_of env]
              (files (script env None fs))) as [Hpages Hlast];
    [discriminate|exact Hall|].
  rewrite Hpages, Hlast. split; reflexivity.
Qed.

Lemma new_session_stops_at_second_run_witness :
  let envs := [tick_env 10 123456; sample_env false 20 Writable] in
  no_files DATA_FILE = None
  /\ run_simulation (tick_env 0 0) = true
  /\ disk_state (tick_env 0 0) = Writable
  /\ Forall (fun env => (forall lo hi, List.length (date_input env lo hi) = 2%nat)
                        /\ (run_simulation env = true -> disk_state env = Writable)) envs
  /\ exists first,
      pages (tick_env 0 0 :: envs) None no_files
      = Ok (Shown first) :: repeat (Raise AttributeError) (List.length envs)
      /\ fst (refreshes (tick_env 0 0 :: envs) None no_files)
         = Some (frame_of ObjectColumns
                   (reading_of (tick_env 0 0)
                    :: map reading_of (filter run_simulation envs))).
Proof.
  intros envs.
  assert (Hall : Forall (fun env =>
                           (forall lo hi, List.length (date_input env lo hi) = 2%nat)
                           /\ (run_simulation env = true -> disk_state env = Writable))
                        envs)
    by (repeat constructor).
  split; [reflexivity|]. split; [reflexivity|]. split; [reflexivity|].
  split; [exact Hall|].
  exact (new_session_stops_at_second_run (tick_env 0 0) envs no_files
           eq_refl eq_refl eq_refl Hall).
Defined.

(** ** The order of the log *)

Lemma sorted_app {A} (R : A -> A -> Prop) (l1 l2 : list A) :
  StronglySorted R l1 -> StronglySorted R l2 ->
  (forall a b, In a l1 -> In b l2 -> R a b) ->
  StronglySorted R (l1 ++ l2).
Proof.
  induction 1 as [|x l1 Hs IH Hall]; intros H2 Hcross; [exact H2|].
  cbn [app]. constructor.
  - apply IH; [exact H2|]. intros a b Ha Hb. apply Hcross; [right; exact Ha|exact Hb].
  - apply Forall_app. split; [exact Hall|].
    apply Forall_forall. intros b Hb. apply Hcross; [left; reflexivity|exact Hb].
Qed.

Lemma readings_follow_clock envs :
  StronglySorted (fun e e' => datetime_leb (now e) (now e') = true) envs ->
  StronglySorted no_later (map reading_of envs).
Proof.
  induction 1 as [|e envs Hs IH Hall]; cbn [map]; constructor; [exact IH|].
  apply Forall_forall. intros r Hr. apply in_map_iff in Hr as (e' & <- & He').
  rewrite Forall_forall in Hall. exact (Hall e' He').
Qed.

(** X13. The timestamp of a reading is the clock at its tick.  When the
    clock does not run backwards from tick to tick and the log was in the
    order of its timestamps, the log stays in that order through any number
    of ticks: its last reading is always a newest one. *)
Theorem forward_clock_keeps_log_in_order (envs : list Env)
  (session_data : option DataFrame) (fs : filesystem) (ty : layout)
  (log : list Reading) :
  current_log session_data fs = Ok (frame_of ty log) ->
  Forall (fun env => run_simulation env = true) envs ->
  StronglySorted no_later log ->
  StronglySorted (fun e e' => datetime_leb (now e) (now e') = true) envs ->
  (forall r e, In r log -> In e envs -> datetime_leb (timestamp r) (now e) = true) ->
  exists log',
    current_log (fst (refreshes envs session_data fs))
                (snd (refreshes envs session_data fs)) = Ok (frame_of ty log')
    /\ StronglySorted no_later log'
    /\ (forall init r, log' = init ++ [r] -> Forall (fun x => no_later x r) init).
Proof.
  intros Hlog Hrun Hsorted Hclock Hcross.
  assert (Hs : StronglySorted no_later (log ++ map reading_of envs)).
  { apply sorted_app; [exact Hsorted|apply readings_follow_clock, Hclock|].
    intros a b Ha Hb. apply in_map_iff in Hb as (e & <- & He).
    exact (Hcross a e Ha He). }
  exists (log ++ map reading_of envs).
  split; [apply refreshes_running; assumption|]. split; [exact Hs|].
  intros init r Heq. rewrite Heq in Hs. clear Heq.
  induction init as [|x init IH]; [constructor|].
  cbn [app] in Hs. inversion Hs as [|? ? Hs' Hall]; subst.
  constructor; [|apply IH, Hs'].
  rewrite Forall_forall in Hall. apply Hall, in_or_app. right. left. reflexivity.
Qed.

Lemma forward_clock_keeps_log_in_order_witness :
  let envs := [sample_env true 0 Writable; sample_env true 10 (WriteFails None);
               sample_env true 10 Writable] in
  current_log None no_files = Ok (frame_of ObjectColumns [])
  /\ Forall (fun env => run_simulation env = true) envs
  /\ StronglySorted no_later []
  /\ StronglySorted (fun e e' => datetime_leb (now e) (now e') = true) envs
  /\ (forall r e, In r [] -> In e envs -> datetime_leb (timestamp r) (now e) = true)
  /\ exists log',
      current_log (fst (refreshes envs None no_files))
                  (snd (refreshes envs None no_files)) = Ok (frame_of ObjectColumns log')
      /\ StronglySorted no_later log'
      /\ (forall init r, log' = init ++ [r] -> Forall (fun x => no_later x r) init).
Proof.
  intros envs.
  assert (H1 : current_log None no_files = Ok (frame_of ObjectColumns [])) by reflexivity.
  assert (H2 : Forall (fun env => run_simulation env = true) envs)
    by (repeat constructor).
  assert (H3 : StronglySorted no_later []) by constructor.
  assert (H4 : StronglySorted (fun e e' => datetime_leb (now e) (now e') = true) envs)
    by (repeat constructor).
  assert (H5 : forall r e, In r [] -> In e envs ->
                           datetime_leb (timestamp r) (now e) = true)
    by (intros r e []).
  split; [exact H1|]. split; [exact H2|]. split; [exact H3|].
  split; [exact H4|]. split; [exact H5|].
  exact (forward_clock_keeps_log_in_order envs None no_files ObjectColumns []
           H1 H2 H3 H4 H5).
Defined.

(** ** A backing file the reader refuses *)

(** X14. The log is loaded before anything else in a run and the error of
    the load is not caught: while the backing file is one the reader
    refuses, every run of a new session ends with that error, whether the
    simulation is running or paused.  No log comes into the session, no
    reading is generated, and the files stay as they are. *)
Theorem refused_file_blocks_every_run (envs : list Env) (fs : filesystem) (e : exn) :
  load_data fs = Raise e ->
  fst (refreshes envs None fs) = None
  /\ snd (refreshes envs None fs) = fs
  /\ pages envs None fs = repeat (Raise e) (List.length envs).
Proof.
  intros Hload. induction envs as [|env envs IH]; [repeat split|].
  cbn [refreshes pages List.length repeat].
  assert (Hrun : script env None fs = mkRun None fs (Raise e))
    by (unfold script; rewrite Hload; reflexivity).
  rewrite Hrun. cbn [session files page].
  destruct IH as (H1 & H2 & H3). rewrite H3. repeat split; assumption.
Qed.

Lemma refused_file_blocks_every_run_witness :
  let envs := [sample_env true 0 Writable; sample_env false 10 Writable] in
  load_data foreign_files = Raise ValueError
  /\ fst (refreshes envs None foreign_files) = None
  /\ snd (refreshes envs None foreign_files) = foreign_files
  /\ pages envs None foreign_files = repeat (Raise ValueError) (List.length envs).
Proof.
  intros envs.
  assert (H : load_data foreign_files = Raise ValueError) by reflexivity.
  split; [exact H|].
  exact (refused_file_blocks_every_run envs foreign_files ValueError H).
Defined.

(** ** A window without readings *)

Lemma filter_none {A} (p : A -> bool) (l : list A) :
  (forall x, In x l -> p x = false) -> filter p l = [].
Proof.
  induction l as [|x l IH]; intros H; [reflexivity|].
  cbn [filter]. rewrite (H x (or_introl eq_refl)).
  apply IH. intros y Hy. apply H. right. exact Hy.
Qed.

(** X15. The "No data yet" message is shown for an empty view, not only for
    an empty log: for a log held in typed columns, with the simulation
    paused and a window selected in which no reading of the log lies, the
    page shows the message although the log holds readings, and the log in
    the session is untouched. *)
Theorem empty_window_shows_no_data (env : Env) (log : list Reading) (fs : filesystem)
  (a b : date) :
  run_simulation env = false ->
  (forall lo hi, date_input env lo hi = [a; b]) ->
  (forall r, In r log -> in_window a b r = false) ->
  page (script env (Some (frame_of TypedColumns log)) fs) = Ok (Info no_data_message)
  /\ session (script env (Some (frame_of TypedColumns log)) fs)
     = Some (frame_of TypedColumns log).
Proof.
  intros Hrun Hsel Hnone.
  split; [|apply script_paused_frame, Hrun].
  rewrite (script_paused_page env TypedColumns log fs Hrun).
  destruct log as [|r0 log]; [reflexivity|].
  destruct (sidebar_day_bounds env TypedColumns (r0 :: log)) as (lo & hi & _ & -> & _);
    [discriminate|].
  rewrite Hsel, apply_date_filter_frame_of, (filter_none _ _ Hnone). reflexivity.
Qed.

Lemma empty_window_shows_no_data_witness :
  let env := window_env day2 day1 in
  run_simulation env = false
  /\ (forall lo hi, date_input env lo hi = [day2; day1])
  /\ (forall r, In r two_day_log -> in_window day2 day1 r = false)
  /\ page (script env (Some (frame_of TypedColumns two_day_log)) no_files)
     = Ok (Info no_data_message)
  /\ session (script env (Some (frame_of TypedColumns two_day_log)) no_files)
     = Some (frame_of TypedColumns two_day_log).
Proof.
  intros env.
  assert (H1 : run_simulation env = false) by reflexivity.
  assert (H2 : forall lo hi, date_input env lo hi = [day2; day1])
    by (intros lo hi; reflexivity).
  assert (H3 : forall r, In r two_day_log -> in_window day2 day1 r = false).
  { intros r Hr. repeat (destruct Hr as [<- | Hr]; [reflexivity|]). destruct Hr. }
  split; [exact H1|]. split; [exact H2|]. split; [exact H3|].
  exact (empty_window_shows_no_data env two_day_log no_files day2 day1 H1 H2 H3).
Defined.
